(** * MediaCMS directory watchers: a shallow embedding and its properties

    The development follows the two watch strategies of the repository:

    - [files/directory_monitor.py]: the event-driven [MediaFileHandler]
      (debounced pending files, checksum de-duplication, relocation of
      processed files) and the [DirectoryMonitor] that starts observers;
    - [files/management/commands/watch_media_directories.py]: the poll/scan
      command, gated by the [MediaAutoImportRecord] ledger of
      [files/models/auto_import.py].

    Python strings are [string], integers and clock readings are [Z], the
    ledger table (unique on [source_path]) is a [gmap string _], the Media
    table is a list in creation order, and the file system is a finite map
    from normalised absolute path strings to nodes. *)

From Stdlib Require Import ZArith Ascii String List Bool Lia.
From stdpp Require Import base option list gmap strings fin_maps.

Local Open Scope string_scope.
Local Open Scope Z_scope.

(** ** Python string helpers *)

Module PyStr.

(** [s[n:]] for [0 <= n]. *)
Fixpoint drop (n : nat) (s : string) : string :=
  match n, s with
  | O, _ => s
  | S _, EmptyString => EmptyString
  | S k, String _ r => drop k r
  end.

(** [s[:n]] for [0 <= n]. *)
Fixpoint take (n : nat) (s : string) : string :=
  match n, s with
  | O, _ => EmptyString
  | S _, EmptyString => EmptyString
  | S k, String c r => String c (take k r)
  end.

(** [s.rfind(c)]: index of the last occurrence of [c], or [-1]. The
    accumulator [found] holds the answer for the part already read and
    [i] is the index of the head of [s]. *)
Fixpoint rfind_from (c : ascii) (s : string) (i found : Z) : Z :=
  match s with
  | EmptyString => found
  | String a r => rfind_from c r (i + 1) (if Ascii.eqb a c then i else found)
  end.

Definition rfind (c : ascii) (s : string) : Z := rfind_from c s 0 (-1).

(** [s.startswith(p)] and [s.endswith(p)]. *)
Fixpoint startswith (p s : string) : bool :=
  match p, s with
  | EmptyString, _ => true
  | String _ _, EmptyString => false
  | String a p', String b s' => Ascii.eqb a b && startswith p' s'
  end.

Definition endswith (p s : string) : bool :=
  (String.length p <=? String.length s)%nat
  && String.eqb (drop (String.length s - String.length p) s) p.

(** [s.lower()] on the ASCII range. *)
Definition lower_ascii (c : ascii) : ascii :=
  let n := nat_of_ascii c in
  if ((65 <=? n) && (n <=? 90))%nat then ascii_of_nat (n + 32) else c.

Fixpoint lower (s : string) : string :=
  match s with
  | EmptyString => EmptyString
  | String c r => String (lower_ascii c) (lower r)
  end.

(** [s.lstrip(".")]. *)
Fixpoint lstrip_dots (s : string) : string :=
  match s with
  | String c r => if Ascii.eqb c "." then lstrip_dots r else s
  | EmptyString => EmptyString
  end.

(** Truthiness of a string: [bool(s)]. *)
Definition truthy (s : string) : bool := negb (String.eqb s "").

(** [x in xs] for a list of strings. *)
Definition contains (x : string) (xs : list string) : bool :=
  existsb (String.eqb x) xs.

End PyStr.

(** ** [os.path] and [pathlib] on POSIX

    Paths are the normalised strings that [str(Path(...))] prints. *)

Module PosixPath.

(** [os.path.basename(p)]: [i = p.rfind('/') + 1; return p[i:]]. *)
Definition basename (p : string) : string :=
  let i := PyStr.rfind "/" p + 1 in
  PyStr.drop (Z.to_nat i) p.

(** The scan of [genericpath._splitext] over [p[sepIndex+1:dotIndex]]:
    it returns at the first character that is not a dot. *)
Fixpoint has_non_dot (s : string) : bool :=
  match s with
  | EmptyString => false
  | String c r => if Ascii.eqb c "." then has_non_dot r else true
  end.

(** [os.path.splitext(p)]. *)
Definition splitext (p : string) : string * string :=
  let sepIndex := PyStr.rfind "/" p in
  let dotIndex := PyStr.rfind "." p in
  if dotIndex >? sepIndex then
    let filenameIndex := sepIndex + 1 in
    if has_non_dot
         (PyStr.take (Z.to_nat (dotIndex - filenameIndex))
                     (PyStr.drop (Z.to_nat filenameIndex) p))
    then (PyStr.take (Z.to_nat dotIndex) p, PyStr.drop (Z.to_nat dotIndex) p)
    else (p, "")
  else (p, "").

(** [PurePath.suffix]: [i = name.rfind('.')]; the suffix is [name[i:]]
    when [0 < i < len(name) - 1] and empty otherwise. *)
Definition suffix (p : string) : string :=
  let name := basename p in
  let i := PyStr.rfind "." name in
  if (0 <? i) && (i <? Z.of_nat (String.length name) - 1)
  then PyStr.drop (Z.to_nat i) name else "".

(** [d / s] of pathlib for a segment [s]: an absolute segment replaces
    the path, the segments [""] and ["."] are dropped, and no separator is
    doubled after the root. *)
Definition joinpath (d s : string) : string :=
  if PyStr.startswith "/" s then s
  else if String.eqb s "" || String.eqb s "." then d
  else if String.eqb d "." then s
  else if PyStr.endswith "/" d then d ++ s
  else d ++ "/" ++ s.

(** The chain of directories [mkdir(parents=True)] walks: every prefix
    of [s] that ends before a separator, then the path itself. [pre] is
    the part already read. *)
Fixpoint ancestors_from (pre s : string) : list string :=
  match s with
  | EmptyString => if String.eqb pre "" then [] else [pre]
  | String c r =>
      if Ascii.eqb c "/"
      then (if String.eqb pre "" then [] else [pre])
             ++ ancestors_from (pre ++ "/") r
      else ancestors_from (pre ++ String c EmptyString) r
  end.

Definition ancestors (p : string) : list string := ancestors_from "" p.

End PosixPath.

(** ** The file system

    A finite map from path strings to nodes. A regular file carries its
    bytes and whether [open(path, "rb")] succeeds; a directory carries
    whether [os.access(path, os.R_OK)] holds. Symbolic links are not
    modelled, so [Path.resolve] and [Path.expanduser] are the identity. *)

Module FS.

Inductive node : Type :=
| RegularFile (content : string) (readable : bool)
| Directory (readable : bool).

Definition exists_ (fs : gmap string node) (p : string) : bool :=
  match fs !! p with Some _ => true | None => false end.

Definition isfile (fs : gmap string node) (p : string) : bool :=
  match fs !! p with Some (RegularFile _ _) => true | _ => false end.

Definition isdir (fs : gmap string node) (p : string) : bool :=
  match fs !! p with Some (Directory _) => true | _ => false end.

(** [os.access(p, os.R_OK)]. *)
Definition access_r (fs : gmap string node) (p : string) : bool :=
  match fs !! p with
  | Some (RegularFile _ r) => r
  | Some (Directory r) => r
  | None => false
  end.

(** [os.path.getsize(p)] of a regular file. *)
Definition getsize (fs : gmap string node) (p : string) : Z :=
  match fs !! p with
  | Some (RegularFile c _) => Z.of_nat (String.length c)
  | _ => 0
  end.

(** [open(p, "rb").read()]: [None] stands for the raised [OSError]. *)
Definition read (fs : gmap string node) (p : string) : option string :=
  match fs !! p with
  | Some (RegularFile c true) => Some c
  | _ => None
  end.

(** [Path.mkdir(parents=True, exist_ok=True)]: fails when the path or one
    of its ancestors is a regular file, and otherwise creates whatever
    directory of the chain is missing. *)
Definition mkdir_parents (fs : gmap string node) (p : string)
  : option (gmap string node) :=
  if existsb (isfile fs) (PosixPath.ancestors p) then None
  else Some (foldl (fun acc d => if exists_ acc d then acc
                                 else <[d := Directory true]> acc)
                   fs (PosixPath.ancestors p)).

(** [shutil.move(src, dst)] for a source that is a regular file: a
    destination that is a directory receives the file under its own
    name, and refuses when that name is taken; any other destination is
    the target of [os.rename], which replaces an existing file. *)
Definition move (fs : gmap string node) (src dst : string)
  : option (gmap string node) :=
  match fs !! src with
  | None => None
  | Some n =>
      if isdir fs dst then
        let real_dst := PosixPath.joinpath dst (PosixPath.basename src) in
        if exists_ fs real_dst then None
        else Some (<[real_dst := n]> (delete src fs))
      else Some (<[dst := n]> (delete src fs))
  end.

(** Modelled from the spec: [helpers.rm_file] is not part of the sources
    at hand; "if configured to delete, remove the source file". *)
Definition rm_file (fs : gmap string node) (p : string) : gmap string node :=
  if isfile fs p then delete p fs else fs.

(** Is [p] below directory [base]? [direct] asks for a direct child
    ([glob("*")]); otherwise any depth is accepted ([rglob("*")]). *)
Definition below (base : string) (direct : bool) (p : string) : bool :=
  let pre := if PyStr.endswith "/" base then base else base ++ "/" in
  PyStr.startswith pre p
  && negb (String.eqb p pre)
  && (negb direct
      || (PyStr.rfind "/" (PyStr.drop (String.length pre) p) =? -1)).

End FS.

(** ** The persistent models *)

(** [users.models.User], as far as the watchers look at it. *)
Module UserModel.
Record User : Type := { username : string; email : string }.
End UserModel.

(** Modelled from the spec: the [Media] model is not part of the sources
    at hand. A record has a primary key, an owner, a title, a description,
    the content checksum and a visibility state ([None]: the model's own
    default). *)
Module MediaModel.
Record Media : Type := {
  pk : Z;
  user : string;
  title : string;
  description : string;
  md5sum : option string;
  state : option string
}.

(** [Media.objects.filter(md5sum=x).first()]. *)
Definition filter_md5sum_first (tbl : list Media) (x : string) : option Media :=
  List.find (fun m => match md5sum m with
                      | Some y => String.eqb y x
                      | None => false
                      end) tbl.
End MediaModel.

(** [files/models/auto_import.py] *)
Module AutoImport.

Record MediaAutoImportRecord : Type := {
  source_path : string;      (* unique *)
  config_name : string;
  media_id : option Z;       (* ForeignKey, null=True, on_delete=SET_NULL *)
  md5sum : option string;
  imported_at : option Z;
  last_seen : Z              (* auto_now *)
}.

(** [bool(self.media_id)]: [None] and [0] are falsy. *)
Definition is_imported (r : MediaAutoImportRecord) : bool :=
  match media_id r with
  | Some i => negb (i =? 0)
  | None => false
  end.

(** [on_delete=models.SET_NULL]: deleting the media with key [k] nulls
    the [media] column of the records that point to it, and nothing else. *)
Definition set_null (k : Z) (r : MediaAutoImportRecord) : MediaAutoImportRecord :=
  match media_id r with
  | Some i =>
      if i =? k then
        {| source_path := source_path r; config_name := config_name r;
           media_id := None; md5sum := md5sum r;
           imported_at := imported_at r; last_seen := last_seen r |}
      else r
  | None => r
  end.

(** [MediaAutoImportRecord.objects.get_or_create(source_path=p,
    defaults={"config_name": c})] at clock reading [now]. *)
Definition get_or_create (tbl : gmap string MediaAutoImportRecord)
    (p c : string) (now : Z)
  : gmap string MediaAutoImportRecord * MediaAutoImportRecord * bool :=
  match tbl !! p with
  | Some r => (tbl, r, false)
  | None =>
      let r := {| source_path := p; config_name := c; media_id := None;
                  md5sum := None; imported_at := None; last_seen := now |} in
      (<[p := r]> tbl, r, true)
  end.

(** [record.save(update_fields=[...])] writes the row back under its
    key; [last_seen] is in every field list of the callers, so the
    [auto_now] column takes the clock reading. *)
Definition save (tbl : gmap string MediaAutoImportRecord)
    (r : MediaAutoImportRecord) (now : Z)
  : gmap string MediaAutoImportRecord * MediaAutoImportRecord :=
  let r' := {| source_path := source_path r; config_name := config_name r;
               media_id := media_id r; md5sum := md5sum r;
               imported_at := imported_at r; last_seen := now |} in
  (<[source_path r := r']> tbl, r').

End AutoImport.

(** ** Python dictionaries

    An insertion-ordered association list: assignment to a present key
    keeps its position, assignment to a new key appends, deletion removes
    the key. *)

Module PyDict.
Section dict.
Context {V : Type}.

Fixpoint get (k : string) (d : list (string * V)) : option V :=
  match d with
  | [] => None
  | (k', v) :: r => if String.eqb k' k then Some v else get k r
  end.

Fixpoint set (k : string) (v : V) (d : list (string * V)) : list (string * V) :=
  match d with
  | [] => [(k, v)]
  | (k', v') :: r =>
      if String.eqb k' k then (k', v) :: r else (k', v') :: set k v r
  end.

Definition del (k : string) (d : list (string * V)) : list (string * V) :=
  List.filter (fun kv => negb (String.eqb (fst kv) k)) d.

(** No key occurs twice. *)
Definition wf (d : list (string * V)) : Prop := List.NoDup (List.map fst d).
End dict.
End PyDict.

(** ** The state the watchers act on *)

Record world : Type := {
  fs : gmap string FS.node;
  users : list UserModel.User;
  media : list MediaModel.Media;            (* the Media table, oldest first *)
  media_seq : Z;                            (* last primary key handed out *)
  records : gmap string AutoImport.MediaAutoImportRecord;
  stdout : list string;
  stderr : list string
}.

Definition with_fs (w : world) (f : gmap string FS.node) : world :=
  {| fs := f; users := users w; media := media w; media_seq := media_seq w;
     records := records w; stdout := stdout w; stderr := stderr w |}.

Definition with_records (w : world)
    (t : gmap string AutoImport.MediaAutoImportRecord) : world :=
  {| fs := fs w; users := users w; media := media w; media_seq := media_seq w;
     records := t; stdout := stdout w; stderr := stderr w |}.

Definition write_stdout (w : world) (line : string) : world :=
  {| fs := fs w; users := users w; media := media w; media_seq := media_seq w;
     records := records w; stdout := stdout w ++ [line]; stderr := stderr w |}.

Definition write_stderr (w : world) (line : string) : world :=
  {| fs := fs w; users := users w; media := media w; media_seq := media_seq w;
     records := records w; stdout := stdout w; stderr := stderr w ++ [line] |}.

(** Saving a new [Media] row: the next primary key is handed out and the
    row is appended to the table. *)
Definition insert_media (w : world) (owner ttl descr : string)
    (sum : option string) (st : option string) : world * MediaModel.Media :=
  let m := {| MediaModel.pk := media_seq w + 1; MediaModel.user := owner;
              MediaModel.title := ttl; MediaModel.description := descr;
              MediaModel.md5sum := sum; MediaModel.state := st |} in
  ({| fs := fs w; users := users w; media := media w ++ [m];
      media_seq := media_seq w + 1; records := records w;
      stdout := stdout w; stderr := stderr w |}, m).

(** Deleting a [Media] row: the row goes and [on_delete=SET_NULL] severs
    the ledger records that point to it. *)
Definition delete_media (w : world) (k : Z) : world :=
  {| fs := fs w; users := users w;
     media := List.filter (fun m => negb (MediaModel.pk m =? k)) (media w);
     media_seq := media_seq w;
     records := AutoImport.set_null k <$> records w;
     stdout := stdout w; stderr := stderr w |}.

(** [django.conf.settings]: an absent attribute is [None] and [getattr]
    supplies the default. *)
Record settings : Type := {
  MEDIA_WATCH_DIRS : option (list string);
  MEDIA_WATCH_USER : option string;
  MEDIA_WATCH_DEBOUNCE_SECONDS : option Z;
  MEDIA_WATCH_EXTENSIONS : option (list string);
  MEDIA_WATCH_RECURSIVE : option bool;
  MEDIA_WATCH_DEFAULT_STATE : option string;
  MEDIA_WATCH_MOVE_AFTER_IMPORT : option bool;
  MEDIA_WATCH_PROCESSED_DIR : option string;
  UPLOAD_MAX_SIZE : option Z
}.

Definition getattr {A : Type} (field : option A) (dflt : A) : A :=
  match field with Some v => v | None => dflt end.

(** What lies outside the repository: the digest of [hashlib.md5], the
    formatting of a clock reading by [strftime], whether the Media storage
    accepts a file (name, bytes), and whether a watchdog observer starts on
    a directory. *)
Record environment : Type := {
  md5_hexdigest : string -> string;
  strftime : Z -> string -> string;
  media_save_ok : string -> string -> bool;
  observer_starts : string -> bool
}.

(** ** [files/directory_monitor.py] *)

Module directory_monitor.

Record MediaFileHandler : Type := {
  user : string;
  debounce_seconds : Z;
  extensions : list string;
  default_state : string;
  move_after_import : bool;
  processed_dir : option string;
  pending_files : list (string * Z);
  running : bool
}.

(** [MediaFileHandler.__init__] *)
Definition init (user0 : string) (debounce : Z) (exts : option (list string))
    (state0 : string) (move0 : bool) (dir0 : option string) : MediaFileHandler :=
  {| user := user0; debounce_seconds := debounce;
     extensions := match exts with
                   | Some l => List.map PyStr.lower l
                   | None => []
                   end;
     default_state := state0; move_after_import := move0;
     processed_dir := dir0; pending_files := []; running := true |}.

Definition with_pending (h : MediaFileHandler) (d : list (string * Z))
  : MediaFileHandler :=
  {| user := user h; debounce_seconds := debounce_seconds h;
     extensions := extensions h; default_state := default_state h;
     move_after_import := move_after_import h;
     processed_dir := processed_dir h; pending_files := d;
     running := running h |}.

(** [MediaFileHandler.stop] *)
Definition stop (h : MediaFileHandler) : MediaFileHandler :=
  {| user := user h; debounce_seconds := debounce_seconds h;
     extensions := extensions h; default_state := default_state h;
     move_after_import := move_after_import h;
     processed_dir := processed_dir h; pending_files := pending_files h;
     running := false |}.

Definition _should_process_file (h : MediaFileHandler) (file_path : string) : bool :=
  let filename := PosixPath.basename file_path in
  if PyStr.startswith "." filename || PyStr.endswith ".tmp" filename
     || PyStr.endswith ".part" filename
  then false
  else
    match extensions h with
    | [] => true
    | _ =>
        let file_ext := PyStr.lower (snd (PosixPath.splitext file_path)) in
        PyStr.contains file_ext (extensions h)
    end.

(** A watchdog event. *)
Record event : Type := { is_directory : bool; src_path : string }.

(** [on_created]; [now] is the reading of [time.time()] under the lock. *)
Definition on_created (h : MediaFileHandler) (ev : event) (now : Z)
  : MediaFileHandler :=
  if is_directory ev then h
  else
    let file_path := src_path ev in
    if negb (_should_process_file h file_path) then h
    else with_pending h (PyDict.set file_path now (pending_files h)).

(** [on_modified] *)
Definition on_modified (h : MediaFileHandler) (ev : event) (now : Z)
  : MediaFileHandler :=
  if is_directory ev then h
  else
    let file_path := src_path ev in
    if negb (_should_process_file h file_path) then h
    else with_pending h (PyDict.set file_path now (pending_files h)).

(** The locked block of one turn of [_process_pending_files]: the
    snapshot [list(self.pending_files.items())] is walked, and every entry
    old enough is appended to [files_to_process] and deleted. *)
Definition collect_pending (h : MediaFileHandler) (current_time : Z)
  : MediaFileHandler * list string :=
  let '(d, files_to_process) :=
    List.fold_left
      (fun (acc : list (string * Z) * list string) (item : string * Z) =>
         let '(file_path, event_time) := item in
         if current_time - event_time >=? debounce_seconds h
         then (PyDict.del file_path (fst acc), (snd acc ++ [file_path])%list)
         else acc)
      (pending_files h) (pending_files h, []) in
  (with_pending h d, files_to_process).

(** Which [return] of [_import_media_file] was taken; each carries the
    message the source logs there. *)
Inductive import_outcome : Type :=
| FileMissing            (* "File no longer exists" *)
| NotAFile               (* "Path is not a file" *)
| EmptyFile              (* "File is empty" *)
| TooLarge               (* "File too large" *)
| Md5Failed              (* "Could not calculate MD5, skipping" *)
| DuplicateSkipped (existing : MediaModel.Media)   (* "File already imported" *)
| Imported (m : MediaModel.Media)                  (* "Successfully imported" *)
| ImportError.           (* "Error importing file", the handler of Exception *)

Section with_environment.
Context (E : environment).

(** [_calculate_md5]: [None] when reading raises. *)
Definition _calculate_md5 (f : gmap string FS.node) (file_path : string)
  : option string :=
  match FS.read f file_path with
  | Some bytes => Some (md5_hexdigest E bytes)
  | None => None
  end.

(** [_move_processed_file]; the result carries the [target_path] of the
    "Moved processed file to" log line, [None] when the handler of
    [Exception] ran or nothing was configured. *)
Definition _move_processed_file (h : MediaFileHandler) (now : Z)
    (f : gmap string FS.node) (file_path : string) (duplicate : bool)
  : gmap string FS.node * option string :=
  match processed_dir h with
  | None => (f, None)
  | Some pdir =>
      if negb (PyStr.truthy pdir) then (f, None)
      else
        let target_dir :=
          if duplicate then PosixPath.joinpath pdir "duplicates"
          else PosixPath.joinpath pdir "imported" in
        match FS.mkdir_parents f target_dir with
        | None => (f, None)
        | Some f1 =>
            let filename := PosixPath.basename file_path in
            let target_path := PosixPath.joinpath target_dir filename in
            let target_path :=
              if FS.exists_ f1 target_path then
                let '(name, ext) := PosixPath.splitext filename in
                let timestamp := strftime E now "%Y%m%d_%H%M%S" in
                PosixPath.joinpath target_dir (name ++ "_" ++ timestamp ++ ext)
              else target_path in
            match FS.move f1 file_path target_path with
            | Some f2 => (f2, Some target_path)
            | None => (f1, None)
            end
        end
  end.

(** [self.move_after_import and self.processed_dir] *)
Definition move_configured (h : MediaFileHandler) : bool :=
  move_after_import h
  && match processed_dir h with
     | Some d => PyStr.truthy d
     | None => false
     end.

(** [_import_media_file] *)
Definition _import_media_file (h : MediaFileHandler) (s : settings)
    (now : Z) (w : world) (file_path : string) : world * import_outcome :=
  if negb (FS.exists_ (fs w) file_path) then (w, FileMissing)
  else if negb (FS.isfile (fs w) file_path) then (w, NotAFile)
  else
    let file_size := FS.getsize (fs w) file_path in
    if file_size =? 0 then (w, EmptyFile)
    else
      let max_size := getattr (UPLOAD_MAX_SIZE s) (800 * 1024 * 1000 * 5) in
      if file_size >? max_size then (w, TooLarge)
      else
        match _calculate_md5 (fs w) file_path with
        | None => (w, Md5Failed)
        | Some md5sum =>
            if negb (PyStr.truthy md5sum) then (w, Md5Failed)
            else
              match MediaModel.filter_md5sum_first (media w) md5sum with
              | Some existing_media =>
                  if move_configured h
                  then (with_fs w (fst (_move_processed_file h now (fs w)
                                          file_path true)),
                        DuplicateSkipped existing_media)
                  else (w, DuplicateSkipped existing_media)
              | None =>
                  let filename := PosixPath.basename file_path in
                  let title := fst (PosixPath.splitext filename) in
                  match FS.read (fs w) file_path with
                  | None => (w, ImportError)
                  | Some bytes =>
                      if negb (media_save_ok E filename bytes)
                      then (w, ImportError)
                      else
                        let '(w1, m) :=
                          insert_media w (user h) title
                            ("Auto-imported from directory on "
                               ++ strftime E now "%Y-%m-%d %H:%M:%S")
                            (Some md5sum)
                            (if String.eqb (default_state h) "public"
                             then None else Some (default_state h)) in
                        if move_configured h
                        then (with_fs w1 (fst (_move_processed_file h now
                                                 (fs w1) file_path false)),
                              Imported m)
                        else (w1, Imported m)
                  end
              end
        end.

(** One turn of the worker loop of [_process_pending_files]: collect
    under the lock, then import outside of it. *)
Definition _process_pending_files (h : MediaFileHandler) (s : settings)
    (current_time : Z) (w : world)
  : MediaFileHandler * world * list (string * import_outcome) :=
  let '(h1, files_to_process) := collect_pending h current_time in
  let '(w1, log) :=
    List.fold_left
      (fun (acc : world * list (string * import_outcome)) file_path =>
         let '(w2, o) := _import_media_file h s current_time (fst acc) file_path in
         (w2, (snd acc ++ [(file_path, o)])%list))
      files_to_process (w, []) in
  (h1, w1, log).

End with_environment.

End directory_monitor.

(** [DirectoryMonitor] of [files/directory_monitor.py] *)

Module DirectoryMonitor.

Record Observer : Type := { watch_dir : string; recursive : bool }.

Record t : Type := {
  observers : list Observer;
  handlers : list directory_monitor.MediaFileHandler;
  running : bool
}.

(** [DirectoryMonitor.__init__] *)
Definition init : t := {| observers := []; handlers := []; running := false |}.

(** A directory passes the validation loop of [start] when it exists,
    is a directory and is readable. *)
Definition valid_dir (f : gmap string FS.node) (d : string) : bool :=
  FS.exists_ f d && FS.isdir f d && FS.access_r f d.

(** [DirectoryMonitor.start]: the monitor and the world afterwards, and
    the returned flag. *)
Definition start (E : environment) (s : settings) (mon : t) (w : world)
  : t * world * bool :=
  let watch_dirs := getattr (MEDIA_WATCH_DIRS s) [] in
  let watch_user := getattr (MEDIA_WATCH_USER s) "" in
  let debounce_seconds := getattr (MEDIA_WATCH_DEBOUNCE_SECONDS s) 5 in
  let extensions := getattr (MEDIA_WATCH_EXTENSIONS s) [] in
  let recursive := getattr (MEDIA_WATCH_RECURSIVE s) true in
  let default_state := getattr (MEDIA_WATCH_DEFAULT_STATE s) "public" in
  let move_after_import := getattr (MEDIA_WATCH_MOVE_AFTER_IMPORT s) false in
  let processed_dir := getattr (MEDIA_WATCH_PROCESSED_DIR s) "" in
  match watch_dirs with
  | [] => (mon, w, false)
  | _ =>
      if negb (PyStr.truthy watch_user) then (mon, w, false)
      else
        match List.find (fun u => String.eqb (UserModel.username u) watch_user)
                        (users w) with
        | None => (mon, w, false)
        | Some user =>
            let valid_dirs := List.filter (valid_dir (fs w)) watch_dirs in
            match valid_dirs with
            | [] => (mon, w, false)
            | _ =>
                let prepared :=
                  if move_after_import then
                    if negb (PyStr.truthy processed_dir) then None
                    else FS.mkdir_parents (fs w) processed_dir
                  else Some (fs w) in
                match prepared with
                | None => (mon, w, false)
                | Some f1 =>
                    let handler :=
                      directory_monitor.init (UserModel.username user)
                        debounce_seconds (Some extensions) default_state
                        move_after_import
                        (if move_after_import then Some processed_dir else None) in
                    let started :=
                      List.map (fun d => {| watch_dir := d; recursive := recursive |})
                               (List.filter (observer_starts E) valid_dirs) in
                    let mon1 := {| observers := (observers mon ++ started)%list;
                                   handlers := (handlers mon ++ [handler])%list;
                                   running := running mon |} in
                    match observers mon1 with
                    | [] => (mon1, with_fs w f1, false)
                    | _ => ({| observers := observers mon1;
                               handlers := handlers mon1;
                               running := true |}, with_fs w f1, true)
                    end
                end
            end
        end
  end.

End DirectoryMonitor.

(** ** [files/management/commands/watch_media_directories.py]

    A configuration dictionary is a record of its optional keys. The
    keys [channel], [categories], [tags], [allow_download] and
    [is_reviewed] are taken to be absent: their resolvers then return
    [None] and empty lists and touch nothing. *)

Module watch_media_directories.

Record options : Type := {
  once : bool;
  interval : Z;
  dry_run : bool;
  force : bool
}.

Record watch_config : Type := {
  path : option string;
  name : option string;
  recursive : option bool;
  extensions : list string;
  delete_after_import : bool;
  user : option string;
  state : option string;
  description : option string
}.

(** An entry of [MEDIA_AUTO_IMPORT_DIRECTORIES]: a dictionary or not. *)
Inductive config_entry : Type :=
| NotADict
| ConfigDict (c : watch_config).

(** What the loop body of [process_config] did with a file. *)
Inductive scan_outcome : Type :=
| ExtensionFiltered      (* the first [continue] *)
| AlreadyImported        (* [record.is_imported and not options["force"]] *)
| DryRunReported         (* "[dry-run] Would import" *)
| ImportFailed           (* "Failed to import", the handler of Exception *)
| ImportedAs (m : MediaModel.Media).   (* "Imported ... as ..." *)

Inductive result : Type :=
| Done (w : world) (log : list (string * scan_outcome))
| CommandError (msg : string) (w : world).

(** [_iter_files]: the regular files below [base_path], at any depth
    when [recursive] and direct children otherwise. *)
Definition _iter_files (f : gmap string FS.node) (base_path : string)
    (recursive0 : bool) : list string :=
  List.filter (fun p => FS.below base_path (negb recursive0) p && FS.isfile f p)
              (List.map fst (map_to_list f)).

Definition _normalise_extensions (exts : list string) : list string :=
  List.map (fun ext => PyStr.lstrip_dots (PyStr.lower ext)) exts.

(** [_resolve_user]: the user, or the message of the raised
    [CommandError]. *)
Definition _resolve_user (c : watch_config) (w : world)
  : UserModel.User + string :=
  let missing := "Watcher configuration requires a 'user' to assign media to" in
  match user c with
  | None => inr missing
  | Some identifier =>
      if negb (PyStr.truthy identifier) then inr missing
      else
        match List.find (fun u => String.eqb (UserModel.username u) identifier
                                  || String.eqb (UserModel.email u) identifier)
                        (users w) with
        | Some u => inl u
        | None => inr ("Cannot find user with username/email '"
                         ++ identifier ++ "'")
        end
  end.

(** Lines 100-111 of [process_config]: [get_or_create] on the source
    path, and for a row that was there already the write of [last_seen]
    and, when it differs, of [config_name]. *)
Definition observe_path (tbl : gmap string AutoImport.MediaAutoImportRecord)
    (source_path config_name0 : string) (now : Z)
  : gmap string AutoImport.MediaAutoImportRecord
    * AutoImport.MediaAutoImportRecord * bool :=
  let '(tbl1, record, created) :=
    AutoImport.get_or_create tbl source_path config_name0 now in
  if created then (tbl1, record, created)
  else
    let record :=
      if negb (String.eqb (AutoImport.config_name record) config_name0)
      then {| AutoImport.source_path := AutoImport.source_path record;
              AutoImport.config_name := config_name0;
              AutoImport.media_id := AutoImport.media_id record;
              AutoImport.md5sum := AutoImport.md5sum record;
              AutoImport.imported_at := AutoImport.imported_at record;
              AutoImport.last_seen := AutoImport.last_seen record |}
      else record in
    let '(tbl2, record) := AutoImport.save tbl1 record now in
    (tbl2, record, created).

(** Lines 137-141 of [process_config]: the terminal fields are assigned
    and the row is saved. *)
Definition mark_imported (tbl : gmap string AutoImport.MediaAutoImportRecord)
    (record : AutoImport.MediaAutoImportRecord) (media0 : MediaModel.Media)
    (config_name0 : string) (now : Z)
  : gmap string AutoImport.MediaAutoImportRecord
    * AutoImport.MediaAutoImportRecord :=
  AutoImport.save tbl
    {| AutoImport.source_path := AutoImport.source_path record;
       AutoImport.config_name := config_name0;
       AutoImport.media_id := Some (MediaModel.pk media0);
       AutoImport.md5sum := MediaModel.md5sum media0;
       AutoImport.imported_at := Some now;
       AutoImport.last_seen := AutoImport.last_seen record |}
    now.

(** [config.get(key)] used as a condition or under [or]: [None] and the
    empty string are falsy. *)
Definition truthy_value (o : option string) : option string :=
  match o with
  | Some v => if PyStr.truthy v then Some v else None
  | None => None
  end.

(** The extension test at the head of the loop body of [process_config]:
    [extensions and file_path.suffix.lower().lstrip(".") not in extensions]. *)
Definition extension_excluded (exts : list string) (file_path : string) : bool :=
  match exts with [] => false | _ => true end
  && negb (PyStr.contains
             (PyStr.lstrip_dots (PyStr.lower (PosixPath.suffix file_path)))
             exts).

Section with_environment.
Context (E : environment).

(** [_import_file], under [transaction.atomic]: [None] stands for a
    raised exception, which leaves no row behind. The checksum of the
    returned row is the one the Media model computes on creation. *)
Definition _import_file (w : world) (file_path : string)
    (owner : UserModel.User) (state0 description0 : option string)
  : option (world * MediaModel.Media) :=
  match FS.read (fs w) file_path with
  | None => None
  | Some bytes =>
      if negb (media_save_ok E (PosixPath.basename file_path) bytes) then None
      else Some (insert_media w (UserModel.username owner) ""
                   (getattr (truthy_value description0) "")
                   (Some (md5_hexdigest E bytes))
                   (truthy_value state0))
  end.

(** The body of the [for file_path in ...] loop of [process_config]. *)
Definition scan_file (c : watch_config) (opts : options)
    (config_name0 : string) (exts : list string) (delete_after : bool)
    (owner : UserModel.User) (now : Z) (w : world) (file_path : string)
  : world * scan_outcome :=
  if extension_excluded exts file_path then (w, ExtensionFiltered)
  else
    let source_path := file_path in
    let '(tbl, record, created) :=
      observe_path (records w) source_path config_name0 now in
    let w := with_records w tbl in
    if AutoImport.is_imported record && negb (force opts)
    then (w, AlreadyImported)
    else if dry_run opts
    then (write_stdout w ("[dry-run] Would import " ++ source_path),
          DryRunReported)
    else
      match _import_file w file_path owner (state c) (description c) with
      | None =>
          (write_stderr w ("Failed to import " ++ source_path), ImportFailed)
      | Some (w1, media0) =>
          let w2 :=
            with_records w1
              (fst (mark_imported (records w1) record media0 config_name0 now)) in
          let w3 := write_stdout w2 ("Imported " ++ source_path) in
          if delete_after
          then (with_fs w3 (FS.rm_file (fs w3) source_path), ImportedAs media0)
          else (w3, ImportedAs media0)
      end.

(** The loop of [process_config] over the files found. *)
Fixpoint scan_files (c : watch_config) (opts : options)
    (config_name0 : string) (exts : list string) (delete_after : bool)
    (owner : UserModel.User) (now : Z) (w : world) (files : list string)
  : world * list (string * scan_outcome) :=
  match files with
  | [] => (w, [])
  | file_path :: rest =>
      let '(w1, o) :=
        scan_file c opts config_name0 exts delete_after owner now w file_path in
      let '(w2, log) :=
        scan_files c opts config_name0 exts delete_after owner now w1 rest in
      (w2, (file_path, o) :: log)
  end.

(** [process_config] *)
Definition process_config (entry : config_entry) (opts : options)
    (now : Z) (w : world) : result :=
  match entry with
  | NotADict => CommandError "Each watcher configuration must be a dictionary" w
  | ConfigDict c =>
      match path c with
      | None => CommandError "Watcher configuration is missing the 'path' key" w
      | Some path0 =>
          if negb (FS.exists_ (fs w) path0) || negb (FS.isdir (fs w) path0)
          then CommandError ("Watch directory does not exist: " ++ path0) w
          else
            let config_name0 := getattr (truthy_value (name c)) path0 in
            let recursive0 := getattr (recursive c) true in
            let exts := _normalise_extensions (extensions c) in
            let delete_after := delete_after_import c in
            match _resolve_user c w with
            | inr msg => CommandError msg w
            | inl owner =>
                let '(w1, log) :=
                  scan_files c opts config_name0 exts delete_after owner now w
                             (_iter_files (fs w) path0 recursive0) in
                Done w1 log
            end
      end
  end.

(** The [for config in configs] loop of [handle]: a [CommandError] is
    raised again and ends the loop. *)
Fixpoint process_configs (configs : list config_entry) (opts : options)
    (now : Z) (w : world) : result :=
  match configs with
  | [] => Done w []
  | config :: rest =>
      match process_config config opts now w with
      | CommandError msg w1 => CommandError msg w1
      | Done w1 log1 =>
          match process_configs rest opts now w1 with
          | CommandError msg w2 => CommandError msg w2
          | Done w2 log2 => Done w2 (log1 ++ log2)%list
          end
      end
  end.

(** The [while True] loop of [handle]. [clock] lists the clock reading
    of every scan that begins before the user interrupts. *)
Fixpoint scan_loop (configs : list config_entry) (opts : options)
    (clock : list Z) (w : world) : result :=
  match clock with
  | [] => Done (write_stdout w "Watcher interrupted by user.") []
  | now :: later =>
      match process_configs configs opts now w with
      | CommandError msg w1 => CommandError msg w1
      | Done w1 log1 =>
          if once opts then Done w1 log1
          else
            match scan_loop configs opts later w1 with
            | CommandError msg w2 => CommandError msg w2
            | Done w2 log2 => Done w2 (log1 ++ log2)%list
            end
      end
  end.

(** [handle]; [configured] is the setting
    [MEDIA_AUTO_IMPORT_DIRECTORIES]. *)
Definition handle (configured : option (list config_entry)) (opts : options)
    (clock : list Z) (w : world) : result :=
  match getattr configured [] with
  | [] => Done (write_stdout w "No watch directories configured.") []
  | configs => scan_loop configs opts clock w
  end.

End with_environment.

End watch_media_directories.

(** ** The debouncer as a sequence of calls

    The handler methods and the turns of the worker thread all take
    [self.lock] before they touch [pending_files], so a run of the handler
    is the list of these calls in the order in which they held the lock.
    Every call carries the reading of [time.time()] it works with; the
    worker takes its reading before it asks for the lock. *)

Module debouncer.
Import directory_monitor.

Inductive call : Type :=
| Created (ev : event) (now : Z)
| Modified (ev : event) (now : Z)
| Tick (current_time : Z).

(** One call: the handler afterwards and the [files_to_process] that a
    turn of the worker hands to the import. *)
Definition step (h : MediaFileHandler) (c : call)
  : MediaFileHandler * list string :=
  match c with
  | Created ev now => (on_created h ev now, [])
  | Modified ev now => (on_modified h ev now, [])
  | Tick current_time => collect_pending h current_time
  end.

(** A run: the handler at the end and the settle notifications, each a
    path with the clock reading of the turn that released it. *)
Fixpoint run (h : MediaFileHandler) (calls : list call)
  : MediaFileHandler * list (string * Z) :=
  match calls with
  | [] => (h, [])
  | c :: rest =>
      let '(h1, files_to_process) := step h c in
      let '(h2, later) := run h1 rest in
      (h2, (List.map (fun p => (p, match c with
                                   | Tick t => t
                                   | Created _ t | Modified _ t => t
                                   end)) files_to_process ++ later)%list)
  end.

(** The settle notifications of one path. *)
Definition settled (p : string) (out : list (string * Z)) : list Z :=
  List.map snd (List.filter (fun x => String.eqb (fst x) p) out).

(** The clock reading of a call when it is a create or modify event for
    the file [p] that the handler lets through. *)
Definition touches (h : MediaFileHandler) (p : string) (c : call) : option Z :=
  match c with
  | Created ev now | Modified ev now =>
      if negb (is_directory ev) && String.eqb (src_path ev) p
         && _should_process_file h p
      then Some now else None
  | Tick _ => None
  end.

(** The readings of the events of [p] in a run, in order. *)
Fixpoint event_times (h : MediaFileHandler) (p : string) (calls : list call)
  : list Z :=
  match calls with
  | [] => []
  | c :: rest =>
      match touches h p c with
      | Some e => e :: event_times h p rest
      | None => event_times h p rest
      end
  end.

(** Consecutive readings lie less than [d] apart. *)
Fixpoint spaced (d : Z) (l : list Z) : Prop :=
  match l with
  | a :: (b :: _) as rest => b - a < d /\ spaced d rest
  | _ => True
  end.

(** The clock does not run backwards between a turn of the worker and a
    later event of [p]: the turn's reading, taken before the event took
    the lock, is at most the reading of the event. *)
Fixpoint causal (h : MediaFileHandler) (p : string) (calls : list call) : Prop :=
  match calls with
  | [] => True
  | Tick t :: rest =>
      match event_times h p rest with
      | e :: _ => t <= e
      | [] => True
      end /\ causal h p rest
  | _ :: rest => causal h p rest
  end.

(** The per-path view of a run: the readings of the turns that release
    [p], given the pending stamp [cur] of [p] at the start. *)
Fixpoint releases (h : MediaFileHandler) (p : string) (cur : option Z)
    (calls : list call) : list Z :=
  match calls with
  | [] => []
  | c :: rest =>
      match touches h p c with
      | Some e => releases h p (Some e) rest
      | None =>
          match c, cur with
          | Tick t, Some e =>
              if t - e >=? debounce_seconds h
              then t :: releases h p None rest
              else releases h p cur rest
          | _, _ => releases h p cur rest
          end
      end
  end.

End debouncer.


(** ** Invariants of the tables and sample data *)

(** The ledger is keyed by [source_path], its unique column. *)
Definition keyed (tbl : gmap string AutoImport.MediaAutoImportRecord) : Prop :=
  forall k r, tbl !! k = Some r -> AutoImport.source_path r = k.

(** Primary keys are handed out from 1 upwards, and every media reference
    of the ledger is a key that was handed out. *)
Definition keys_positive (w : world) : Prop :=
  0 <= media_seq w /\
  forall k r i, records w !! k = Some r -> AutoImport.media_id r = Some i ->
                0 < i <= media_seq w.

Definition consistent (w : world) : Prop :=
  keyed (records w) /\ keys_positive w.

Module Sample.

(** An environment in which the storage accepts every file and every
    observer starts. *)
Definition env : environment :=
  {| md5_hexdigest := fun bytes => "md5:" ++ bytes;
     strftime := fun _ fmt => if String.eqb fmt "%Y%m%d_%H%M%S"
                              then "20260102_030405"
                              else "2026-01-02 03:04:05";
     media_save_ok := fun _ _ => true;
     observer_starts := fun _ => true |}.

Definition alice : UserModel.User :=
  {| UserModel.username := "alice"; UserModel.email := "alice@example.com" |}.

Definition empty_world (f : gmap string FS.node) : world :=
  {| fs := f; users := [alice]; media := []; media_seq := 0; records := ∅;
     stdout := []; stderr := [] |}.

(** A row of the ledger that was imported as media 1. *)
Definition imported_row : AutoImport.MediaAutoImportRecord :=
  {| AutoImport.source_path := "/w/a.jpg"; AutoImport.config_name := "old";
     AutoImport.media_id := Some 1; AutoImport.md5sum := Some "md5:X";
     AutoImport.imported_at := Some 10; AutoImport.last_seen := 10 |}.

(** The media that [imported_row] points to. *)
Definition media_one : MediaModel.Media :=
  {| MediaModel.pk := 1; MediaModel.user := "alice"; MediaModel.title := "";
     MediaModel.description := ""; MediaModel.md5sum := Some "md5:X";
     MediaModel.state := None |}.

(** The watched directory [/w] with the file [a.jpg] of content ["X"]. *)
Definition watched : gmap string FS.node :=
  {[ "/w" := FS.Directory true; "/w/a.jpg" := FS.RegularFile "X" true ]}.

(** The world after [/w/a.jpg] was imported once. *)
Definition imported_world : world :=
  {| fs := watched; users := [alice]; media := [media_one]; media_seq := 1;
     records := {["/w/a.jpg" := imported_row]}; stdout := []; stderr := [] |}.

Definition plain_options : watch_media_directories.options :=
  {| watch_media_directories.once := true; watch_media_directories.interval := 30;
     watch_media_directories.dry_run := false;
     watch_media_directories.force := false |}.

Definition force_options : watch_media_directories.options :=
  {| watch_media_directories.once := true; watch_media_directories.interval := 30;
     watch_media_directories.dry_run := false;
     watch_media_directories.force := true |}.

Definition dry_run_options : watch_media_directories.options :=
  {| watch_media_directories.once := true; watch_media_directories.interval := 30;
     watch_media_directories.dry_run := true;
     watch_media_directories.force := false |}.

Definition config_w : watch_media_directories.watch_config :=
  {| watch_media_directories.path := Some "/w";
     watch_media_directories.name := None;
     watch_media_directories.recursive := Some false;
     watch_media_directories.extensions := [];
     watch_media_directories.delete_after_import := false;
     watch_media_directories.user := Some "alice";
     watch_media_directories.state := None;
     watch_media_directories.description := None |}.

(** World and log of a finished run of the command. *)
Definition world_of (r : watch_media_directories.result) : world :=
  match r with
  | watch_media_directories.Done w _ => w
  | watch_media_directories.CommandError _ w => w
  end.

Definition log_of (r : watch_media_directories.result)
  : list (string * watch_media_directories.scan_outcome) :=
  match r with
  | watch_media_directories.Done _ log => log
  | watch_media_directories.CommandError _ _ => []
  end.

(** A first and a second pass over [/w], which holds [a.jpg]. *)
Definition first_pass : watch_media_directories.result :=
  watch_media_directories.process_config env
    (watch_media_directories.ConfigDict config_w) plain_options 10
    (empty_world watched).

Definition second_pass : watch_media_directories.result :=
  watch_media_directories.process_config env
    (watch_media_directories.ConfigDict config_w) plain_options 20
    (world_of first_pass).

(** Settings of the event-driven monitor: one missing and one valid
    directory. *)
Definition mixed_settings : settings :=
  {| MEDIA_WATCH_DIRS := Some ["/missing"; "/w"];
     MEDIA_WATCH_USER := Some "alice";
     MEDIA_WATCH_DEBOUNCE_SECONDS := None;
     MEDIA_WATCH_EXTENSIONS := None;
     MEDIA_WATCH_RECURSIVE := None;
     MEDIA_WATCH_DEFAULT_STATE := None;
     MEDIA_WATCH_MOVE_AFTER_IMPORT := None;
     MEDIA_WATCH_PROCESSED_DIR := None;
     UPLOAD_MAX_SIZE := None |}.

(** A poll configuration whose directory does not exist. *)
Definition config_missing : watch_media_directories.watch_config :=
  {| watch_media_directories.path := Some "/missing";
     watch_media_directories.name := None;
     watch_media_directories.recursive := None;
     watch_media_directories.extensions := [];
     watch_media_directories.delete_after_import := false;
     watch_media_directories.user := Some "alice";
     watch_media_directories.state := None;
     watch_media_directories.description := None |}.

(** An event handler for alice: five seconds of debounce, every
    extension, no relocation. *)
Definition handler : directory_monitor.MediaFileHandler :=
  directory_monitor.init "alice" 5 None "public" false None.

(** Settings with a size ceiling of one byte. *)
Definition one_byte_ceiling : settings :=
  {| MEDIA_WATCH_DIRS := None; MEDIA_WATCH_USER := None;
     MEDIA_WATCH_DEBOUNCE_SECONDS := None; MEDIA_WATCH_EXTENSIONS := None;
     MEDIA_WATCH_RECURSIVE := None; MEDIA_WATCH_DEFAULT_STATE := None;
     MEDIA_WATCH_MOVE_AFTER_IMPORT := None; MEDIA_WATCH_PROCESSED_DIR := None;
     UPLOAD_MAX_SIZE := Some 1 |}.

(** The watched directory with an empty file. *)
Definition watched_empty_file : gmap string FS.node :=
  {[ "/w" := FS.Directory true; "/w/empty.jpg" := FS.RegularFile "" true ]}.

(** The watched directory with two files of the same content. *)
Definition watched_twins : gmap string FS.node :=
  {[ "/w" := FS.Directory true; "/w/a.jpg" := FS.RegularFile "X" true;
     "/w/b.jpg" := FS.RegularFile "X" true ]}.

(** The event-driven import of the first twin, and the media it makes. *)
Definition twin_import : world * directory_monitor.import_outcome :=
  directory_monitor._import_media_file env handler one_byte_ceiling 7
    (empty_world watched_twins) "/w/a.jpg".

Definition twin_media : MediaModel.Media :=
  {| MediaModel.pk := 1; MediaModel.user := "alice"; MediaModel.title := "a";
     MediaModel.description :=
       "Auto-imported from directory on 2026-01-02 03:04:05";
     MediaModel.md5sum := Some "md5:X"; MediaModel.state := None |}.

(** A handler that relocates into [/p], and a file system in which the
    name [a.jpg] is taken below [/p/imported]. *)
Definition moving_handler : directory_monitor.MediaFileHandler :=
  directory_monitor.init "alice" 5 None "public" true (Some "/p").

Definition watched_taken : gmap string FS.node :=
  {[ "/w" := FS.Directory true; "/w/a.jpg" := FS.RegularFile "X" true;
     "/p" := FS.Directory true; "/p/imported" := FS.Directory true;
     "/p/imported/a.jpg" := FS.RegularFile "old" true ]}.

(** A burst of events for [/w/a.jpg] at 0, 3 and 6 under a window of
    five seconds, with turns of the worker in between and afterwards. *)
Definition event_a : directory_monitor.event :=
  {| directory_monitor.is_directory := false;
     directory_monitor.src_path := "/w/a.jpg" |}.

Definition burst : list debouncer.call :=
  [debouncer.Created event_a 0; debouncer.Tick 1;
   debouncer.Modified event_a 3; debouncer.Tick 4].

Definition last_event : debouncer.call := debouncer.Modified event_a 6.

Definition quiet : list debouncer.call :=
  [debouncer.Tick 7; debouncer.Tick 11; debouncer.Tick 12].

End Sample.

(** ** Views of a log and of the tables *)

(** The media that the log of a scan reports as imported, in order. *)
Definition imported_media
    (log : list (string * watch_media_directories.scan_outcome))
  : list MediaModel.Media :=
  List.flat_map (fun e => match snd e with
                          | watch_media_directories.ImportedAs m => [m]
                          | _ => []
                          end) log.

(** The lines that a scan with this log writes to standard output. *)
Definition stdout_lines
    (log : list (string * watch_media_directories.scan_outcome)) : list string :=
  List.flat_map (fun e => match snd e with
                          | watch_media_directories.DryRunReported =>
                              ["[dry-run] Would import " ++ fst e]
                          | watch_media_directories.ImportedAs _ =>
                              ["Imported " ++ fst e]
                          | _ => []
                          end) log.

(** The lines that a scan with this log writes to standard error. *)
Definition stderr_lines
    (log : list (string * watch_media_directories.scan_outcome)) : list string :=
  List.flat_map (fun e => match snd e with
                          | watch_media_directories.ImportFailed =>
                              ["Failed to import " ++ fst e]
                          | _ => []
                          end) log.

(** The paths that the log of a scan reports as imported. *)
Definition imported_paths
    (log : list (string * watch_media_directories.scan_outcome)) : list string :=
  List.flat_map (fun e => match snd e with
                          | watch_media_directories.ImportedAs _ => [fst e]
                          | _ => []
                          end) log.

(** The media that the log of a worker turn reports as imported. *)
Definition event_imported
    (log : list (string * directory_monitor.import_outcome))
  : list MediaModel.Media :=
  List.flat_map (fun e => match snd e with
                          | directory_monitor.Imported m => [m]
                          | _ => []
                          end) log.

(** The checksums of the Media table, and their being pairwise distinct. *)
Definition checksums (tbl : list MediaModel.Media) : list string :=
  List.flat_map (fun m => match MediaModel.md5sum m with
                          | Some x => [x]
                          | None => []
                          end) tbl.

Definition unique_checksums (tbl : list MediaModel.Media) : Prop :=
  List.NoDup (checksums tbl).

(** Every media reference of the ledger points to a row of the Media
    table. *)
Definition referential (w : world) : Prop :=
  forall k r i, records w !! k = Some r -> AutoImport.media_id r = Some i ->
                exists m, In m (media w) /\ MediaModel.pk m = i.

(** Every row of the Media table has a key that was handed out. *)
Definition keys_handed_out (w : world) : Prop :=
  forall m, In m (media w) -> 0 < MediaModel.pk m <= media_seq w.

(** The ledger holds an imported row for the path. *)
Definition imported_in (w : world) (p : string) : Prop :=
  exists r, records w !! p = Some r /\ AutoImport.is_imported r = true.

(** A stretch of a run that imports no path twice: the tables stay
    consistent, a path that was imported before stays imported and is not
    imported again, a path that is imported is imported at the end, and no path
    occurs twice among the imported ones. *)
Definition imports_once (w w' : world)
    (log : list (string * watch_media_directories.scan_outcome)) : Prop :=
  consistent w'
  /\ (forall p, imported_in w p ->
                imported_in w' p /\ ~ In p (imported_paths log))
  /\ (forall p, In p (imported_paths log) -> imported_in w' p)
  /\ List.NoDup (imported_paths log).

(** * Properties *)

(** ** Paths, on examples *)

Example basename_ex : PosixPath.basename "/w/a.jpg" = "a.jpg".
Proof. reflexivity. Qed.

Example splitext_ex : PosixPath.splitext "/w/a.tar.gz" = ("/w/a.tar", ".gz").
Proof. reflexivity. Qed.

Example splitext_dotfile : PosixPath.splitext "/w/..a" = ("/w/..a", "").
Proof. reflexivity. Qed.

Example suffix_ex : PosixPath.suffix "/w/..a" = ".a".
Proof. reflexivity. Qed.

Example ancestors_ex :
  PosixPath.ancestors "/p/imported" = ["/p"; "/p/imported"].
Proof. reflexivity. Qed.

Example should_process_hidden :
  directory_monitor._should_process_file Sample.handler "/w/.hidden" = false
  /\ directory_monitor._should_process_file Sample.handler "/w/clip.mp4.part" = false
  /\ directory_monitor._should_process_file Sample.handler "/w/a.jpg" = true.
Proof. by repeat split. Qed.

(** ** The ledger *)

Lemma keyed_insert tbl (r : AutoImport.MediaAutoImportRecord) :
  keyed tbl -> keyed (<[AutoImport.source_path r := r]> tbl).
Proof.
  intros Hk k r' Hl.
  destruct (decide (AutoImport.source_path r = k)) as [<-|Hne].
  - rewrite lookup_insert_eq in Hl. by inversion Hl.
  - rewrite lookup_insert_ne in Hl by done. by apply Hk.
Qed.

Lemma keyed_singleton (r : AutoImport.MediaAutoImportRecord) :
  keyed {[AutoImport.source_path r := r]}.
Proof.
  intros k r' Hl. apply lookup_singleton_Some in Hl as [<- <-]. done.
Qed.

Lemma keyed_empty : keyed ∅.
Proof. intros k r Hl. by rewrite lookup_empty in Hl. Qed.

(** What [observe_path] returns and leaves behind, case by case. *)
Lemma observe_path_fresh tbl p c now :
  tbl !! p = None ->
  watch_media_directories.observe_path tbl p c now
  = (<[p := {| AutoImport.source_path := p; AutoImport.config_name := c;
               AutoImport.media_id := None; AutoImport.md5sum := None;
               AutoImport.imported_at := None; AutoImport.last_seen := now |}]> tbl,
     {| AutoImport.source_path := p; AutoImport.config_name := c;
        AutoImport.media_id := None; AutoImport.md5sum := None;
        AutoImport.imported_at := None; AutoImport.last_seen := now |},
     true).
Proof.
  intros Hl. unfold watch_media_directories.observe_path, AutoImport.get_or_create.
  by rewrite Hl.
Qed.

Lemma observe_path_seen tbl p c now r0 :
  tbl !! p = Some r0 ->
  watch_media_directories.observe_path tbl p c now
  = (<[AutoImport.source_path r0 :=
         {| AutoImport.source_path := AutoImport.source_path r0;
            AutoImport.config_name := c;
            AutoImport.media_id := AutoImport.media_id r0;
            AutoImport.md5sum := AutoImport.md5sum r0;
            AutoImport.imported_at := AutoImport.imported_at r0;
            AutoImport.last_seen := now |}]> tbl,
     {| AutoImport.source_path := AutoImport.source_path r0;
        AutoImport.config_name := c;
        AutoImport.media_id := AutoImport.media_id r0;
        AutoImport.md5sum := AutoImport.md5sum r0;
        AutoImport.imported_at := AutoImport.imported_at r0;
        AutoImport.last_seen := now |},
     false).
Proof.
  intros Hl. unfold watch_media_directories.observe_path, AutoImport.get_or_create.
  rewrite Hl. cbn.
  destruct (String.eqb_spec (AutoImport.config_name r0) c) as [Heq|Hne]; cbn.
  - by rewrite Heq.
  - done.
Qed.

(** C7: the get-or-create step of the poll scan is an upsert keyed on the
    source path. A path without a row gets one with the caller's
    configuration name and empty terminal fields; a path with a row keeps
    its terminal fields and has its configuration name set to the caller's;
    in both cases the row's last-seen stamp is the clock reading of the
    observation, and no other row changes. *)
Theorem C7_observe_path_upsert
    (tbl : gmap string AutoImport.MediaAutoImportRecord)
    (p c : string) (now : Z) :
  keyed tbl ->
  let '(tbl', r, created) := watch_media_directories.observe_path tbl p c now in
  tbl' !! p = Some r
  /\ AutoImport.source_path r = p
  /\ AutoImport.config_name r = c
  /\ AutoImport.last_seen r = now
  /\ (created = true <-> tbl !! p = None)
  /\ match tbl !! p with
     | None => AutoImport.media_id r = None /\ AutoImport.md5sum r = None
               /\ AutoImport.imported_at r = None
     | Some r0 => AutoImport.media_id r = AutoImport.media_id r0
                  /\ AutoImport.md5sum r = AutoImport.md5sum r0
                  /\ AutoImport.imported_at r = AutoImport.imported_at r0
     end
  /\ (forall q, q <> p -> tbl' !! q = tbl !! q)
  /\ keyed tbl'.
Proof.
  intros Hk. destruct (tbl !! p) as [r0|] eqn:Hl.
  - rewrite (observe_path_seen _ _ _ _ _ Hl).
    pose proof (Hk _ _ Hl) as Hsp. rewrite Hsp. cbn.
    repeat split; try done.
    + apply lookup_insert_eq.
    + intros q Hq. by rewrite lookup_insert_ne.
    + intros k r' Hl'. destruct (decide (p = k)) as [<-|Hne].
      * rewrite lookup_insert_eq in Hl'. inversion Hl'; subst r'. done.
      * rewrite lookup_insert_ne in Hl' by done. by apply Hk.
  - rewrite (observe_path_fresh _ _ _ _ Hl). cbn.
    repeat split; try done.
    + apply lookup_insert_eq.
    + intros q Hq. by rewrite lookup_insert_ne.
    + intros k r' Hl'. destruct (decide (p = k)) as [<-|Hne].
      * rewrite lookup_insert_eq in Hl'. inversion Hl'; subst r'. done.
      * rewrite lookup_insert_ne in Hl' by done. by apply Hk.
Qed.

Lemma C7_observe_path_upsert_witness :
  keyed {["/w/a.jpg" := Sample.imported_row]}
  /\ let '(tbl', r, created) :=
       watch_media_directories.observe_path
         {["/w/a.jpg" := Sample.imported_row]} "/w/a.jpg" "new" 20 in
     tbl' !! "/w/a.jpg" = Some r
     /\ AutoImport.source_path r = "/w/a.jpg"
     /\ AutoImport.config_name r = "new"
     /\ AutoImport.last_seen r = 20
     /\ (created = true <->
         ({["/w/a.jpg" := Sample.imported_row]}
            : gmap string AutoImport.MediaAutoImportRecord) !! "/w/a.jpg" = None)
     /\ match ({["/w/a.jpg" := Sample.imported_row]}
                 : gmap string AutoImport.MediaAutoImportRecord) !! "/w/a.jpg" with
        | None => AutoImport.media_id r = None /\ AutoImport.md5sum r = None
                  /\ AutoImport.imported_at r = None
        | Some r0 => AutoImport.media_id r = AutoImport.media_id r0
                     /\ AutoImport.md5sum r = AutoImport.md5sum r0
                     /\ AutoImport.imported_at r = AutoImport.imported_at r0
        end
     /\ (forall q, q <> "/w/a.jpg" ->
                   tbl' !! q = ({["/w/a.jpg" := Sample.imported_row]}
                      : gmap string AutoImport.MediaAutoImportRecord) !! q)
     /\ keyed tbl'.
Proof.
  split.
  - exact (keyed_singleton Sample.imported_row).
  - exact (C7_observe_path_upsert {["/w/a.jpg" := Sample.imported_row]}
             "/w/a.jpg" "new" 20 (keyed_singleton Sample.imported_row)).
Defined.

Lemma keyed_set_null k tbl : keyed tbl -> keyed (AutoImport.set_null k <$> tbl).
Proof.
  intros Hk q r Hl. rewrite lookup_fmap in Hl.
  destruct (tbl !! q) as [r0|] eqn:Hq; [|done].
  cbn in Hl. inversion Hl; subst r. pose proof (Hk _ _ Hq) as Hs.
  unfold AutoImport.set_null. destruct (AutoImport.media_id r0) as [i|]; [|done].
  by destruct (i =? k).
Qed.

Lemma is_imported_iff (r : AutoImport.MediaAutoImportRecord) :
  (forall i, AutoImport.media_id r = Some i -> 0 < i) ->
  AutoImport.is_imported r = true <-> AutoImport.media_id r <> None.
Proof.
  intros Hpos. unfold AutoImport.is_imported.
  destruct (AutoImport.media_id r) as [i|]; [|by split].
  specialize (Hpos i eq_refl). split; [done|]. intros _.
  apply negb_true_iff, Z.eqb_neq. lia.
Qed.

(** What the loop body does with a file that passes the extension test,
    in terms of the row that [observe_path] returns. *)
Lemma scan_file_unfold E c opts cn exts da owner now w p tbl r created :
  watch_media_directories.extension_excluded exts p = false ->
  watch_media_directories.observe_path (records w) p cn now = (tbl, r, created) ->
  watch_media_directories.scan_file E c opts cn exts da owner now w p
  = if AutoImport.is_imported r && negb (watch_media_directories.force opts)
    then (with_records w tbl, watch_media_directories.AlreadyImported)
    else if watch_media_directories.dry_run opts
    then (write_stdout (with_records w tbl) ("[dry-run] Would import " ++ p),
          watch_media_directories.DryRunReported)
    else
      match watch_media_directories._import_file E (with_records w tbl) p owner
              (watch_media_directories.state c)
              (watch_media_directories.description c) with
      | None => (write_stderr (with_records w tbl) ("Failed to import " ++ p),
                 watch_media_directories.ImportFailed)
      | Some (w1, media0) =>
          let w3 :=
            write_stdout
              (with_records w1
                 (fst (watch_media_directories.mark_imported (records w1) r
                         media0 cn now)))
              ("Imported " ++ p) in
          if da then (with_fs w3 (FS.rm_file (fs w3) p),
                      watch_media_directories.ImportedAs media0)
          else (w3, watch_media_directories.ImportedAs media0)
      end.
Proof.
  intros Hx Ho. unfold watch_media_directories.scan_file.
  rewrite Hx, Ho. reflexivity.
Qed.

(** C10: the imported status that the scan asks for is the truth value of
    the media link. For rows whose link is a primary key (keys are positive)
    it holds exactly when the link is not null; deleting the media nulls the
    link and leaves checksum and import stamp in place, so the row then
    reports not imported, and a scan without the force flag no longer skips
    the path: it hands the file to the import, which creates a new media
    when the file reads and the storage accepts it. *)
Theorem C10_imported_status_is_media_link
    (E : environment) (w : world) (p : string)
    (r : AutoImport.MediaAutoImportRecord) (k : Z) :
  0 < k ->
  records w !! p = Some r ->
  AutoImport.media_id r = Some k ->
  (forall r' : AutoImport.MediaAutoImportRecord,
      (forall i, AutoImport.media_id r' = Some i -> 0 < i) ->
      (AutoImport.is_imported r' = true <-> AutoImport.media_id r' <> None))
  /\ AutoImport.is_imported r = true
  /\ (exists r', records (delete_media w k) !! p = Some r'
                 /\ AutoImport.media_id r' = None
                 /\ AutoImport.md5sum r' = AutoImport.md5sum r
                 /\ AutoImport.imported_at r' = AutoImport.imported_at r
                 /\ AutoImport.is_imported r' = false)
  /\ (forall c opts cn exts da owner now,
         watch_media_directories.force opts = false ->
         watch_media_directories.dry_run opts = false ->
         watch_media_directories.extension_excluded exts p = false ->
         let o := snd (watch_media_directories.scan_file E c opts cn exts da
                         owner now (delete_media w k) p) in
         o <> watch_media_directories.AlreadyImported
         /\ (forall bytes,
                FS.read (fs w) p = Some bytes ->
                media_save_ok E (PosixPath.basename p) bytes = true ->
                exists m, o = watch_media_directories.ImportedAs m
                          /\ MediaModel.pk m = media_seq w + 1
                          /\ MediaModel.md5sum m = Some (md5_hexdigest E bytes))).
Proof.
  intros Hpos Hl Hm.
  assert (Hdel : records (delete_media w k) !! p
                 = Some {| AutoImport.source_path := AutoImport.source_path r;
                           AutoImport.config_name := AutoImport.config_name r;
                           AutoImport.media_id := None;
                           AutoImport.md5sum := AutoImport.md5sum r;
                           AutoImport.imported_at := AutoImport.imported_at r;
                           AutoImport.last_seen := AutoImport.last_seen r |}).
  { cbn. rewrite lookup_fmap, Hl. cbn. unfold AutoImport.set_null.
    by rewrite Hm, Z.eqb_refl. }
  split; [exact is_imported_iff|].
  split.
  { unfold AutoImport.is_imported. rewrite Hm.
    apply negb_true_iff, Z.eqb_neq. lia. }
  split.
  { eexists. split; [exact Hdel|]. by cbn. }
  intros c opts cn exts da owner now Hf Hd Hx o. subst o.
  erewrite scan_file_unfold;
    [|exact Hx|exact (observe_path_seen _ _ _ _ _ Hdel)].
  cbn [AutoImport.is_imported AutoImport.media_id andb].
  rewrite Hd.
  unfold watch_media_directories._import_file. cbn [fs with_records delete_media].
  split.
  - destruct (FS.read (fs w) p) as [bytes|]; [|by destruct da].
    destruct (media_save_ok E (PosixPath.basename p) bytes); cbn.
    + by destruct da.
    + by destruct da.
  - intros bytes Hr Hok. rewrite Hr, Hok. cbn.
    eexists. split; [by destruct da|]. by cbn.
Qed.

Lemma C10_imported_status_is_media_link_witness :
  0 < 1
  /\ records Sample.imported_world !! "/w/a.jpg" = Some Sample.imported_row
  /\ AutoImport.media_id Sample.imported_row = Some 1
  /\ AutoImport.is_imported Sample.imported_row = true
  /\ (exists r', records (delete_media Sample.imported_world 1) !! "/w/a.jpg"
                 = Some r'
                 /\ AutoImport.media_id r' = None
                 /\ AutoImport.md5sum r' = AutoImport.md5sum Sample.imported_row
                 /\ AutoImport.imported_at r'
                    = AutoImport.imported_at Sample.imported_row
                 /\ AutoImport.is_imported r' = false).
Proof.
  assert (H1 : 0 < 1) by lia.
  assert (H2 : records Sample.imported_world !! "/w/a.jpg"
               = Some Sample.imported_row) by reflexivity.
  assert (H3 : AutoImport.media_id Sample.imported_row = Some 1) by reflexivity.
  pose proof (C10_imported_status_is_media_link Sample.env Sample.imported_world
                "/w/a.jpg" Sample.imported_row 1 H1 H2 H3) as (_ & Hi & Hd & _).
  repeat split; assumption.
Defined.

(** The scan re-imports [/w/a.jpg] once media 1 was deleted. *)
Example reimport_after_delete :
  snd (watch_media_directories.scan_file Sample.env Sample.config_w
         Sample.plain_options "/w" [] false Sample.alice 20
         (delete_media Sample.imported_world 1) "/w/a.jpg")
  = watch_media_directories.ImportedAs
      {| MediaModel.pk := 2; MediaModel.user := "alice"; MediaModel.title := "";
         MediaModel.description := ""; MediaModel.md5sum := Some "md5:X";
         MediaModel.state := None |}.
Proof. vm_compute. reflexivity. Qed.

(** The media that the poll import creates from [bytes]. *)
Lemma import_file_ok E w p owner st descr bytes :
  FS.read (fs w) p = Some bytes ->
  media_save_ok E (PosixPath.basename p) bytes = true ->
  watch_media_directories._import_file E w p owner st descr
  = Some (insert_media w (UserModel.username owner) ""
            (getattr (watch_media_directories.truthy_value descr) "")
            (Some (md5_hexdigest E bytes))
            (watch_media_directories.truthy_value st)).
Proof.
  intros Hr Hok. unfold watch_media_directories._import_file.
  by rewrite Hr, Hok.
Qed.

(** The row that [mark_imported] writes. *)
Lemma mark_imported_row tbl r m cn now :
  watch_media_directories.mark_imported tbl r m cn now
  = (<[AutoImport.source_path r :=
         {| AutoImport.source_path := AutoImport.source_path r;
            AutoImport.config_name := cn;
            AutoImport.media_id := Some (MediaModel.pk m);
            AutoImport.md5sum := MediaModel.md5sum m;
            AutoImport.imported_at := Some now;
            AutoImport.last_seen := now |}]> tbl,
     {| AutoImport.source_path := AutoImport.source_path r;
        AutoImport.config_name := cn;
        AutoImport.media_id := Some (MediaModel.pk m);
        AutoImport.md5sum := MediaModel.md5sum m;
        AutoImport.imported_at := Some now;
        AutoImport.last_seen := now |}).
Proof. reflexivity. Qed.

(** The loop body on a file that is handed to the import and accepted. *)
Lemma scan_file_imports E c opts cn exts da owner now w p tbl r created bytes :
  watch_media_directories.extension_excluded exts p = false ->
  watch_media_directories.observe_path (records w) p cn now = (tbl, r, created) ->
  AutoImport.is_imported r && negb (watch_media_directories.force opts) = false ->
  watch_media_directories.dry_run opts = false ->
  FS.read (fs w) p = Some bytes ->
  media_save_ok E (PosixPath.basename p) bytes = true ->
  exists w' m,
    watch_media_directories.scan_file E c opts cn exts da owner now w p
    = (w', watch_media_directories.ImportedAs m)
    /\ MediaModel.pk m = media_seq w + 1
    /\ MediaModel.md5sum m = Some (md5_hexdigest E bytes)
    /\ media w' = (media w ++ [m])%list
    /\ media_seq w' = media_seq w + 1
    /\ users w' = users w
    /\ fs w' = (if da then FS.rm_file (fs w) p else fs w)
    /\ records w'
       = <[AutoImport.source_path r :=
             {| AutoImport.source_path := AutoImport.source_path r;
                AutoImport.config_name := cn;
                AutoImport.media_id := Some (media_seq w + 1);
                AutoImport.md5sum := Some (md5_hexdigest E bytes);
                AutoImport.imported_at := Some now;
                AutoImport.last_seen := now |}]> tbl.
Proof.
  intros Hx Ho Hgate Hd Hr Hok.
  rewrite (scan_file_unfold E c opts cn exts da owner now w p tbl r created Hx Ho).
  rewrite Hgate, Hd.
  rewrite (import_file_ok E (with_records w tbl) p owner _ _ bytes Hr Hok).
  destruct da; eexists _, _; (split; [reflexivity|]); repeat split.
Qed.

(** C6, as the code has it: marking a row imported never fails and
    always overwrites. [mark_imported] sets the media reference, checksum and
    import stamp of the row whatever they were before; and under the force
    flag the scan reaches it for a row that is imported already, so that
    after a successful import the row points to the new media. *)
Theorem C6_mark_imported_overwrites
    (E : environment) (c : watch_media_directories.watch_config)
    (opts : watch_media_directories.options) (cn : string) (exts : list string)
    (da : bool) (owner : UserModel.User) (now : Z) (w : world) (p : string)
    (r : AutoImport.MediaAutoImportRecord) (bytes : string) :
  keyed (records w) ->
  records w !! p = Some r ->
  AutoImport.is_imported r = true ->
  watch_media_directories.force opts = true ->
  watch_media_directories.dry_run opts = false ->
  watch_media_directories.extension_excluded exts p = false ->
  FS.read (fs w) p = Some bytes ->
  media_save_ok E (PosixPath.basename p) bytes = true ->
  (forall tbl r0 m cn0 now0,
      let '(tbl', r') := watch_media_directories.mark_imported tbl r0 m cn0 now0 in
      tbl' !! AutoImport.source_path r0 = Some r'
      /\ AutoImport.media_id r' = Some (MediaModel.pk m)
      /\ AutoImport.md5sum r' = MediaModel.md5sum m
      /\ AutoImport.imported_at r' = Some now0)
  /\ let '(w', o) := watch_media_directories.scan_file E c opts cn exts da owner
                       now w p in
     exists m r',
       o = watch_media_directories.ImportedAs m
       /\ MediaModel.pk m = media_seq w + 1
       /\ media w' = (media w ++ [m])%list
       /\ records w' !! p = Some r'
       /\ AutoImport.media_id r' = Some (MediaModel.pk m)
       /\ AutoImport.md5sum r' = Some (md5_hexdigest E bytes)
       /\ AutoImport.imported_at r' = Some now.
Proof.
  intros Hk Hl Hi Hf Hd Hx Hr Hok. split.
  - intros tbl r0 m cn0 now0. rewrite mark_imported_row.
    repeat split; try done. apply lookup_insert_eq.
  - assert (Hgate : AutoImport.is_imported r
                     && negb (watch_media_directories.force opts) = false)
      by (rewrite Hf; apply andb_false_r).
    destruct (scan_file_imports E c opts cn exts da owner now w p _ _ _ bytes
                Hx (observe_path_seen _ _ _ _ _ Hl) Hgate Hd Hr Hok)
      as (w' & m & -> & Hpk & Hsum & Hmed & _ & _ & _ & Hrec).
    pose proof (Hk _ _ Hl) as Hsp. cbn [AutoImport.source_path] in Hrec.
    rewrite Hsp in Hrec.
    exists m. eexists. split; [reflexivity|]. split; [exact Hpk|].
    split; [exact Hmed|]. rewrite Hrec, lookup_insert_eq.
    split; [reflexivity|]. cbn. by rewrite Hpk.
Qed.

Lemma C6_mark_imported_overwrites_witness :
  let '(w', o) := watch_media_directories.scan_file Sample.env Sample.config_w
                    Sample.force_options "/w" [] false Sample.alice 20
                    Sample.imported_world "/w/a.jpg" in
  exists m r',
    o = watch_media_directories.ImportedAs m
    /\ MediaModel.pk m = media_seq Sample.imported_world + 1
    /\ media w' = (media Sample.imported_world ++ [m])%list
    /\ records w' !! "/w/a.jpg" = Some r'
    /\ AutoImport.media_id r' = Some (MediaModel.pk m)
    /\ AutoImport.md5sum r' = Some (md5_hexdigest Sample.env "X")
    /\ AutoImport.imported_at r' = Some 20.
Proof.
  exact (proj2 (C6_mark_imported_overwrites Sample.env Sample.config_w
                  Sample.force_options "/w" [] false Sample.alice 20
                  Sample.imported_world "/w/a.jpg" Sample.imported_row "X"
                  (keyed_singleton Sample.imported_row)
                  eq_refl eq_refl eq_refl eq_refl eq_refl eq_refl eq_refl)).
Defined.

(** C6, as stated, fails: the row of [/w/a.jpg] is imported as media 1,
    and a forced scan marks it imported a second time without any error:
    the row then points to media 2 and carries the new import stamp. *)
Lemma C6_counterexample :
  AutoImport.is_imported Sample.imported_row = true
  /\ AutoImport.media_id Sample.imported_row = Some 1
  /\ AutoImport.imported_at Sample.imported_row = Some 10
  /\ let '(w', o) := watch_media_directories.scan_file Sample.env Sample.config_w
                       Sample.force_options "/w" [] false Sample.alice 20
                       Sample.imported_world "/w/a.jpg" in
     (exists m, o = watch_media_directories.ImportedAs m)
     /\ AutoImport.media_id <$> records w' !! "/w/a.jpg" = Some (Some 2)
     /\ AutoImport.imported_at <$> records w' !! "/w/a.jpg" = Some (Some 20).
Proof.
  repeat split; try reflexivity.
  vm_compute. eexists. reflexivity.
Qed.

(** ** The loop body of the poll scan, case by case *)

Lemma scan_file_excluded E c opts cn exts da owner now w q :
  watch_media_directories.extension_excluded exts q = true ->
  watch_media_directories.scan_file E c opts cn exts da owner now w q
  = (w, watch_media_directories.ExtensionFiltered).
Proof. intros Hx. unfold watch_media_directories.scan_file. by rewrite Hx. Qed.

Lemma scan_file_cases E c opts cn exts da owner now w q tbl r created :
  watch_media_directories.extension_excluded exts q = false ->
  watch_media_directories.observe_path (records w) q cn now = (tbl, r, created) ->
  exists w' o,
    watch_media_directories.scan_file E c opts cn exts da owner now w q = (w', o)
    /\ users w' = users w
    /\ ((o = watch_media_directories.AlreadyImported
         /\ AutoImport.is_imported r = true
         /\ watch_media_directories.force opts = false
         /\ records w' = tbl /\ media w' = media w
         /\ media_seq w' = media_seq w /\ fs w' = fs w
         /\ stdout w' = stdout w)
        \/ (o = watch_media_directories.DryRunReported
            /\ watch_media_directories.dry_run opts = true
            /\ AutoImport.is_imported r
               && negb (watch_media_directories.force opts) = false
            /\ records w' = tbl /\ media w' = media w
            /\ media_seq w' = media_seq w /\ fs w' = fs w
            /\ stdout w' = (stdout w ++ [("[dry-run] Would import " ++ q)%string])%list)
        \/ (o = watch_media_directories.ImportFailed
            /\ watch_media_directories.dry_run opts = false
            /\ AutoImport.is_imported r
               && negb (watch_media_directories.force opts) = false
            /\ records w' = tbl /\ media w' = media w
            /\ media_seq w' = media_seq w /\ fs w' = fs w
            /\ stdout w' = stdout w)
        \/ (exists m bytes,
               o = watch_media_directories.ImportedAs m
               /\ watch_media_directories.dry_run opts = false
               /\ AutoImport.is_imported r
                  && negb (watch_media_directories.force opts) = false
               /\ FS.read (fs w) q = Some bytes
               /\ MediaModel.pk m = media_seq w + 1
               /\ MediaModel.md5sum m = Some (md5_hexdigest E bytes)
               /\ media w' = (media w ++ [m])%list
               /\ media_seq w' = media_seq w + 1
               /\ fs w' = (if da then FS.rm_file (fs w) q else fs w)
               /\ records w'
                  = <[AutoImport.source_path r :=
                        {| AutoImport.source_path := AutoImport.source_path r;
                           AutoImport.config_name := cn;
                           AutoImport.media_id := Some (media_seq w + 1);
                           AutoImport.md5sum := Some (md5_hexdigest E bytes);
                           AutoImport.imported_at := Some now;
                           AutoImport.last_seen := now |}]> tbl)).
Proof.
  intros Hx Ho.
  destruct (AutoImport.is_imported r
            && negb (watch_media_directories.force opts)) eqn:Hgate.
  { rewrite (scan_file_unfold E c opts cn exts da owner now w q tbl r created Hx Ho).
    rewrite Hgate. apply andb_true_iff in Hgate as [Hi Hf].
    apply negb_true_iff in Hf.
    eexists _, _. split; [reflexivity|]. split; [reflexivity|].
    left. by repeat split. }
  destruct (watch_media_directories.dry_run opts) eqn:Hd.
  { rewrite (scan_file_unfold E c opts cn exts da owner now w q tbl r created Hx Ho).
    rewrite Hgate, Hd.
    eexists _, _. split; [reflexivity|]. split; [reflexivity|].
    right; left. by repeat split. }
  destruct (FS.read (fs w) q) as [bytes|] eqn:Hr.
  - destruct (media_save_ok E (PosixPath.basename q) bytes) eqn:Hok.
    + destruct (scan_file_imports E c opts cn exts da owner now w q tbl r created
                  bytes Hx Ho Hgate Hd Hr Hok)
        as (w' & m & Hs & Hpk & Hsum & Hmed & Hseq & Hu & Hfs & Hrec).
      exists w', (watch_media_directories.ImportedAs m).
      split; [exact Hs|]. split; [exact Hu|].
      right; right; right. exists m, bytes. by repeat split.
    + rewrite (scan_file_unfold E c opts cn exts da owner now w q tbl r created Hx Ho).
      rewrite Hgate, Hd. unfold watch_media_directories._import_file.
      change (fs (with_records w tbl)) with (fs w). rewrite Hr, Hok. cbn [negb].
      eexists _, _. split; [reflexivity|]. split; [reflexivity|].
      right; right; left. by repeat split.
  - rewrite (scan_file_unfold E c opts cn exts da owner now w q tbl r created Hx Ho).
    rewrite Hgate, Hd. unfold watch_media_directories._import_file.
    change (fs (with_records w tbl)) with (fs w). rewrite Hr.
    eexists _, _. split; [reflexivity|]. split; [reflexivity|].
    right; right; left. by repeat split.
Qed.

(** [observe_path] rewrites the row of the path it is given, and only
    that row; the media link of the row is the one it had. *)
Lemma observe_path_row tbl q cn now :
  keyed tbl ->
  exists r created,
    watch_media_directories.observe_path tbl q cn now = (<[q := r]> tbl, r, created)
    /\ AutoImport.source_path r = q
    /\ AutoImport.media_id r
       = match tbl !! q with
         | Some r0 => AutoImport.media_id r0
         | None => None
         end.
Proof.
  intros Hk. destruct (tbl !! q) as [r0|] eqn:Hl.
  - pose proof (Hk _ _ Hl) as Hsp.
    rewrite (observe_path_seen _ _ cn now _ Hl), Hsp.
    eexists _, _. split; [reflexivity|]. by split.
  - rewrite (observe_path_fresh _ _ cn now Hl).
    eexists _, _. split; [reflexivity|]. by split.
Qed.

(** The rows of other paths are not touched by the loop body. *)
Lemma scan_file_other E c opts cn exts da owner now w q w' o p :
  keyed (records w) ->
  watch_media_directories.scan_file E c opts cn exts da owner now w q = (w', o) ->
  p <> q ->
  records w' !! p = records w !! p.
Proof.
  intros Hk Hs Hne.
  destruct (watch_media_directories.extension_excluded exts q) eqn:Hx.
  { rewrite scan_file_excluded in Hs by done. by inversion Hs. }
  destruct (observe_path_row (records w) q cn now Hk) as (r & created & Ho & Hsp & _).
  destruct (scan_file_cases E c opts cn exts da owner now w q _ r created Hx Ho)
    as (w1 & o1 & Hs1 & _ & Hcase).
  rewrite Hs in Hs1. inversion Hs1; subst w1 o1.
  destruct Hcase as [H|[H|[H|H]]].
  - destruct H as (_ & _ & _ & -> & _). by rewrite lookup_insert_ne.
  - destruct H as (_ & _ & _ & -> & _). by rewrite lookup_insert_ne.
  - destruct H as (_ & _ & _ & -> & _). by rewrite lookup_insert_ne.
  - destruct H as (m & bytes & _ & _ & _ & _ & _ & _ & _ & _ & _ & ->).
    rewrite Hsp. by rewrite !lookup_insert_ne.
Qed.

(** The row of the path the loop body was given, by outcome. *)
Lemma scan_file_row E c opts cn exts da owner now w q w' o :
  keyed (records w) ->
  watch_media_directories.scan_file E c opts cn exts da owner now w q = (w', o) ->
  match o with
  | watch_media_directories.ExtensionFiltered =>
      w' = w /\ watch_media_directories.extension_excluded exts q = true
  | watch_media_directories.ImportedAs m =>
      watch_media_directories.extension_excluded exts q = false
      /\ MediaModel.pk m = media_seq w + 1
      /\ media w' = (media w ++ [m])%list
      /\ media_seq w' = media_seq w + 1
      /\ (forall r, records w !! q = Some r ->
                    AutoImport.is_imported r
                    && negb (watch_media_directories.force opts) = false)
      /\ exists r', records w' !! q = Some r'
                    /\ AutoImport.source_path r' = q
                    /\ AutoImport.media_id r' = Some (MediaModel.pk m)
  | _ =>
      watch_media_directories.extension_excluded exts q = false
      /\ media w' = media w /\ media_seq w' = media_seq w /\ fs w' = fs w
      /\ (o = watch_media_directories.AlreadyImported ->
          watch_media_directories.force opts = false
          /\ exists r, records w !! q = Some r /\ AutoImport.is_imported r = true)
      /\ (o <> watch_media_directories.AlreadyImported ->
          forall r, records w !! q = Some r ->
                    AutoImport.is_imported r
                    && negb (watch_media_directories.force opts) = false)
      /\ exists r', records w' !! q = Some r'
                    /\ AutoImport.source_path r' = q
                    /\ AutoImport.media_id r'
                       = match records w !! q with
                         | Some r0 => AutoImport.media_id r0
                         | None => None
                         end
  end.
Proof.
  intros Hk Hs.
  destruct (watch_media_directories.extension_excluded exts q) eqn:Hx.
  { rewrite scan_file_excluded in Hs by done. inversion Hs; subst. by split. }
  destruct (observe_path_row (records w) q cn now Hk)
    as (r & created & Ho & Hsp & Hmid).
  destruct (scan_file_cases E c opts cn exts da owner now w q _ r created Hx Ho)
    as (w1 & o1 & Hs1 & _ & Hcase).
  rewrite Hs in Hs1. inversion Hs1; subst w1 o1.
  destruct Hcase as [H|[H|[H|H]]].
  - destruct H as (-> & Hi & Hf & Hrec & Hmed & Hseq & Hfs & _).
    repeat split; try done.
    + unfold AutoImport.is_imported in Hi. rewrite Hmid in Hi.
      destruct (records w !! q) as [r0|] eqn:Hl; [|done].
      exists r0. split; [done|]. exact Hi.
    + exists r. rewrite Hrec, lookup_insert_eq. by repeat split.
  - destruct H as (-> & _ & Hgate & Hrec & Hmed & Hseq & Hfs & _).
    repeat split; try done.
    + intros _ r0 Hl. unfold AutoImport.is_imported in *.
      rewrite Hmid, Hl in Hgate. exact Hgate.
    + exists r. rewrite Hrec, lookup_insert_eq. by repeat split.
  - destruct H as (-> & _ & Hgate & Hrec & Hmed & Hseq & Hfs & _).
    repeat split; try done.
    + intros _ r0 Hl. unfold AutoImport.is_imported in *.
      rewrite Hmid, Hl in Hgate. exact Hgate.
    + exists r. rewrite Hrec, lookup_insert_eq. by repeat split.
  - destruct H as (m & bytes & -> & _ & Hgate & _ & Hpk & _ & Hmed & Hseq & _ & Hrec).
    repeat split; try done.
    + intros r0 Hl. unfold AutoImport.is_imported in *.
      rewrite Hmid, Hl in Hgate. exact Hgate.
    + eexists. rewrite Hrec, Hsp, lookup_insert_eq.
      split; [reflexivity|]. cbn. by rewrite Hpk.
Qed.

(** ** Invariants along a scan *)

Lemma is_imported_of_key (r : AutoImport.MediaAutoImportRecord) i :
  AutoImport.media_id r = Some i -> 0 < i -> AutoImport.is_imported r = true.
Proof.
  intros Hm Hi. unfold AutoImport.is_imported. rewrite Hm.
  apply negb_true_iff, Z.eqb_neq. lia.
Qed.

Lemma scan_file_consistent E c opts cn exts da owner now w q w' o :
  consistent w ->
  watch_media_directories.scan_file E c opts cn exts da owner now w q = (w', o) ->
  consistent w'.
Proof.
  intros (Hk & Hseq & Hpos) Hs.
  pose proof (scan_file_row E c opts cn exts da owner now w q w' o Hk Hs) as Hrow.
  pose proof (fun p => scan_file_other E c opts cn exts da owner now w q w' o p Hk Hs)
    as Hoth.
  assert (Hq : o = watch_media_directories.ExtensionFiltered /\ w' = w
               \/ media_seq w <= media_seq w'
                  /\ exists r', records w' !! q = Some r'
                     /\ AutoImport.source_path r' = q
                     /\ forall i, AutoImport.media_id r' = Some i ->
                                  0 < i <= media_seq w').
  { destruct o.
    - left. by destruct Hrow.
    - right. destruct Hrow as (_ & _ & Hs' & _ & _ & _ & r' & Hl & Hsp & Hm).
      split; [lia|]. exists r'. split; [done|]. split; [done|].
      intros i Hi. rewrite Hm in Hi.
      destruct (records w !! q) as [r0|] eqn:Hl0; [|done].
      rewrite Hs'. by apply (Hpos q r0 i).
    - right. destruct Hrow as (_ & _ & Hs' & _ & _ & _ & r' & Hl & Hsp & Hm).
      split; [lia|]. exists r'. split; [done|]. split; [done|].
      intros i Hi. rewrite Hm in Hi.
      destruct (records w !! q) as [r0|] eqn:Hl0; [|done].
      rewrite Hs'. by apply (Hpos q r0 i).
    - right. destruct Hrow as (_ & _ & Hs' & _ & _ & _ & r' & Hl & Hsp & Hm).
      split; [lia|]. exists r'. split; [done|]. split; [done|].
      intros i Hi. rewrite Hm in Hi.
      destruct (records w !! q) as [r0|] eqn:Hl0; [|done].
      rewrite Hs'. by apply (Hpos q r0 i).
    - right. destruct Hrow as (_ & Hpk & _ & Hs' & _ & r' & Hl & Hsp & Hm).
      split; [lia|]. exists r'. split; [done|]. split; [done|].
      intros i Hi. rewrite Hm in Hi. inversion Hi; subst i. lia. }
  destruct Hq as [[_ ->]|(Hle & r' & Hl & Hsp & Hm)];
    [exact (conj Hk (conj Hseq Hpos))|].
  split; [|split].
  - intros k r Hlk. destruct (decide (k = q)) as [->|Hne].
    + rewrite Hl in Hlk. by inversion Hlk; subst.
    + rewrite Hoth in Hlk by done. by apply Hk.
  - lia.
  - intros k r i Hlk Hmi. destruct (decide (k = q)) as [->|Hne].
    + rewrite Hl in Hlk. inversion Hlk; subst. by apply Hm.
    + rewrite Hoth in Hlk by done. pose proof (Hpos k r i Hlk Hmi). lia.
Qed.

(** Without the force flag the loop body leaves an imported row imported,
    with the same media, and does not import its path. *)
Lemma scan_file_keeps_imported E c opts cn exts da owner now w q w' o p r :
  keyed (records w) ->
  watch_media_directories.force opts = false ->
  watch_media_directories.scan_file E c opts cn exts da owner now w q = (w', o) ->
  records w !! p = Some r ->
  AutoImport.is_imported r = true ->
  (exists r', records w' !! p = Some r'
              /\ AutoImport.media_id r' = AutoImport.media_id r
              /\ AutoImport.is_imported r' = true)
  /\ (q = p -> o = watch_media_directories.AlreadyImported
               \/ o = watch_media_directories.ExtensionFiltered).
Proof.
  intros Hk Hf Hs Hl Hi.
  destruct (decide (p = q)) as [->|Hne].
  - pose proof (scan_file_row E c opts cn exts da owner now w q w' o Hk Hs) as Hrow.
    assert (Hgate : AutoImport.is_imported r
                    && negb (watch_media_directories.force opts) = true)
      by (by rewrite Hi, Hf).
    destruct o.
    + destruct Hrow as [-> _]. split; [|by right]. by exists r.
    + destruct Hrow as (_ & _ & _ & _ & _ & _ & r' & Hl' & _ & Hm).
      rewrite Hl in Hm. split; [|by left]. exists r'. repeat split; try done.
      unfold AutoImport.is_imported in *. by rewrite Hm.
    + destruct Hrow as (_ & _ & _ & _ & _ & Hno & _).
      rewrite (Hno ltac:(done) r Hl) in Hgate. done.
    + destruct Hrow as (_ & _ & _ & _ & _ & Hno & _).
      rewrite (Hno ltac:(done) r Hl) in Hgate. done.
    + destruct Hrow as (_ & _ & _ & _ & Hno & _).
      rewrite (Hno r Hl) in Hgate. done.
  - split; [|by intros ->].
    exists r. by rewrite (scan_file_other E c opts cn exts da owner now w q w' o p Hk Hs Hne).
Qed.

Lemma scan_files_cons E c opts cn exts da owner now w q rest :
  watch_media_directories.scan_files E c opts cn exts da owner now w (q :: rest)
  = let '(w1, o) :=
      watch_media_directories.scan_file E c opts cn exts da owner now w q in
    let '(w2, log) :=
      watch_media_directories.scan_files E c opts cn exts da owner now w1 rest in
    (w2, (q, o) :: log).
Proof. reflexivity. Qed.

Lemma scan_files_consistent E c opts cn exts da owner now files :
  forall w w' log,
    consistent w ->
    watch_media_directories.scan_files E c opts cn exts da owner now w files
    = (w', log) ->
    consistent w'.
Proof.
  induction files as [|q rest IH]; intros w w' log Hc Hs.
  - cbn in Hs. by inversion Hs; subst.
  - rewrite scan_files_cons in Hs.
    destruct (watch_media_directories.scan_file E c opts cn exts da owner now w q)
      as [w1 o] eqn:H1.
    destruct (watch_media_directories.scan_files E c opts cn exts da owner now w1 rest)
      as [w2 log'] eqn:H2.
    inversion Hs; subst.
    eapply IH; [|exact H2]. eapply scan_file_consistent; eauto.
Qed.

(** A pass without the force flag keeps every imported row and imports
    none of their paths. *)
Lemma scan_files_keep_imported E c opts cn exts da owner now files :
  forall w w' log p r,
    consistent w ->
    watch_media_directories.force opts = false ->
    watch_media_directories.scan_files E c opts cn exts da owner now w files
    = (w', log) ->
    records w !! p = Some r ->
    AutoImport.is_imported r = true ->
    (exists r', records w' !! p = Some r'
                /\ AutoImport.media_id r' = AutoImport.media_id r
                /\ AutoImport.is_imported r' = true)
    /\ (forall o, In (p, o) log ->
                  o = watch_media_directories.AlreadyImported
                  \/ o = watch_media_directories.ExtensionFiltered).
Proof.
  induction files as [|q rest IH]; intros w w' log p r Hc Hf Hs Hl Hi.
  - cbn in Hs. inversion Hs; subst. split; [by exists r|]. intros o [].
  - rewrite scan_files_cons in Hs.
    destruct (watch_media_directories.scan_file E c opts cn exts da owner now w q)
      as [w1 o1] eqn:H1.
    destruct (watch_media_directories.scan_files E c opts cn exts da owner now w1 rest)
      as [w2 log'] eqn:H2.
    inversion Hs; subst.
    destruct (scan_file_keeps_imported E c opts cn exts da owner now w q w1 o1 p r
                (proj1 Hc) Hf H1 Hl Hi) as ((r1 & Hl1 & Hm1 & Hi1) & Hq).
    pose proof (scan_file_consistent _ _ _ _ _ _ _ _ _ _ _ _ Hc H1) as Hc1.
    destruct (IH w1 w' log' p r1 Hc1 Hf H2 Hl1 Hi1) as ((r2 & Hl2 & Hm2 & Hi2) & Hlog).
    split.
    + exists r2. repeat split; try done. congruence.
    + intros o [Heq|Hin].
      * inversion Heq; subst. by apply Hq.
      * by apply Hlog.
Qed.

(** What a log entry says about the extension test. *)
Lemma scan_files_log_filter E c opts cn exts da owner now files :
  forall w w' log p o,
    consistent w ->
    watch_media_directories.scan_files E c opts cn exts da owner now w files
    = (w', log) ->
    In (p, o) log ->
    watch_media_directories.extension_excluded exts p
    = match o with
      | watch_media_directories.ExtensionFiltered => true
      | _ => false
      end.
Proof.
  induction files as [|q rest IH]; intros w w' log p o Hc Hs Hin.
  - cbn in Hs. inversion Hs; subst. destruct Hin.
  - rewrite scan_files_cons in Hs.
    destruct (watch_media_directories.scan_file E c opts cn exts da owner now w q)
      as [w1 o1] eqn:H1.
    destruct (watch_media_directories.scan_files E c opts cn exts da owner now w1 rest)
      as [w2 log'] eqn:H2.
    inversion Hs; subst.
    destruct Hin as [Heq|Hin].
    + inversion Heq; subst.
      pose proof (scan_file_row E c opts cn exts da owner now w p w1 o (proj1 Hc) H1)
        as Hrow.
      destruct o; by destruct Hrow as [? ?].
    + eapply IH; [|exact H2|exact Hin].
      eapply scan_file_consistent; eauto.
Qed.

(** A path that a pass without the force flag imported has, at the end of
    the pass, a row that points to the media created for it. *)
Lemma scan_files_imported_row E c opts cn exts da owner now files :
  forall w w' log p m,
    consistent w ->
    watch_media_directories.force opts = false ->
    watch_media_directories.scan_files E c opts cn exts da owner now w files
    = (w', log) ->
    In (p, watch_media_directories.ImportedAs m) log ->
    exists r', records w' !! p = Some r'
               /\ AutoImport.media_id r' = Some (MediaModel.pk m)
               /\ AutoImport.is_imported r' = true.
Proof.
  induction files as [|q rest IH]; intros w w' log p m Hc Hf Hs Hin.
  - cbn in Hs. inversion Hs; subst. destruct Hin.
  - rewrite scan_files_cons in Hs.
    destruct (watch_media_directories.scan_file E c opts cn exts da owner now w q)
      as [w1 o1] eqn:H1.
    destruct (watch_media_directories.scan_files E c opts cn exts da owner now w1 rest)
      as [w2 log'] eqn:H2.
    inversion Hs; subst.
    pose proof (scan_file_consistent _ _ _ _ _ _ _ _ _ _ _ _ Hc H1) as Hc1.
    destruct Hin as [Heq|Hin].
    + inversion Heq; subst.
      pose proof (scan_file_row E c opts cn exts da owner now w p w1 _ (proj1 Hc) H1)
        as (_ & Hpk & _ & _ & _ & r1 & Hl1 & _ & Hm1).
      assert (Hi1 : AutoImport.is_imported r1 = true).
      { apply (is_imported_of_key r1 (MediaModel.pk m) Hm1).
        destruct Hc as (_ & Hseq & _). lia. }
      destruct (scan_files_keep_imported E c opts cn exts da owner now rest
                  w1 w' log' p r1 Hc1 Hf H2 Hl1 Hi1) as ((r2 & Hl2 & Hm2 & Hi2) & _).
      exists r2. repeat split; try done. congruence.
    + by eapply IH.
Qed.

(** ** A whole pass over a configuration *)

Lemma process_config_done E entry opts now w w' log :
  watch_media_directories.process_config E entry opts now w
  = watch_media_directories.Done w' log ->
  exists c path0 owner,
    entry = watch_media_directories.ConfigDict c
    /\ watch_media_directories.path c = Some path0
    /\ FS.exists_ (fs w) path0 = true /\ FS.isdir (fs w) path0 = true
    /\ watch_media_directories._resolve_user c w = inl owner
    /\ watch_media_directories.scan_files E c opts
         (getattr (watch_media_directories.truthy_value
                     (watch_media_directories.name c)) path0)
         (watch_media_directories._normalise_extensions
            (watch_media_directories.extensions c))
         (watch_media_directories.delete_after_import c) owner now w
         (watch_media_directories._iter_files (fs w) path0
            (getattr (watch_media_directories.recursive c) true))
       = (w', log).
Proof.
  unfold watch_media_directories.process_config. intros H.
  destruct entry as [|c]; [done|].
  destruct (watch_media_directories.path c) as [path0|] eqn:Hp; [|done].
  destruct (FS.exists_ (fs w) path0) eqn:He; [|done].
  destruct (FS.isdir (fs w) path0) eqn:Hd; [|done].
  cbn [negb orb] in H.
  destruct (watch_media_directories._resolve_user c w) as [owner|msg] eqn:Hu; [|done].
  destruct (watch_media_directories.scan_files _ _ _ _ _ _ _ _ _ _) as [w1 log1] eqn:Hs.
  inversion H; subst.
  exists c, path0, owner. by repeat split.
Qed.

(** C1: two passes of the poll scan over the same configuration, without
    the force flag. Every path that the first pass imported is skipped as
    already imported by the second pass, which therefore creates no media
    for it, and the row of the path points to the same media after the
    second pass as after the first. *)
Theorem C1_poll_scan_idempotent
    (E : environment) (entry : watch_media_directories.config_entry)
    (opts : watch_media_directories.options) (now1 now2 : Z)
    (w w1 w2 : world)
    (log1 log2 : list (string * watch_media_directories.scan_outcome)) :
  consistent w ->
  watch_media_directories.force opts = false ->
  watch_media_directories.process_config E entry opts now1 w
  = watch_media_directories.Done w1 log1 ->
  watch_media_directories.process_config E entry opts now2 w1
  = watch_media_directories.Done w2 log2 ->
  forall p m,
    In (p, watch_media_directories.ImportedAs m) log1 ->
    (forall o, In (p, o) log2 -> o = watch_media_directories.AlreadyImported)
    /\ (forall m', ~ In (p, watch_media_directories.ImportedAs m') log2)
    /\ exists r1 r2,
         records w1 !! p = Some r1 /\ records w2 !! p = Some r2
         /\ AutoImport.media_id r1 = Some (MediaModel.pk m)
         /\ AutoImport.media_id r2 = Some (MediaModel.pk m).
Proof.
  intros Hc Hf H1 H2 p m Hin.
  destruct (process_config_done _ _ _ _ _ _ _ H1)
    as (c & path0 & owner & -> & Hp & _ & _ & _ & Hs1).
  destruct (process_config_done _ _ _ _ _ _ _ H2)
    as (c' & path0' & owner' & Heq & Hp' & _ & _ & _ & Hs2).
  inversion Heq; subst c'. rewrite Hp in Hp'. inversion Hp'; subst path0'.
  pose proof (scan_files_consistent _ _ _ _ _ _ _ _ _ _ _ _ Hc Hs1) as Hc1.
  destruct (scan_files_imported_row _ _ _ _ _ _ _ _ _ _ _ _ _ _ Hc Hf Hs1 Hin)
    as (r1 & Hl1 & Hm1 & Hi1).
  pose proof (scan_files_log_filter _ _ _ _ _ _ _ _ _ _ _ _ _ _ Hc Hs1 Hin) as Hx.
  destruct (scan_files_keep_imported _ _ _ _ _ _ _ _ _ _ _ _ _ _ Hc1 Hf Hs2 Hl1 Hi1)
    as ((r2 & Hl2 & Hm2 & _) & Hlog).
  assert (Hskip : forall o, In (p, o) log2
                            -> o = watch_media_directories.AlreadyImported).
  { intros o Ho. destruct (Hlog o Ho) as [->| ->]; [done|].
    pose proof (scan_files_log_filter _ _ _ _ _ _ _ _ _ _ _ _ _ _ Hc1 Hs2 Ho) as Hx'.
    cbn in Hx, Hx'. congruence. }
  split; [exact Hskip|]. split.
  - intros m' Hm'. by specialize (Hskip _ Hm').
  - exists r1, r2. repeat split; try done. congruence.
Qed.

Lemma consistent_empty_world f : consistent (Sample.empty_world f).
Proof.
  split; [exact keyed_empty|]. split; [cbn; lia|].
  intros k r i Hl. cbn in Hl. by rewrite lookup_empty in Hl.
Qed.

Lemma C1_poll_scan_idempotent_witness :
  consistent (Sample.empty_world Sample.watched)
  /\ watch_media_directories.force Sample.plain_options = false
  /\ Sample.first_pass
     = watch_media_directories.Done (Sample.world_of Sample.first_pass)
         (Sample.log_of Sample.first_pass)
  /\ Sample.second_pass
     = watch_media_directories.Done (Sample.world_of Sample.second_pass)
         (Sample.log_of Sample.second_pass)
  /\ In ("/w/a.jpg", watch_media_directories.ImportedAs Sample.media_one)
        (Sample.log_of Sample.first_pass)
  /\ (forall o, In ("/w/a.jpg", o) (Sample.log_of Sample.second_pass)
                -> o = watch_media_directories.AlreadyImported)
  /\ (forall m', ~ In ("/w/a.jpg", watch_media_directories.ImportedAs m')
                      (Sample.log_of Sample.second_pass))
  /\ exists r1 r2,
       records (Sample.world_of Sample.first_pass) !! "/w/a.jpg" = Some r1
       /\ records (Sample.world_of Sample.second_pass) !! "/w/a.jpg" = Some r2
       /\ AutoImport.media_id r1 = Some (MediaModel.pk Sample.media_one)
       /\ AutoImport.media_id r2 = Some (MediaModel.pk Sample.media_one).
Proof.
  assert (H1 : Sample.first_pass
               = watch_media_directories.Done (Sample.world_of Sample.first_pass)
                   (Sample.log_of Sample.first_pass))
    by (vm_compute; reflexivity).
  assert (H2 : Sample.second_pass
               = watch_media_directories.Done (Sample.world_of Sample.second_pass)
                   (Sample.log_of Sample.second_pass))
    by (vm_compute; reflexivity).
  assert (Hin : In ("/w/a.jpg", watch_media_directories.ImportedAs Sample.media_one)
                   (Sample.log_of Sample.first_pass))
    by (vm_compute; left; reflexivity).
  split; [exact (consistent_empty_world Sample.watched)|].
  split; [reflexivity|]. split; [exact H1|]. split; [exact H2|].
  split; [exact Hin|].
  exact (C1_poll_scan_idempotent Sample.env
           (watch_media_directories.ConfigDict Sample.config_w)
           Sample.plain_options 10 20 (Sample.empty_world Sample.watched)
           (Sample.world_of Sample.first_pass) (Sample.world_of Sample.second_pass)
           (Sample.log_of Sample.first_pass) (Sample.log_of Sample.second_pass)
           (consistent_empty_world Sample.watched) eq_refl H1 H2
           "/w/a.jpg" Sample.media_one Hin).
Defined.

(** The scenario of the repository's test: one media after the first
    run, still one after the second, and the row still points to it. *)
Example two_runs_one_media :
  length (media (Sample.world_of Sample.first_pass)) = 1%nat
  /\ length (media (Sample.world_of Sample.second_pass)) = 1%nat
  /\ Sample.log_of Sample.second_pass
     = [("/w/a.jpg", watch_media_directories.AlreadyImported)]
  /\ AutoImport.media_id <$> records (Sample.world_of Sample.second_pass) !! "/w/a.jpg"
     = Some (Some 1).
Proof. vm_compute. by repeat split. Qed.

(** ** Dry run *)

(** Under the dry-run flag the loop body creates no media and leaves the
    file system alone. *)
Lemma scan_file_dry_run_frame E c opts cn exts da owner now w q w' o :
  keyed (records w) ->
  watch_media_directories.dry_run opts = true ->
  watch_media_directories.scan_file E c opts cn exts da owner now w q = (w', o) ->
  media w' = media w /\ media_seq w' = media_seq w /\ fs w' = fs w.
Proof.
  intros Hk Hd Hs.
  pose proof (scan_file_row E c opts cn exts da owner now w q w' o Hk Hs) as Hrow.
  destruct o.
  - by destruct Hrow as [-> _].
  - by destruct Hrow as (_ & ? & ? & ? & _).
  - by destruct Hrow as (_ & ? & ? & ? & _).
  - by destruct Hrow as (_ & ? & ? & ? & _).
  - exfalso.
    destruct (watch_media_directories.extension_excluded exts q) eqn:Hx.
    { rewrite scan_file_excluded in Hs by done. by inversion Hs. }
    destruct (observe_path_row (records w) q cn now Hk) as (r & created & Ho & _).
    destruct (scan_file_cases E c opts cn exts da owner now w q _ r created Hx Ho)
      as (w1 & o1 & Hs1 & _ & Hcase).
    rewrite Hs in Hs1. inversion Hs1; subst.
    destruct Hcase as [H|[H|[H|H]]].
    + by destruct H as [? _].
    + by destruct H as [? _].
    + by destruct H as [? _].
    + destruct H as (? & ? & _ & Hd' & _). congruence.
Qed.

(** C3 at the directory [/w] with the one file [a.jpg] and an empty
    ledger: the dry run reports the file, creates no media and leaves the
    file system alone, but it does write the ledger, which holds a row for
    the file afterwards. *)
Theorem C3_dry_run_writes_ledger :
  records (Sample.empty_world Sample.watched) = ∅
  /\ match watch_media_directories.process_config Sample.env
             (watch_media_directories.ConfigDict Sample.config_w)
             Sample.dry_run_options 20 (Sample.empty_world Sample.watched) with
     | watch_media_directories.Done w' log =>
         log = [("/w/a.jpg", watch_media_directories.DryRunReported)]
         /\ stdout w' = ["[dry-run] Would import /w/a.jpg"]
         /\ media w' = []
         /\ fs w' = Sample.watched
         /\ records w' !! "/w/a.jpg"
            = Some {| AutoImport.source_path := "/w/a.jpg";
                      AutoImport.config_name := "/w";
                      AutoImport.media_id := None;
                      AutoImport.md5sum := None;
                      AutoImport.imported_at := None;
                      AutoImport.last_seen := 20 |}
     | watch_media_directories.CommandError _ _ => False
     end.
Proof. vm_compute. by repeat split. Qed.

(** A dry run also rewrites a row that exists: the last-seen stamp and
    the configuration name of the row of [/w/a.jpg] change. *)
Example dry_run_touches_row :
  let w' := fst (watch_media_directories.scan_file Sample.env Sample.config_w
                   Sample.dry_run_options "/w" [] false Sample.alice 20
                   Sample.imported_world "/w/a.jpg") in
  AutoImport.last_seen <$> records Sample.imported_world !! "/w/a.jpg" = Some 10
  /\ AutoImport.last_seen <$> records w' !! "/w/a.jpg" = Some 20
  /\ AutoImport.config_name <$> records w' !! "/w/a.jpg" = Some "/w".
Proof. vm_compute. by repeat split. Qed.

(** ** Starting the watchers *)

Lemma process_config_error_world E entry opts now w msg w' :
  watch_media_directories.process_config E entry opts now w
  = watch_media_directories.CommandError msg w' ->
  w' = w.
Proof.
  unfold watch_media_directories.process_config. intros H.
  destruct entry as [|c]; [by inversion H|].
  destruct (watch_media_directories.path c) as [path0|]; [|by inversion H].
  destruct (negb (FS.exists_ (fs w) path0) || negb (FS.isdir (fs w) path0));
    [by inversion H|].
  destruct (watch_media_directories._resolve_user c w) as [owner|m]; [|by inversion H].
  by destruct (watch_media_directories.scan_files _ _ _ _ _ _ _ _ _ _).
Qed.

(** What [start] does once the user resolves and the processed directory,
    if one is asked for, can be made. *)
Lemma start_observers E s w u :
  PyStr.truthy (getattr (MEDIA_WATCH_USER s) "") = true ->
  List.find (fun x => String.eqb (UserModel.username x)
                        (getattr (MEDIA_WATCH_USER s) "")) (users w) = Some u ->
  (getattr (MEDIA_WATCH_MOVE_AFTER_IMPORT s) false = true ->
   PyStr.truthy (getattr (MEDIA_WATCH_PROCESSED_DIR s) "") = true
   /\ is_Some (FS.mkdir_parents (fs w) (getattr (MEDIA_WATCH_PROCESSED_DIR s) ""))) ->
  let started :=
    List.map (fun d => {| DirectoryMonitor.watch_dir := d;
                          DirectoryMonitor.recursive :=
                            getattr (MEDIA_WATCH_RECURSIVE s) true |})
      (List.filter (observer_starts E)
         (List.filter (DirectoryMonitor.valid_dir (fs w))
            (getattr (MEDIA_WATCH_DIRS s) []))) in
  let '(mon, _, ok) := DirectoryMonitor.start E s DirectoryMonitor.init w in
  DirectoryMonitor.observers mon = started
  /\ ok = match started with [] => false | _ => true end.
Proof.
  intros Ht Hu Hmove started. subst started.
  unfold DirectoryMonitor.start.
  destruct (getattr (MEDIA_WATCH_DIRS s) []) as [|d ds] eqn:Hd; [by split|].
  rewrite Ht, Hu. cbn [negb].
  destruct (List.filter (DirectoryMonitor.valid_dir (fs w)) (d :: ds))
    as [|v vs] eqn:Hv; [by split|].
  destruct (getattr (MEDIA_WATCH_MOVE_AFTER_IMPORT s) false) eqn:Hm.
  - destruct (Hmove eq_refl) as [Hp [f1 Hf1]]. rewrite Hp, Hf1. cbn [negb].
    cbn [DirectoryMonitor.observers DirectoryMonitor.init app].
    by destruct (List.map _ (List.filter (observer_starts E) (v :: vs))).
  - cbn [DirectoryMonitor.observers DirectoryMonitor.init app].
    by destruct (List.map _ (List.filter (observer_starts E) (v :: vs))).
Qed.

(** C8, as the code has it. In the event-driven monitor a watched
    directory that is missing, not a directory or unreadable is passed
    over: every valid directory whose observer starts gets its observer, no
    other directory gets one, and [start] reports success exactly when some
    observer runs, so with no valid directory it fails. In the poll command
    a configuration error of one configuration is raised again by [handle]
    and ends the run: the configurations after it are not processed and the
    world stays as it was. *)
Theorem C8_configuration_errors
    (E : environment) (s : settings) (w : world) (u : UserModel.User)
    (entry : watch_media_directories.config_entry)
    (rest : list watch_media_directories.config_entry)
    (opts : watch_media_directories.options) (now : Z) (clock : list Z)
    (w2 w2' : world) (msg : string) :
  PyStr.truthy (getattr (MEDIA_WATCH_USER s) "") = true ->
  List.find (fun x => String.eqb (UserModel.username x)
                        (getattr (MEDIA_WATCH_USER s) "")) (users w) = Some u ->
  (getattr (MEDIA_WATCH_MOVE_AFTER_IMPORT s) false = true ->
   PyStr.truthy (getattr (MEDIA_WATCH_PROCESSED_DIR s) "") = true
   /\ is_Some (FS.mkdir_parents (fs w) (getattr (MEDIA_WATCH_PROCESSED_DIR s) ""))) ->
  watch_media_directories.process_config E entry opts now w2
  = watch_media_directories.CommandError msg w2' ->
  (let '(mon, _, ok) := DirectoryMonitor.start E s DirectoryMonitor.init w in
   (forall d, In d (getattr (MEDIA_WATCH_DIRS s) []) ->
              DirectoryMonitor.valid_dir (fs w) d = true ->
              observer_starts E d = true ->
              In {| DirectoryMonitor.watch_dir := d;
                    DirectoryMonitor.recursive :=
                      getattr (MEDIA_WATCH_RECURSIVE s) true |}
                 (DirectoryMonitor.observers mon))
   /\ (forall o, In o (DirectoryMonitor.observers mon) ->
                 In (DirectoryMonitor.watch_dir o) (getattr (MEDIA_WATCH_DIRS s) [])
                 /\ DirectoryMonitor.valid_dir (fs w) (DirectoryMonitor.watch_dir o)
                    = true)
   /\ (ok = true <-> DirectoryMonitor.observers mon <> [])
   /\ (List.filter (DirectoryMonitor.valid_dir (fs w))
         (getattr (MEDIA_WATCH_DIRS s) []) = [] -> ok = false))
  /\ watch_media_directories.handle E (Some (entry :: rest)) opts (now :: clock) w2
     = watch_media_directories.CommandError msg w2.
Proof.
  intros Ht Hu Hmove Herr. split.
  - pose proof (start_observers E s w u Ht Hu Hmove) as Hst. cbv zeta in Hst.
    destruct (DirectoryMonitor.start E s DirectoryMonitor.init w) as [[mon w'] ok].
    destruct Hst as [Hobs Hok]. rewrite Hobs.
    split; [|split; [|split]].
    + intros d Hin Hv Hs. apply in_map_iff. exists d. split; [done|].
      apply filter_In. split; [|done]. apply filter_In. by split.
    + intros o Ho. apply in_map_iff in Ho as (d & <- & Hd). cbn.
      apply filter_In in Hd as [Hd _]. by apply filter_In in Hd.
    + rewrite Hok. by destruct (List.map _ _).
    + intros Hnone. rewrite Hok, Hnone. reflexivity.
  - pose proof (process_config_error_world _ _ _ _ _ _ _ Herr) as ->.
    unfold watch_media_directories.handle. cbn [getattr].
    cbn [watch_media_directories.scan_loop watch_media_directories.process_configs].
    by rewrite Herr.
Qed.

Lemma C8_configuration_errors_witness :
  PyStr.truthy (getattr (MEDIA_WATCH_USER Sample.mixed_settings) "") = true
  /\ watch_media_directories.process_config Sample.env
       (watch_media_directories.ConfigDict Sample.config_missing)
       Sample.plain_options 10 (Sample.empty_world Sample.watched)
     = watch_media_directories.CommandError
         "Watch directory does not exist: /missing"
         (Sample.empty_world Sample.watched)
  /\ (let '(mon, _, ok) :=
        DirectoryMonitor.start Sample.env Sample.mixed_settings
          DirectoryMonitor.init (Sample.empty_world Sample.watched) in
      ok = true <-> DirectoryMonitor.observers mon <> [])
  /\ watch_media_directories.handle Sample.env
       (Some [watch_media_directories.ConfigDict Sample.config_missing;
              watch_media_directories.ConfigDict Sample.config_w])
       Sample.plain_options [10] (Sample.empty_world Sample.watched)
     = watch_media_directories.CommandError
         "Watch directory does not exist: /missing"
         (Sample.empty_world Sample.watched).
Proof.
  assert (Ht : PyStr.truthy (getattr (MEDIA_WATCH_USER Sample.mixed_settings) "")
               = true) by reflexivity.
  assert (Herr : watch_media_directories.process_config Sample.env
                   (watch_media_directories.ConfigDict Sample.config_missing)
                   Sample.plain_options 10 (Sample.empty_world Sample.watched)
                 = watch_media_directories.CommandError
                     "Watch directory does not exist: /missing"
                     (Sample.empty_world Sample.watched))
    by (vm_compute; reflexivity).
  assert (Hmove : getattr (MEDIA_WATCH_MOVE_AFTER_IMPORT Sample.mixed_settings) false
                  = true ->
                  PyStr.truthy
                    (getattr (MEDIA_WATCH_PROCESSED_DIR Sample.mixed_settings) "")
                  = true
                  /\ is_Some (FS.mkdir_parents
                                (fs (Sample.empty_world Sample.watched))
                                (getattr (MEDIA_WATCH_PROCESSED_DIR
                                            Sample.mixed_settings) "")))
    by (intros Hm; discriminate Hm).
  pose proof (C8_configuration_errors Sample.env Sample.mixed_settings
                (Sample.empty_world Sample.watched) Sample.alice
                (watch_media_directories.ConfigDict Sample.config_missing)
                [watch_media_directories.ConfigDict Sample.config_w]
                Sample.plain_options 10 [] (Sample.empty_world Sample.watched)
                (Sample.empty_world Sample.watched)
                "Watch directory does not exist: /missing"
                Ht eq_refl Hmove Herr) as [Hstart Hhandle].
  split; [exact Ht|]. split; [exact Herr|]. split; [|exact Hhandle].
  destruct (DirectoryMonitor.start Sample.env Sample.mixed_settings
              DirectoryMonitor.init (Sample.empty_world Sample.watched))
    as [[mon w'] ok].
  exact (proj1 (proj2 (proj2 Hstart))).
Defined.

(** The event-driven monitor, given a missing and a valid directory,
    watches the valid one. *)
Example start_skips_missing_directory :
  let '(mon, _, ok) :=
    DirectoryMonitor.start Sample.env Sample.mixed_settings
      DirectoryMonitor.init (Sample.empty_world Sample.watched) in
  ok = true
  /\ DirectoryMonitor.observers mon
     = [{| DirectoryMonitor.watch_dir := "/w";
           DirectoryMonitor.recursive := true |}].
Proof. vm_compute. by split. Qed.

(** C8, as stated, fails for the poll command: with the configuration of
    a missing directory listed before the valid configuration of [/w], the
    run ends with the error of the first and the valid sibling is never
    processed (no row, no media), although on its own it imports the file. *)
Lemma C8_counterexample :
  (exists m,
      Sample.log_of
        (watch_media_directories.handle Sample.env
           (Some [watch_media_directories.ConfigDict Sample.config_w])
           Sample.plain_options [10] (Sample.empty_world Sample.watched))
      = [("/w/a.jpg", watch_media_directories.ImportedAs m)])
  /\ watch_media_directories.handle Sample.env
       (Some [watch_media_directories.ConfigDict Sample.config_missing;
              watch_media_directories.ConfigDict Sample.config_w])
       Sample.plain_options [10] (Sample.empty_world Sample.watched)
     = watch_media_directories.CommandError
         "Watch directory does not exist: /missing"
         (Sample.empty_world Sample.watched)
  /\ records (Sample.empty_world Sample.watched) = ∅
  /\ media (Sample.empty_world Sample.watched) = [].
Proof.
  split; [eexists; vm_compute; reflexivity|].
  split; [vm_compute; reflexivity|]. by split.
Qed.

(** ** The event-driven import *)

(** The import of a non-empty readable file within the size ceiling whose
    digest is not empty: a duplicate is skipped, anything else is handed to
    the Media storage. *)
Lemma import_media_file_valid E h s now w p c :
  fs w !! p = Some (FS.RegularFile c true) ->
  Z.of_nat (String.length c) <> 0 ->
  Z.of_nat (String.length c) <= getattr (UPLOAD_MAX_SIZE s) (800 * 1024 * 1000 * 5) ->
  PyStr.truthy (md5_hexdigest E c) = true ->
  match MediaModel.filter_md5sum_first (media w) (md5_hexdigest E c) with
  | Some existing =>
      exists w',
        directory_monitor._import_media_file E h s now w p
        = (w', directory_monitor.DuplicateSkipped existing)
        /\ media w' = media w /\ media_seq w' = media_seq w
  | None =>
      if media_save_ok E (PosixPath.basename p) c then
        exists w' m,
          directory_monitor._import_media_file E h s now w p
          = (w', directory_monitor.Imported m)
          /\ MediaModel.pk m = media_seq w + 1
          /\ MediaModel.md5sum m = Some (md5_hexdigest E c)
          /\ media w' = (media w ++ [m])%list
          /\ media_seq w' = media_seq w + 1
          /\ fs w' = (if directory_monitor.move_configured h
                      then fst (directory_monitor._move_processed_file E h now
                                  (fs w) p false)
                      else fs w)
      else directory_monitor._import_media_file E h s now w p
           = (w, directory_monitor.ImportError)
  end.
Proof.
  intros Hn Hz Hmax Ht.
  unfold directory_monitor._import_media_file, directory_monitor._calculate_md5,
    FS.exists_, FS.isfile, FS.getsize, FS.read.
  rewrite Hn. cbn [negb].
  destruct (Z.eqb_spec (Z.of_nat (String.length c)) 0) as [|_]; [done|].
  destruct (Z.gtb_spec (Z.of_nat (String.length c))
              (getattr (UPLOAD_MAX_SIZE s) (800 * 1024 * 1000 * 5))) as [|_]; [lia|].
  rewrite Ht. cbn [negb].
  destruct (MediaModel.filter_md5sum_first (media w) (md5_hexdigest E c)) as [ex|].
  - destruct (directory_monitor.move_configured h); eexists; by repeat split.
  - destruct (media_save_ok E (PosixPath.basename p) c); cbn [negb]; [|done].
    destruct (directory_monitor.move_configured h); eexists _, _; by repeat split.
Qed.

(** What a successful import says about the file and the corpus. *)
Lemma import_media_file_imported E h s now w p w1 m :
  directory_monitor._import_media_file E h s now w p
  = (w1, directory_monitor.Imported m) ->
  exists c,
    fs w !! p = Some (FS.RegularFile c true)
    /\ Z.of_nat (String.length c) <> 0
    /\ Z.of_nat (String.length c)
       <= getattr (UPLOAD_MAX_SIZE s) (800 * 1024 * 1000 * 5)
    /\ PyStr.truthy (md5_hexdigest E c) = true
    /\ MediaModel.filter_md5sum_first (media w) (md5_hexdigest E c) = None
    /\ MediaModel.md5sum m = Some (md5_hexdigest E c)
    /\ media w1 = (media w ++ [m])%list
    /\ fs w1 = (if directory_monitor.move_configured h
                then fst (directory_monitor._move_processed_file E h now
                            (fs w) p false)
                else fs w).
Proof.
  intros Hi.
  destruct (fs w !! p) as [[c rd|rd]|] eqn:Hn.
  - destruct rd.
    + destruct (Z.eqb_spec (Z.of_nat (String.length c)) 0) as [Hz|Hz].
      { unfold directory_monitor._import_media_file, FS.exists_, FS.isfile,
          FS.getsize in Hi. rewrite Hn in Hi. cbn [negb] in Hi.
        rewrite Hz in Hi. cbn in Hi. by inversion Hi. }
      destruct (Z.gtb_spec (Z.of_nat (String.length c))
                  (getattr (UPLOAD_MAX_SIZE s) (800 * 1024 * 1000 * 5))) as [Hg|Hg].
      { unfold directory_monitor._import_media_file, FS.exists_, FS.isfile,
          FS.getsize in Hi. rewrite Hn in Hi. cbn [negb] in Hi.
        destruct (Z.eqb_spec (Z.of_nat (String.length c)) 0); [done|].
        destruct (Z.gtb_spec (Z.of_nat (String.length c))
                    (getattr (UPLOAD_MAX_SIZE s) (800 * 1024 * 1000 * 5)));
          [by inversion Hi|lia]. }
      destruct (PyStr.truthy (md5_hexdigest E c)) eqn:Ht.
      * pose proof (import_media_file_valid E h s now w p c Hn Hz Hg Ht) as Hv.
        destruct (MediaModel.filter_md5sum_first (media w) (md5_hexdigest E c))
          as [ex|] eqn:Hf.
        { destruct Hv as (w' & Hv & _). rewrite Hv in Hi. by inversion Hi. }
        destruct (media_save_ok E (PosixPath.basename p) c).
        -- destruct Hv as (w' & m' & Hv & _ & Hsum & Hmed & _ & Hfs).
           rewrite Hv in Hi. inversion Hi; subst. exists c. by repeat split.
        -- rewrite Hv in Hi. by inversion Hi.
      * unfold directory_monitor._import_media_file, directory_monitor._calculate_md5,
          FS.exists_, FS.isfile, FS.getsize, FS.read in Hi.
        rewrite Hn in Hi. cbn [negb] in Hi.
        destruct (Z.eqb_spec (Z.of_nat (String.length c)) 0); [done|].
        destruct (Z.gtb_spec (Z.of_nat (String.length c))
                    (getattr (UPLOAD_MAX_SIZE s) (800 * 1024 * 1000 * 5))); [lia|].
        rewrite Ht in Hi. by inversion Hi.
    + unfold directory_monitor._import_media_file, directory_monitor._calculate_md5,
        FS.exists_, FS.isfile, FS.getsize, FS.read in Hi.
      rewrite Hn in Hi. cbn [negb] in Hi.
      destruct (Z.of_nat (String.length c) =? 0); [by inversion Hi|].
      destruct (Z.of_nat (String.length c)
                >? getattr (UPLOAD_MAX_SIZE s) (800 * 1024 * 1000 * 5));
        by inversion Hi.
  - unfold directory_monitor._import_media_file, FS.exists_, FS.isfile in Hi.
    rewrite Hn in Hi. by inversion Hi.
  - unfold directory_monitor._import_media_file, FS.exists_ in Hi.
    rewrite Hn in Hi. by inversion Hi.
Qed.

(** C4, as the code has it: the event-driven import enforces the size
    boundary before anything else is done with a regular file. With a
    positive ceiling, an empty file ends as [EmptyFile] and a file one byte
    over the ceiling ends as [TooLarge], both as plain returns that leave the
    world as it was; a file of exactly the ceiling passes both tests, and is
    imported when it reads, its digest is not in the corpus and the storage
    accepts it. *)
Theorem C4_event_size_boundary
    (E : environment) (h : directory_monitor.MediaFileHandler) (s : settings)
    (now : Z) (w : world) (p c : string) (rd : bool) :
  fs w !! p = Some (FS.RegularFile c rd) ->
  0 < getattr (UPLOAD_MAX_SIZE s) (800 * 1024 * 1000 * 5) ->
  (Z.of_nat (String.length c) = 0 ->
   directory_monitor._import_media_file E h s now w p
   = (w, directory_monitor.EmptyFile))
  /\ (Z.of_nat (String.length c)
      = getattr (UPLOAD_MAX_SIZE s) (800 * 1024 * 1000 * 5) + 1 ->
      directory_monitor._import_media_file E h s now w p
      = (w, directory_monitor.TooLarge))
  /\ (Z.of_nat (String.length c)
      = getattr (UPLOAD_MAX_SIZE s) (800 * 1024 * 1000 * 5) ->
      snd (directory_monitor._import_media_file E h s now w p)
      <> directory_monitor.EmptyFile
      /\ snd (directory_monitor._import_media_file E h s now w p)
         <> directory_monitor.TooLarge
      /\ (rd = true ->
          PyStr.truthy (md5_hexdigest E c) = true ->
          MediaModel.filter_md5sum_first (media w) (md5_hexdigest E c) = None ->
          media_save_ok E (PosixPath.basename p) c = true ->
          exists w' m,
            directory_monitor._import_media_file E h s now w p
            = (w', directory_monitor.Imported m)
            /\ media w' = (media w ++ [m])%list)).
Proof.
  intros Hn Hpos. split; [|split].
  - intros Hz. unfold directory_monitor._import_media_file, FS.exists_, FS.isfile,
      FS.getsize. rewrite Hn, Hz. reflexivity.
  - intros Hz. unfold directory_monitor._import_media_file, FS.exists_, FS.isfile,
      FS.getsize. rewrite Hn. cbn [negb].
    destruct (Z.eqb_spec (Z.of_nat (String.length c)) 0); [lia|].
    destruct (Z.gtb_spec (Z.of_nat (String.length c))
                (getattr (UPLOAD_MAX_SIZE s) (800 * 1024 * 1000 * 5))); [done|lia].
  - intros Hz.
    assert (Hnz : Z.of_nat (String.length c) <> 0) by lia.
    assert (Hle : Z.of_nat (String.length c)
                  <= getattr (UPLOAD_MAX_SIZE s) (800 * 1024 * 1000 * 5)) by lia.
    assert (Hpass : snd (directory_monitor._import_media_file E h s now w p)
                    <> directory_monitor.EmptyFile
                    /\ snd (directory_monitor._import_media_file E h s now w p)
                       <> directory_monitor.TooLarge).
    { unfold directory_monitor._import_media_file, FS.exists_, FS.isfile,
        FS.getsize. rewrite Hn. cbn [negb].
      destruct (Z.eqb_spec (Z.of_nat (String.length c)) 0); [lia|].
      destruct (Z.gtb_spec (Z.of_nat (String.length c))
                  (getattr (UPLOAD_MAX_SIZE s) (800 * 1024 * 1000 * 5))); [lia|].
      destruct (directory_monitor._calculate_md5 E (fs w) p) as [d|]; [|by split].
      destruct (PyStr.truthy d); cbn [negb]; [|by split].
      destruct (MediaModel.filter_md5sum_first (media w) d).
      { by destruct (directory_monitor.move_configured h). }
      destruct (FS.read (fs w) p) as [bytes|]; [|by split].
      destruct (media_save_ok E (PosixPath.basename p) bytes); cbn [negb];
        [|by split].
      by destruct (directory_monitor.move_configured h). }
    split; [exact (proj1 Hpass)|]. split; [exact (proj2 Hpass)|].
    intros -> Ht Hf Hok.
    pose proof (import_media_file_valid E h s now w p c Hn Hnz Hle Ht) as Hv.
    rewrite Hf, Hok in Hv. destruct Hv as (w' & m & Hv & _ & _ & Hmed & _).
    by exists w', m.
Qed.

Lemma C4_event_size_boundary_witness :
  fs (Sample.empty_world Sample.watched) !! "/w/a.jpg"
  = Some (FS.RegularFile "X" true)
  /\ 0 < getattr (UPLOAD_MAX_SIZE Sample.one_byte_ceiling) (800 * 1024 * 1000 * 5)
  /\ exists w' m,
       directory_monitor._import_media_file Sample.env Sample.handler
         Sample.one_byte_ceiling 7 (Sample.empty_world Sample.watched) "/w/a.jpg"
       = (w', directory_monitor.Imported m)
       /\ media w' = (media (Sample.empty_world Sample.watched) ++ [m])%list.
Proof.
  assert (Hn : fs (Sample.empty_world Sample.watched) !! "/w/a.jpg"
               = Some (FS.RegularFile "X" true)) by reflexivity.
  assert (Hpos : 0 < getattr (UPLOAD_MAX_SIZE Sample.one_byte_ceiling)
                       (800 * 1024 * 1000 * 5)) by (cbn; lia).
  split; [exact Hn|]. split; [exact Hpos|].
  exact (proj2 (proj2 (proj2 (proj2
           (C4_event_size_boundary Sample.env Sample.handler
              Sample.one_byte_ceiling 7 (Sample.empty_world Sample.watched)
              "/w/a.jpg" "X" true Hn Hpos)) eq_refl))
           eq_refl eq_refl eq_refl eq_refl).
Defined.

(** At the ceiling of one byte: the file of two bytes is skipped. *)
Example two_bytes_too_large :
  snd (directory_monitor._import_media_file Sample.env Sample.handler
         Sample.one_byte_ceiling 7
         (Sample.empty_world {[ "/w/c.jpg" := FS.RegularFile "XY" true ]})
         "/w/c.jpg")
  = directory_monitor.TooLarge.
Proof. vm_compute. reflexivity. Qed.

(** C4, as stated, fails for the poll scan, which tests no size: the
    empty file [/w/empty.jpg] is handed to the import and becomes a media. *)
Lemma C4_counterexample :
  FS.getsize Sample.watched_empty_file "/w/empty.jpg" = 0
  /\ match watch_media_directories.process_config Sample.env
             (watch_media_directories.ConfigDict Sample.config_w)
             Sample.plain_options 10
             (Sample.empty_world Sample.watched_empty_file) with
     | watch_media_directories.Done w' log =>
         (exists m, log = [("/w/empty.jpg", watch_media_directories.ImportedAs m)])
         /\ length (media w') = 1%nat
     | watch_media_directories.CommandError _ _ => False
     end.
Proof.
  split; [reflexivity|]. vm_compute. split; [eexists; reflexivity|reflexivity].
Qed.

(** ** Relocation keeps the other files *)

Lemma mkdir_chain_keeps (l : list string) :
  forall (acc : gmap string FS.node) q n,
    acc !! q = Some n ->
    foldl (fun acc d => if FS.exists_ acc d then acc
                        else <[d := FS.Directory true]> acc) acc l !! q = Some n.
Proof.
  induction l as [|d l IH]; intros acc q n Hq; [exact Hq|].
  cbn [foldl]. apply IH.
  destruct (FS.exists_ acc d) eqn:He; [exact Hq|].
  destruct (decide (d = q)) as [->|Hne].
  - unfold FS.exists_ in He. by rewrite Hq in He.
  - by rewrite lookup_insert_ne.
Qed.

Lemma mkdir_parents_keeps f d f1 q n :
  FS.mkdir_parents f d = Some f1 -> f !! q = Some n -> f1 !! q = Some n.
Proof.
  unfold FS.mkdir_parents. intros H Hq.
  destruct (existsb (FS.isfile f) (PosixPath.ancestors d)); [done|].
  inversion H; subst. by apply mkdir_chain_keeps.
Qed.

(** A move leaves any other file in place, or replaces it by the file
    that moved. *)
Lemma fs_move_keeps f src dst f2 n q nq :
  FS.move f src dst = Some f2 ->
  f !! src = Some n -> f !! q = Some nq -> q <> src ->
  f2 !! q = Some nq \/ f2 !! q = Some n.
Proof.
  unfold FS.move. intros H Hs Hq Hne. rewrite Hs in H.
  destruct (FS.isdir f dst).
  - destruct (FS.exists_ f (PosixPath.joinpath dst (PosixPath.basename src)))
      eqn:He; [done|].
    inversion H; subst. left.
    assert (PosixPath.joinpath dst (PosixPath.basename src) <> q).
    { intros Heq. unfold FS.exists_ in He. by rewrite Heq, Hq in He. }
    rewrite lookup_insert_ne by done. by rewrite lookup_delete_ne.
  - inversion H; subst. destruct (decide (dst = q)) as [->|Hd].
    + right. apply lookup_insert_eq.
    + left. rewrite lookup_insert_ne by done. by rewrite lookup_delete_ne.
Qed.

Lemma move_processed_keeps E h now f src dup n q nq :
  f !! src = Some n -> f !! q = Some nq -> q <> src ->
  fst (directory_monitor._move_processed_file E h now f src dup) !! q = Some nq
  \/ fst (directory_monitor._move_processed_file E h now f src dup) !! q = Some n.
Proof.
  intros Hs Hq Hne. unfold directory_monitor._move_processed_file.
  destruct (directory_monitor.processed_dir h) as [pdir|]; [|by left].
  destruct (PyStr.truthy pdir); cbn [negb]; [|by left].
  destruct (FS.mkdir_parents f _) as [f1|] eqn:Hmk; [|by left].
  pose proof (mkdir_parents_keeps _ _ _ _ _ Hmk Hs) as Hs1.
  pose proof (mkdir_parents_keeps _ _ _ _ _ Hmk Hq) as Hq1.
  destruct (PosixPath.splitext (PosixPath.basename src)) as [name ext].
  destruct (FS.move f1 src _) as [f2|] eqn:Hmv; cbn [fst].
  - exact (fs_move_keeps _ _ _ _ _ _ _ Hmv Hs1 Hq1 Hne).
  - by left.
Qed.

(** The corpus lookup finds a media that was appended with the digest
    when no older media carries it. *)
Lemma filter_md5sum_first_app tbl m x :
  MediaModel.filter_md5sum_first tbl x = None ->
  MediaModel.md5sum m = Some x ->
  MediaModel.filter_md5sum_first (tbl ++ [m])%list x = Some m.
Proof.
  unfold MediaModel.filter_md5sum_first. intros Hn Hm.
  induction tbl as [|a tbl IH]; cbn in *.
  - by rewrite Hm, String.eqb_refl.
  - destruct (MediaModel.md5sum a) as [y|].
    + destruct (String.eqb y x); [done|]. by apply IH.
    + by apply IH.
Qed.

(** C2, as the code has it: in the event-driven import two distinct
    paths with the same bytes give one media. When the first file was
    imported, the import of the second finds the digest in the corpus and ends
    as [DuplicateSkipped] with the media of the first, and the corpus has
    grown by exactly that one media. *)
Theorem C2_event_content_dedup
    (E : environment) (h : directory_monitor.MediaFileHandler) (s : settings)
    (now1 now2 : Z) (w w1 : world) (p1 p2 c : string) (rd : bool)
    (m1 : MediaModel.Media) :
  p1 <> p2 ->
  fs w !! p1 = Some (FS.RegularFile c rd) ->
  fs w !! p2 = Some (FS.RegularFile c true) ->
  directory_monitor._import_media_file E h s now1 w p1
  = (w1, directory_monitor.Imported m1) ->
  media w1 = (media w ++ [m1])%list
  /\ exists w2,
       directory_monitor._import_media_file E h s now2 w1 p2
       = (w2, directory_monitor.DuplicateSkipped m1)
       /\ media w2 = (media w ++ [m1])%list.
Proof.
  intros Hne Hn1 Hn2 Hi.
  destruct (import_media_file_imported E h s now1 w p1 w1 m1 Hi)
    as (c' & Hn1' & Hnz & Hle & Ht & Hf & Hsum & Hmed & Hfs).
  rewrite Hn1 in Hn1'. inversion Hn1'; subst c' rd. clear Hn1'.
  split; [exact Hmed|].
  assert (Hn2' : fs w1 !! p2 = Some (FS.RegularFile c true)).
  { rewrite Hfs. destruct (directory_monitor.move_configured h); [|exact Hn2].
    destruct (move_processed_keeps E h now1 (fs w) p1 false _ p2 _ Hn1 Hn2
                ltac:(congruence)); done. }
  pose proof (import_media_file_valid E h s now2 w1 p2 c Hn2' Hnz Hle Ht) as Hv.
  rewrite Hmed, (filter_md5sum_first_app _ _ _ Hf Hsum) in Hv.
  destruct Hv as (w2 & Hv & Hmed2 & _).
  exists w2. split; [exact Hv|]. by rewrite Hmed2.
Qed.

Lemma C2_event_content_dedup_witness :
  "/w/a.jpg" <> "/w/b.jpg"
  /\ Sample.twin_import
     = (fst Sample.twin_import, directory_monitor.Imported Sample.twin_media)
  /\ media (fst Sample.twin_import) = [Sample.twin_media]
  /\ exists w2,
       directory_monitor._import_media_file Sample.env Sample.handler
         Sample.one_byte_ceiling 9 (fst Sample.twin_import) "/w/b.jpg"
       = (w2, directory_monitor.DuplicateSkipped Sample.twin_media)
       /\ media w2 = [Sample.twin_media].
Proof.
  assert (Hne : "/w/a.jpg" <> "/w/b.jpg") by discriminate.
  assert (Hi : Sample.twin_import
               = (fst Sample.twin_import,
                  directory_monitor.Imported Sample.twin_media))
    by (vm_compute; reflexivity).
  split; [exact Hne|]. split; [exact Hi|].
  exact (C2_event_content_dedup Sample.env Sample.handler Sample.one_byte_ceiling
           7 9 (Sample.empty_world Sample.watched_twins) (fst Sample.twin_import)
           "/w/a.jpg" "/w/b.jpg" "X" true Sample.twin_media
           Hne eq_refl eq_refl Hi).
Defined.

(** C2, as stated, fails for the poll scan, which looks no checksum up
    before it creates the media: the twins [/w/a.jpg] and [/w/b.jpg] are both
    imported, as two media with the same checksum. *)
Lemma C2_counterexample :
  FS.read Sample.watched_twins "/w/a.jpg" = FS.read Sample.watched_twins "/w/b.jpg"
  /\ match watch_media_directories.process_config Sample.env
             (watch_media_directories.ConfigDict Sample.config_w)
             Sample.plain_options 10
             (Sample.empty_world Sample.watched_twins) with
     | watch_media_directories.Done w' log =>
         (exists ma mb,
             log = [("/w/a.jpg", watch_media_directories.ImportedAs ma);
                    ("/w/b.jpg", watch_media_directories.ImportedAs mb)]
             /\ MediaModel.md5sum ma = MediaModel.md5sum mb
             /\ MediaModel.pk ma <> MediaModel.pk mb)
         /\ length (media w') = 2%nat
     | watch_media_directories.CommandError _ _ => False
     end.
Proof.
  split; [reflexivity|]. vm_compute.
  split; [|reflexivity]. eexists _, _. split; [reflexivity|]. by split.
Qed.

(** ** Paths and relocation *)

Lemma str_app_cons (x : ascii) (a b : string) :
  String x a ++ b = String x (a ++ b).
Proof. reflexivity. Qed.

Lemma str_app_nil_r (a : string) : a ++ "" = a.
Proof.
  induction a as [|x a IH]; [reflexivity|]. by rewrite str_app_cons, IH.
Qed.

Lemma str_app_snoc (a : string) (x : ascii) (b : string) :
  (a ++ String x "") ++ b = a ++ String x b.
Proof.
  induction a as [|y a IH]; [reflexivity|]. by rewrite !str_app_cons, IH.
Qed.

Lemma str_length_app (a b : string) :
  String.length (a ++ b) = (String.length a + String.length b)%nat.
Proof.
  induction a as [|x a IH]; [reflexivity|].
  rewrite str_app_cons. cbn [String.length]. by rewrite IH.
Qed.

Lemma str_take_drop (n : nat) (s : string) : PyStr.take n s ++ PyStr.drop n s = s.
Proof.
  revert s. induction n as [|n IH]; intros s; [reflexivity|].
  destruct s as [|x s]; [reflexivity|].
  cbn [PyStr.take PyStr.drop]. by rewrite str_app_cons, IH.
Qed.

(** [os.path.splitext] splits: root and extension give the path back. *)
Lemma splitext_concat (p : string) :
  fst (PosixPath.splitext p) ++ snd (PosixPath.splitext p) = p.
Proof.
  unfold PosixPath.splitext.
  destruct (PyStr.rfind "." p >? PyStr.rfind "/" p).
  - destruct (PosixPath.has_non_dot _); cbn [fst snd].
    + apply str_take_drop.
    + apply str_app_nil_r.
  - cbn [fst snd]. apply str_app_nil_r.
Qed.

(** The stamped name differs from the name it replaces. *)
Lemma stamped_name_differs (name stamp ext : string) :
  name ++ "_" ++ stamp ++ ext <> name ++ ext.
Proof.
  intros Heq. apply (f_equal String.length) in Heq.
  rewrite !str_length_app in Heq. cbn [String.length] in Heq. lia.
Qed.

Lemma str_app_nonempty (a b : string) : b <> "" -> a ++ b <> "".
Proof. intros Hb. destruct a; [exact Hb|discriminate]. Qed.

Lemma joinpath_subdir_nonempty (d s : string) :
  s <> "" -> s <> "." -> PosixPath.joinpath d s <> "".
Proof.
  intros Hs Hd. unfold PosixPath.joinpath.
  destruct (PyStr.startswith "/" s); [exact Hs|].
  destruct (String.eqb_spec s ""); [done|].
  destruct (String.eqb_spec s "."); [done|]. cbn [orb].
  destruct (String.eqb d "."); [exact Hs|].
  destruct (PyStr.endswith "/" d).
  - by apply str_app_nonempty.
  - apply str_app_nonempty. discriminate.
Qed.

(** The chain that [mkdir] walks ends with the path itself. *)
Lemma ancestors_from_self (s pre : string) :
  pre ++ s <> "" -> In (pre ++ s) (PosixPath.ancestors_from pre s).
Proof.
  revert pre. induction s as [|x s IH]; intros pre Hne.
  - cbn [PosixPath.ancestors_from]. rewrite str_app_nil_r in *.
    destruct (String.eqb_spec pre ""); [done|]. by left.
  - cbn [PosixPath.ancestors_from].
    pose proof (fun a => str_app_snoc pre a s) as Hassoc.
    destruct (Ascii.eqb_spec x "/") as [->|Hx].
    + apply in_or_app. right. rewrite <- Hassoc. apply IH.
      rewrite Hassoc. exact Hne.
    + rewrite <- Hassoc. apply IH. rewrite Hassoc. exact Hne.
Qed.

Lemma mkdir_chain_dirs (l : list string) :
  forall (acc : gmap string FS.node) d,
    (forall x, In x l -> FS.isfile acc x = false) ->
    In d l ->
    FS.isdir (foldl (fun acc d => if FS.exists_ acc d then acc
                                  else <[d := FS.Directory true]> acc) acc l) d
    = true.
Proof.
  induction l as [|a l IH]; intros acc d Hnf Hin; [destruct Hin|].
  cbn [foldl].
  set (acc1 := if FS.exists_ acc a then acc else <[a := FS.Directory true]> acc).
  assert (Ha : exists rd, acc1 !! a = Some (FS.Directory rd)).
  { subst acc1. unfold FS.exists_.
    pose proof (Hnf a (or_introl eq_refl)) as Hfa. unfold FS.isfile in Hfa.
    destruct (acc !! a) as [[c rd|rd]|] eqn:Hl.
    - done.
    - by exists rd.
    - exists true. apply lookup_insert_eq. }
  assert (Hnf1 : forall x, In x l -> FS.isfile acc1 x = false).
  { intros x Hx. subst acc1. destruct (FS.exists_ acc a).
    - apply Hnf. by right.
    - unfold FS.isfile. destruct (decide (a = x)) as [->|Hne].
      + by rewrite lookup_insert_eq.
      + rewrite lookup_insert_ne by done. apply (Hnf x). by right. }
  destruct (in_dec string_dec d l) as [Hdl|Hdl].
  - by apply IH.
  - destruct Hin as [->|Hin]; [|done].
    destruct Ha as [rd Ha]. unfold FS.isdir.
    by rewrite (mkdir_chain_keeps l acc1 d _ Ha).
Qed.

Lemma mkdir_parents_isdir f d f1 :
  d <> "" -> FS.mkdir_parents f d = Some f1 -> FS.isdir f1 d = true.
Proof.
  unfold FS.mkdir_parents. intros Hd H.
  destruct (existsb (FS.isfile f) (PosixPath.ancestors d)) eqn:He; [done|].
  inversion H; subst. apply mkdir_chain_dirs.
  - intros x Hx. destruct (FS.isfile f x) eqn:Hf; [|done].
    assert (existsb (FS.isfile f) (PosixPath.ancestors d) = true)
      by (apply existsb_exists; eauto).
    congruence.
  - exact (ancestors_from_self d "" Hd).
Qed.

(** C9: relocation after the import. The file goes below the processed
    root, into [imported], or into [duplicates] when it was a duplicate, under
    its own name; when that name is taken there, under the name with the time
    stamp put between root and extension, which is a different name. The
    subdirectory exists afterwards, the file is found at the target and no
    longer at its source. *)
Theorem C9_relocation_target
    (E : environment) (h : directory_monitor.MediaFileHandler) (now : Z)
    (f f1 : gmap string FS.node) (file_path pdir c : string) (rd duplicate : bool) :
  let target_dir :=
    PosixPath.joinpath pdir (if duplicate then "duplicates" else "imported") in
  let filename := PosixPath.basename file_path in
  let stamped_name :=
    fst (PosixPath.splitext filename) ++ "_" ++ strftime E now "%Y%m%d_%H%M%S"
      ++ snd (PosixPath.splitext filename) in
  let target :=
    if FS.exists_ f1 (PosixPath.joinpath target_dir filename)
    then PosixPath.joinpath target_dir stamped_name
    else PosixPath.joinpath target_dir filename in
  directory_monitor.processed_dir h = Some pdir ->
  PyStr.truthy pdir = true ->
  f !! file_path = Some (FS.RegularFile c rd) ->
  FS.mkdir_parents f target_dir = Some f1 ->
  FS.isdir f1 target = false ->
  let '(f', logged) :=
    directory_monitor._move_processed_file E h now f file_path duplicate in
  logged = Some target
  /\ f' !! target = Some (FS.RegularFile c rd)
  /\ (target <> file_path -> f' !! file_path = None)
  /\ FS.isdir f' target_dir = true
  /\ fst (PosixPath.splitext filename) ++ snd (PosixPath.splitext filename)
     = filename
  /\ stamped_name <> filename.
Proof.
  intros target_dir filename stamped_name target Hp Ht Hn Hmk Hnd.
  assert (Hdir : FS.isdir f1 target_dir = true).
  { apply (mkdir_parents_isdir f); [|exact Hmk].
    subst target_dir. apply joinpath_subdir_nonempty; by destruct duplicate. }
  pose proof (mkdir_parents_keeps _ _ _ _ _ Hmk Hn) as Hn1.
  assert (Hmove : directory_monitor._move_processed_file E h now f file_path duplicate
                  = (<[target := FS.RegularFile c rd]> (delete file_path f1),
                     Some target)).
  { unfold directory_monitor._move_processed_file. rewrite Hp, Ht.
    cbn [negb]. cbv zeta.
    replace (if duplicate then PosixPath.joinpath pdir "duplicates"
             else PosixPath.joinpath pdir "imported")
      with target_dir by (subst target_dir; by destruct duplicate).
    rewrite Hmk. fold filename.
    destruct (PosixPath.splitext filename) as [name ext] eqn:Hsp.
    assert (Htarget : (if FS.exists_ f1 (PosixPath.joinpath target_dir filename)
                       then PosixPath.joinpath target_dir
                              (name ++ "_" ++ strftime E now "%Y%m%d_%H%M%S" ++ ext)
                       else PosixPath.joinpath target_dir filename) = target)
      by (subst target stamped_name; try rewrite Hsp; reflexivity).
    rewrite Htarget. unfold FS.move. by rewrite Hn1, Hnd. }
  rewrite Hmove.
  split; [reflexivity|]. split; [apply lookup_insert_eq|]. split; [|split; [|split]].
  - intros Hne. rewrite lookup_insert_ne by done. apply lookup_delete_eq.
  - unfold FS.isdir in *.
    assert (target <> target_dir) by (intros Heq; rewrite Heq in Hnd; congruence).
    assert (file_path <> target_dir)
      by (intros Heq; rewrite <- Heq, Hn1 in Hdir; congruence).
    rewrite lookup_insert_ne by done. by rewrite lookup_delete_ne.
  - apply splitext_concat.
  - subst stamped_name. rewrite <- (splitext_concat filename) at 3.
    apply stamped_name_differs.
Qed.

Lemma C9_relocation_target_witness :
  directory_monitor.processed_dir Sample.moving_handler = Some "/p"
  /\ Sample.watched_taken !! "/w/a.jpg" = Some (FS.RegularFile "X" true)
  /\ FS.mkdir_parents Sample.watched_taken "/p/imported" = Some Sample.watched_taken
  /\ let '(f', logged) :=
       directory_monitor._move_processed_file Sample.env Sample.moving_handler 7
         Sample.watched_taken "/w/a.jpg" false in
     logged = Some "/p/imported/a_20260102_030405.jpg"
     /\ f' !! "/p/imported/a_20260102_030405.jpg" = Some (FS.RegularFile "X" true)
     /\ ("/p/imported/a_20260102_030405.jpg" <> "/w/a.jpg" -> f' !! "/w/a.jpg" = None)
     /\ FS.isdir f' "/p/imported" = true
     /\ "a" ++ ".jpg" = "a.jpg"
     /\ "a_20260102_030405.jpg" <> "a.jpg".
Proof.
  assert (Hmk : FS.mkdir_parents Sample.watched_taken "/p/imported"
                = Some Sample.watched_taken) by (vm_compute; reflexivity).
  split; [reflexivity|]. split; [reflexivity|]. split; [exact Hmk|].
  exact (C9_relocation_target Sample.env Sample.moving_handler 7
           Sample.watched_taken Sample.watched_taken "/w/a.jpg" "/p" "X" true false
           eq_refl eq_refl eq_refl Hmk eq_refl).
Defined.

(** Without a name clash the file keeps its name; a duplicate goes to
    [duplicates]. *)
Example relocation_of_duplicate :
  snd (directory_monitor._move_processed_file Sample.env Sample.moving_handler 7
         Sample.watched_taken "/w/a.jpg" true)
  = Some "/p/duplicates/a.jpg".
Proof. vm_compute. reflexivity. Qed.

(** ** Dictionaries *)

Lemma dict_get_set_eq {V} (k : string) (v : V) d :
  PyDict.get k (PyDict.set k v d) = Some v.
Proof.
  induction d as [|[k' v'] d IH]; cbn.
  - by rewrite String.eqb_refl.
  - destruct (String.eqb_spec k' k) as [->|Hne]; cbn.
    + by rewrite String.eqb_refl.
    + destruct (String.eqb_spec k' k); [done|]. exact IH.
Qed.

Lemma dict_get_set_ne {V} (k q : string) (v : V) d :
  k <> q -> PyDict.get q (PyDict.set k v d) = PyDict.get q d.
Proof.
  intros Hne. induction d as [|[k' v'] d IH]; cbn.
  - destruct (String.eqb_spec k q); [done|]. reflexivity.
  - destruct (String.eqb_spec k' k) as [->|Hk]; cbn.
    + destruct (String.eqb_spec k q); [done|]. reflexivity.
    + destruct (String.eqb_spec k' q); [done|]. exact IH.
Qed.

Lemma dict_keys_set {V} (k : string) (v : V) d x :
  In x (List.map fst (PyDict.set k v d)) <-> x = k \/ In x (List.map fst d).
Proof.
  induction d as [|[k' v'] d IH]; cbn.
  - split; [intros [<-|[]]; by left|intros [->|[]]; by left].
  - destruct (String.eqb_spec k' k) as [->|Hk]; cbn.
    + split; [intros [<-|H]; [by left|by right; right]|].
      intros [->|[<-|H]]; [by left|by left|by right].
    + rewrite IH. split.
      * intros [<-|[->|H]]; [by right; left|by left|by right; right].
      * intros [->|[<-|H]]; [by right; left|by left|by right; right].
Qed.

Lemma dict_wf_set {V} (k : string) (v : V) d :
  PyDict.wf d -> PyDict.wf (PyDict.set k v d).
Proof.
  unfold PyDict.wf. induction d as [|[k' v'] d IH]; cbn; intros Hnd.
  - constructor; [intros H; exact H|constructor].
  - inversion Hnd as [|? ? Hni Hnd']; subst.
    destruct (String.eqb_spec k' k) as [->|Hk]; cbn.
    + by constructor.
    + constructor; [|by apply IH].
      rewrite dict_keys_set. intros [->|H]; done.
Qed.

Lemma dict_get_notin {V} (k : string) (d : list (string * V)) :
  ~ In k (List.map fst d) -> PyDict.get k d = None.
Proof.
  induction d as [|[k' v'] d IH]; cbn; intros Hni; [done|].
  destruct (String.eqb_spec k' k) as [->|Hk].
  - exfalso. apply Hni. by left.
  - apply IH. intros H. apply Hni. by right.
Qed.

Lemma dict_keys_filter {V} (Q : string * V -> bool) d x :
  In x (List.map fst (List.filter Q d)) -> In x (List.map fst d).
Proof.
  intros H. apply in_map_iff in H as (kv & <- & Hin).
  apply filter_In in Hin as [Hin _]. apply in_map_iff. by exists kv.
Qed.

Lemma dict_wf_filter {V} (Q : string * V -> bool) d :
  PyDict.wf d -> PyDict.wf (List.filter Q d).
Proof.
  unfold PyDict.wf. induction d as [|[k v] d IH]; cbn; intros Hnd; [constructor|].
  inversion Hnd as [|? ? Hni Hnd']; subst.
  destruct (Q (k, v)); cbn; [|by apply IH].
  constructor; [|by apply IH]. intros H. apply Hni. by eapply dict_keys_filter.
Qed.

Lemma dict_get_filter {V} (Q : string * V -> bool) d k :
  PyDict.wf d ->
  PyDict.get k (List.filter Q d)
  = match PyDict.get k d with
    | Some v => if Q (k, v) then Some v else None
    | None => None
    end.
Proof.
  unfold PyDict.wf. induction d as [|[k' v'] d IH]; cbn; intros Hnd; [done|].
  inversion Hnd as [|? ? Hni Hnd']; subst.
  destruct (String.eqb_spec k' k) as [->|Hk].
  - destruct (Q (k, v')) eqn:HQ; cbn.
    + by rewrite String.eqb_refl.
    + apply dict_get_notin. intros H. apply Hni. by eapply dict_keys_filter.
  - destruct (Q (k', v')); cbn.
    + destruct (String.eqb_spec k' k); [done|]. by apply IH.
    + by apply IH.
Qed.

Lemma dict_get_in {V} (k : string) (v : V) d :
  PyDict.wf d -> In (k, v) d -> PyDict.get k d = Some v.
Proof.
  unfold PyDict.wf. induction d as [|[k' v'] d IH]; cbn; intros Hnd Hin; [done|].
  inversion Hnd as [|? ? Hni Hnd']; subst.
  destruct Hin as [Heq|Hin].
  - inversion Heq; subst. by rewrite String.eqb_refl.
  - destruct (String.eqb_spec k' k) as [->|Hk].
    + exfalso. apply Hni. apply in_map_iff. by exists (k, v).
    + by apply IH.
Qed.

(** ** The debouncer *)

Lemma list_filter_true {A} (l : list A) : List.filter (fun _ => true) l = l.
Proof. induction l as [|a l IH]; cbn; [done|]. by rewrite IH. Qed.

Lemma list_filter_filter {A} (P Q : A -> bool) (l : list A) :
  List.filter P (List.filter Q l) = List.filter (fun x => Q x && P x) l.
Proof.
  induction l as [|a l IH]; cbn; [done|].
  destruct (Q a); cbn; [|exact IH]. destruct (P a); by rewrite IH.
Qed.

(** The walk over the snapshot, in closed form. *)
Lemma collect_fold (d0 t : Z) (l : list (string * Z)) :
  forall (d : list (string * Z)) (acc : list string),
    List.fold_left
      (fun (acc : list (string * Z) * list string) (item : string * Z) =>
         let '(file_path, event_time) := item in
         if t - event_time >=? d0
         then (PyDict.del file_path (fst acc), (snd acc ++ [file_path])%list)
         else acc)
      l (d, acc)
    = (List.filter
         (fun kv => negb (existsb (fun it => String.eqb (fst it) (fst kv)
                                             && (t - snd it >=? d0)) l)) d,
       (acc ++ List.map fst (List.filter (fun it => t - snd it >=? d0) l))%list).
Proof.
  induction l as [|[k e] l IH]; intros d acc; cbn [List.fold_left].
  - cbn. by rewrite list_filter_true, app_nil_r.
  - cbn [fst snd List.filter existsb].
    destruct (t - e >=? d0) eqn:Hr.
    + rewrite IH. unfold PyDict.del. rewrite list_filter_filter.
      cbn [List.map fst]. rewrite <- app_assoc. cbn [app]. f_equal.
      apply List.filter_ext. intros [k' e']. cbn [fst snd].
      rewrite andb_true_r, negb_orb, (String.eqb_sym k k'). reflexivity.
    + rewrite IH. f_equal.
      apply List.filter_ext. intros [k' e']. cbn [fst snd].
      by rewrite andb_false_r.
Qed.

(** With distinct keys the turn keeps the young entries and hands out the
    old ones. *)
Lemma collect_pending_spec (h : directory_monitor.MediaFileHandler) (t : Z) :
  PyDict.wf (directory_monitor.pending_files h) ->
  directory_monitor.collect_pending h t
  = (directory_monitor.with_pending h
       (List.filter (fun kv => negb (t - snd kv >=? directory_monitor.debounce_seconds h))
                    (directory_monitor.pending_files h)),
     List.map fst
       (List.filter (fun kv => t - snd kv >=? directory_monitor.debounce_seconds h)
                    (directory_monitor.pending_files h))).
Proof.
  intros Hwf. unfold directory_monitor.collect_pending.
  rewrite collect_fold. cbn [app]. f_equal. f_equal.
  apply List.filter_ext_in. intros [k e] Hin. cbn [fst snd]. f_equal.
  destruct (t - e >=? directory_monitor.debounce_seconds h) eqn:Hr.
  - apply existsb_exists. exists (k, e). split; [exact Hin|].
    cbn [fst snd]. by rewrite String.eqb_refl, Hr.
  - destruct (existsb _ _) eqn:He; [|done].
    apply existsb_exists in He as ([k' e'] & Hin' & Hc). cbn [fst snd] in Hc.
    apply andb_true_iff in Hc as [Hk Hr'].
    apply String.eqb_eq in Hk. subst k'.
    pose proof (dict_get_in k e _ Hwf Hin) as H1.
    pose proof (dict_get_in k e' _ Hwf Hin') as H2.
    rewrite H1 in H2. inversion H2; subst. congruence.
Qed.

Lemma settled_app p (a b : list (string * Z)) :
  debouncer.settled p (a ++ b)%list
  = (debouncer.settled p a ++ debouncer.settled p b)%list.
Proof. unfold debouncer.settled. by rewrite List.filter_app, List.map_app. Qed.

Lemma settled_notin p (t : Z) (d : list (string * Z)) (Q : string * Z -> bool) :
  ~ In p (List.map fst d) ->
  debouncer.settled p
    (List.map (fun q => (q, t)) (List.map fst (List.filter Q d))) = [].
Proof.
  unfold debouncer.settled.
  induction d as [|[k e] d IH]; cbn; intros Hni; [done|].
  assert (Hd : ~ In p (List.map fst d)) by (intros H; apply Hni; by right).
  destruct (Q (k, e)); cbn; [|by apply IH].
  destruct (String.eqb_spec k p) as [->|Hk].
  - exfalso. apply Hni. by left.
  - by apply IH.
Qed.

(** The notifications of a path in one turn, with distinct keys. *)
Lemma settled_filter p (t : Z) (d : list (string * Z)) (Q : string * Z -> bool) :
  PyDict.wf d ->
  debouncer.settled p
    (List.map (fun q => (q, t)) (List.map fst (List.filter Q d)))
  = match PyDict.get p d with
    | Some e => if Q (p, e) then [t] else []
    | None => []
    end.
Proof.
  unfold PyDict.wf. induction d as [|[k e] d IH]; cbn; intros Hnd; [done|].
  inversion Hnd as [|? ? Hni Hnd']; subst.
  destruct (String.eqb_spec k p) as [->|Hk].
  - destruct (Q (p, e)) eqn:HQ.
    + cbn [List.map fst]. unfold debouncer.settled. cbn [List.filter fst].
      rewrite String.eqb_refl. cbn [List.map snd]. f_equal.
      exact (settled_notin p t d Q Hni).
    + exact (settled_notin p t d Q Hni).
  - destruct (Q (k, e)).
    + cbn [List.map fst]. unfold debouncer.settled. cbn [List.filter fst].
      destruct (String.eqb_spec k p); [done|]. by apply IH.
    + by apply IH.
Qed.

Lemma should_process_ext (h1 h : directory_monitor.MediaFileHandler) q :
  directory_monitor.extensions h1 = directory_monitor.extensions h ->
  directory_monitor._should_process_file h1 q
  = directory_monitor._should_process_file h q.
Proof. intros He. unfold directory_monitor._should_process_file. by rewrite He. Qed.

Lemma touches_ext (h1 h : directory_monitor.MediaFileHandler) p c :
  directory_monitor.extensions h1 = directory_monitor.extensions h ->
  debouncer.touches h1 p c = debouncer.touches h p c.
Proof.
  intros He. unfold debouncer.touches.
  destruct c; by rewrite ?(should_process_ext h1 h p He).
Qed.

Lemma releases_ext (h1 h : directory_monitor.MediaFileHandler) p tr :
  directory_monitor.extensions h1 = directory_monitor.extensions h ->
  directory_monitor.debounce_seconds h1 = directory_monitor.debounce_seconds h ->
  forall cur, debouncer.releases h1 p cur tr = debouncer.releases h p cur tr.
Proof.
  intros He Hd. induction tr as [|c tr IH]; intros cur; [done|].
  cbn [debouncer.releases]. rewrite (touches_ext h1 h p c He), Hd.
  destruct (debouncer.touches h p c); [apply IH|].
  destruct c; try apply IH.
  destruct cur as [e|]; [|apply IH].
  by rewrite !IH.
Qed.

(** An event handler writes the stamp of its path and nothing else. *)
Lemma on_event_view (h : directory_monitor.MediaFileHandler)
    (ev : directory_monitor.event) (now : Z) (p : string) :
  let h1 :=
    if directory_monitor.is_directory ev then h
    else if negb (directory_monitor._should_process_file h
                    (directory_monitor.src_path ev)) then h
    else directory_monitor.with_pending h
           (PyDict.set (directory_monitor.src_path ev) now
                       (directory_monitor.pending_files h)) in
  PyDict.wf (directory_monitor.pending_files h) ->
  PyDict.wf (directory_monitor.pending_files h1)
  /\ directory_monitor.extensions h1 = directory_monitor.extensions h
  /\ directory_monitor.debounce_seconds h1 = directory_monitor.debounce_seconds h
  /\ PyDict.get p (directory_monitor.pending_files h1)
     = if negb (directory_monitor.is_directory ev)
          && String.eqb (directory_monitor.src_path ev) p
          && directory_monitor._should_process_file h p
       then Some now
       else PyDict.get p (directory_monitor.pending_files h).
Proof.
  intros h1 Hwf. subst h1.
  destruct (directory_monitor.is_directory ev); cbn [negb andb]; [by repeat split|].
  destruct (String.eqb_spec (directory_monitor.src_path ev) p) as [Heq|Hne].
  - rewrite Heq.
    destruct (directory_monitor._should_process_file h p); cbn [negb];
      [|by repeat split].
    repeat split; try done.
    + by apply dict_wf_set.
    + apply dict_get_set_eq.
  - destruct (directory_monitor._should_process_file h
                (directory_monitor.src_path ev)); cbn [negb]; [|by repeat split].
    repeat split; try done.
    + by apply dict_wf_set.
    + by apply dict_get_set_ne.
Qed.

(** One call, seen from the path [p]. *)
Lemma step_view (h : directory_monitor.MediaFileHandler) (c : debouncer.call)
    (p : string) :
  PyDict.wf (directory_monitor.pending_files h) ->
  let h1 := fst (debouncer.step h c) in
  let out :=
    debouncer.settled p
      (List.map (fun q => (q, match c with
                              | debouncer.Tick t => t
                              | debouncer.Created _ t | debouncer.Modified _ t => t
                              end)) (snd (debouncer.step h c))) in
  PyDict.wf (directory_monitor.pending_files h1)
  /\ directory_monitor.extensions h1 = directory_monitor.extensions h
  /\ directory_monitor.debounce_seconds h1 = directory_monitor.debounce_seconds h
  /\ match debouncer.touches h p c with
     | Some e => PyDict.get p (directory_monitor.pending_files h1) = Some e
                 /\ out = []
     | None =>
         match c, PyDict.get p (directory_monitor.pending_files h) with
         | debouncer.Tick t, Some e =>
             if t - e >=? directory_monitor.debounce_seconds h
             then PyDict.get p (directory_monitor.pending_files h1) = None
                  /\ out = [t]
             else PyDict.get p (directory_monitor.pending_files h1) = Some e
                  /\ out = []
         | _, cur => PyDict.get p (directory_monitor.pending_files h1) = cur
                     /\ out = []
         end
     end.
Proof.
  intros Hwf h1 out. subst h1 out. destruct c as [ev now|ev now|t].
  - cbn [debouncer.step fst snd List.map debouncer.touches].
    destruct (on_event_view h ev now p Hwf) as (Hw & He & Hd & Hg).
    unfold directory_monitor.on_created. repeat split; try done.
    rewrite Hg. by destruct (_ && _ && _).
  - cbn [debouncer.step fst snd List.map debouncer.touches].
    destruct (on_event_view h ev now p Hwf) as (Hw & He & Hd & Hg).
    unfold directory_monitor.on_modified. repeat split; try done.
    rewrite Hg. by destruct (_ && _ && _).
  - cbn [debouncer.step debouncer.touches].
    rewrite (collect_pending_spec h t Hwf). cbn [fst snd].
    cbn [directory_monitor.pending_files directory_monitor.with_pending
           directory_monitor.extensions directory_monitor.debounce_seconds].
    split; [by apply dict_wf_filter|]. split; [done|]. split; [done|].
    rewrite (dict_get_filter _ _ p Hwf), (settled_filter p t _ _ Hwf).
    destruct (PyDict.get p (directory_monitor.pending_files h)) as [e|]; [|done].
    cbn [snd]. by destruct (t - e >=? directory_monitor.debounce_seconds h).
Qed.

Lemma run_cons (h : directory_monitor.MediaFileHandler) c rest :
  debouncer.run h (c :: rest)
  = (fst (debouncer.run (fst (debouncer.step h c)) rest),
     (List.map (fun q => (q, match c with
                             | debouncer.Tick t => t
                             | debouncer.Created _ t | debouncer.Modified _ t => t
                             end)) (snd (debouncer.step h c))
        ++ snd (debouncer.run (fst (debouncer.step h c)) rest))%list).
Proof.
  cbn [debouncer.run]. destruct (debouncer.step h c) as [h1 files].
  cbn [fst snd]. by destruct (debouncer.run h1 rest).
Qed.

(** The notifications of [p] in a run are those of its per-path view. *)
Lemma run_releases (p : string) (tr : list debouncer.call) :
  forall h : directory_monitor.MediaFileHandler,
    PyDict.wf (directory_monitor.pending_files h) ->
    debouncer.settled p (snd (debouncer.run h tr))
    = debouncer.releases h p (PyDict.get p (directory_monitor.pending_files h)) tr.
Proof.
  induction tr as [|c tr IH]; intros h Hwf; [done|].
  rewrite run_cons. cbn [snd]. rewrite settled_app.
  destruct (step_view h c p Hwf) as (Hw1 & He & Hd & Hv).
  rewrite (IH _ Hw1), (releases_ext _ h p tr He Hd).
  cbn [debouncer.releases].
  destruct (debouncer.touches h p c) as [e|].
  - destruct Hv as [-> ->]. reflexivity.
  - destruct c as [ev now|ev now|t].
    + destruct Hv as [-> ->]. reflexivity.
    + destruct Hv as [-> ->]. reflexivity.
    + destruct (PyDict.get p (directory_monitor.pending_files h)) as [e|].
      * destruct (t - e >=? directory_monitor.debounce_seconds h);
          destruct Hv as [-> ->]; reflexivity.
      * destruct Hv as [-> ->]. reflexivity.
Qed.

Lemma event_times_app h p (a b : list debouncer.call) :
  debouncer.event_times h p (a ++ b)%list
  = (debouncer.event_times h p a ++ debouncer.event_times h p b)%list.
Proof.
  induction a as [|c a IH]; [done|]. cbn [app debouncer.event_times].
  destruct (debouncer.touches h p c); cbn [app]; by rewrite IH.
Qed.

(** Without a pending stamp and without events nothing is released. *)
Lemma releases_quiet_none h p (tr : list debouncer.call) :
  debouncer.event_times h p tr = [] -> debouncer.releases h p None tr = [].
Proof.
  induction tr as [|c tr IH]; [done|]. cbn [debouncer.event_times debouncer.releases].
  destruct (debouncer.touches h p c); [done|]. intros Hq.
  destruct c; by apply IH.
Qed.

(** Without further events a pending stamp is released once, by the
    first turn that finds it old enough. *)
Lemma releases_quiet_some h p e (tr : list debouncer.call) :
  debouncer.event_times h p tr = [] ->
  (exists t, In (debouncer.Tick t) tr
             /\ directory_monitor.debounce_seconds h <= t - e) ->
  exists t, debouncer.releases h p (Some e) tr = [t]
            /\ directory_monitor.debounce_seconds h <= t - e.
Proof.
  induction tr as [|c tr IH]; intros Hq (t & Hin & Hripe); [destruct Hin|].
  cbn [debouncer.event_times debouncer.releases] in *.
  destruct (debouncer.touches h p c) eqn:Ht; [done|].
  destruct c as [ev now|ev now|t'].
  - apply IH; [exact Hq|]. exists t. split; [|exact Hripe].
    destruct Hin as [Heq|Hin]; [discriminate Heq|exact Hin].
  - apply IH; [exact Hq|]. exists t. split; [|exact Hripe].
    destruct Hin as [Heq|Hin]; [discriminate Heq|exact Hin].
  - destruct (Z.geb_spec (t' - e) (directory_monitor.debounce_seconds h)) as [Hr|Hr].
    + exists t'. split; [|lia]. by rewrite (releases_quiet_none h p tr Hq).
    + apply IH; [exact Hq|]. exists t. split; [|exact Hripe].
      destruct Hin as [Heq|Hin]; [|exact Hin]. inversion Heq; subst. lia.
Qed.

(** While the events of [p] keep coming less than the window apart, no
    turn releases it: the view of the run is the view of what follows the
    last event. *)
Lemma releases_burst h p (c_last : debouncer.call) (eN : Z)
    (quiet : list debouncer.call) :
  debouncer.touches h p c_last = Some eN ->
  forall (burst : list debouncer.call) (cur : option Z),
    debouncer.spaced (directory_monitor.debounce_seconds h)
      (match cur with Some e => [e] | None => [] end
         ++ debouncer.event_times h p burst ++ [eN])%list ->
    debouncer.causal h p (burst ++ c_last :: quiet)%list ->
    debouncer.releases h p cur (burst ++ c_last :: quiet)%list
    = debouncer.releases h p (Some eN) quiet.
Proof.
  intros Hlast. induction burst as [|c burst IH]; intros cur Hsp Hca.
  - cbn [app debouncer.releases]. by rewrite Hlast.
  - cbn [app debouncer.releases debouncer.event_times] in *.
    destruct (debouncer.touches h p c) as [e|] eqn:Ht.
    + apply IH.
      * destruct cur as [e0|]; cbn [app] in *; [exact (proj2 Hsp)|exact Hsp].
      * destruct c; [exact Hca|exact Hca|discriminate Ht].
    + destruct c as [ev now|ev now|t].
      * by apply IH.
      * by apply IH.
      * destruct Hca as [Hnext Hca].
        destruct cur as [e0|]; [|by apply IH].
        rewrite event_times_app in Hnext.
        cbn [debouncer.event_times] in Hnext. rewrite Hlast in Hnext.
        assert (Hyoung : t - e0 < directory_monitor.debounce_seconds h).
        { cbn [app] in Hsp.
          destruct (debouncer.event_times h p burst) as [|e1 es];
            cbn [app] in *; destruct Hsp as [Hgap _]; lia. }
        destruct (Z.geb_spec (t - e0) (directory_monitor.debounce_seconds h));
          [lia|]. by apply IH.
Qed.

Lemma causal_truncate h p (c_last : debouncer.call) (quiet : list debouncer.call) :
  debouncer.event_times h p quiet = [] ->
  forall burst : list debouncer.call,
    debouncer.causal h p (burst ++ c_last :: quiet)%list ->
    debouncer.causal h p (burst ++ [c_last])%list.
Proof.
  intros Hq. induction burst as [|c burst IH]; intros Hca.
  - cbn [app debouncer.causal] in *. by destruct c_last.
  - cbn [app debouncer.causal] in *. destruct c; try by apply IH.
    destruct Hca as [Hnext Hca]. split; [|by apply IH].
    rewrite event_times_app in *. cbn [debouncer.event_times] in *.
    rewrite Hq in Hnext.
    by destruct (debouncer.touches h p c_last).
Qed.

(** C5: a burst of create and modify events for one path, each less than
    the debounce window after the one before, followed by quiet. The path is
    not released while the burst lasts, and it is released exactly once, by a
    turn of the worker whose clock reading is at least the window after the
    last event of the burst. The two steps behind this: every event that the
    handler lets through sets the pending stamp of its path to the reading of
    the event, and a turn releases a path only when its reading is at least
    the window after the pending stamp. *)
Theorem C5_debounce_settles_once
    (h : directory_monitor.MediaFileHandler) (p : string)
    (burst : list debouncer.call) (c_last : debouncer.call)
    (quiet : list debouncer.call) (eN : Z) :
  PyDict.wf (directory_monitor.pending_files h) ->
  PyDict.get p (directory_monitor.pending_files h) = None ->
  debouncer.touches h p c_last = Some eN ->
  debouncer.event_times h p quiet = [] ->
  debouncer.spaced (directory_monitor.debounce_seconds h)
    (debouncer.event_times h p burst ++ [eN])%list ->
  debouncer.causal h p (burst ++ c_last :: quiet)%list ->
  (exists t, In (debouncer.Tick t) quiet
             /\ directory_monitor.debounce_seconds h <= t - eN) ->
  (exists t,
      debouncer.settled p (snd (debouncer.run h (burst ++ c_last :: quiet)%list))
      = [t]
      /\ directory_monitor.debounce_seconds h <= t - eN)
  /\ debouncer.settled p (snd (debouncer.run h (burst ++ [c_last])%list)) = []
  /\ (forall h0 c e,
         PyDict.wf (directory_monitor.pending_files h0) ->
         debouncer.touches h0 p c = Some e ->
         PyDict.get p (directory_monitor.pending_files (fst (debouncer.step h0 c)))
         = Some e)
  /\ (forall h0 t,
         PyDict.wf (directory_monitor.pending_files h0) ->
         In p (snd (directory_monitor.collect_pending h0 t)) ->
         exists e, PyDict.get p (directory_monitor.pending_files h0) = Some e
                   /\ directory_monitor.debounce_seconds h0 <= t - e).
Proof.
  intros Hwf Hnone Hlast Hq Hsp Hca Hripe.
  split; [|split; [|split]].
  - rewrite (run_releases p _ h Hwf), Hnone.
    rewrite (releases_burst h p c_last eN quiet Hlast burst None Hsp Hca).
    exact (releases_quiet_some h p eN quiet Hq Hripe).
  - rewrite (run_releases p _ h Hwf), Hnone.
    rewrite (releases_burst h p c_last eN [] Hlast burst None Hsp
               (causal_truncate h p c_last quiet Hq burst Hca)).
    reflexivity.
  - intros h0 c e Hwf0 Ht.
    destruct (step_view h0 c p Hwf0) as (_ & _ & _ & Hv).
    rewrite Ht in Hv. exact (proj1 Hv).
  - intros h0 t Hwf0 Hin.
    rewrite (collect_pending_spec h0 t Hwf0) in Hin. cbn [snd] in Hin.
    apply in_map_iff in Hin as ([k e] & Hk & Hin). cbn [fst] in Hk. subst k.
    apply filter_In in Hin as [Hin Hr]. cbn [snd] in Hr.
    exists e. split; [exact (dict_get_in p e _ Hwf0 Hin)|].
    destruct (Z.geb_spec (t - e) (directory_monitor.debounce_seconds h0));
      [lia|discriminate Hr].
Qed.

Lemma C5_debounce_settles_once_witness :
  PyDict.wf (directory_monitor.pending_files Sample.handler)
  /\ debouncer.touches Sample.handler "/w/a.jpg" Sample.last_event = Some 6
  /\ debouncer.event_times Sample.handler "/w/a.jpg" Sample.burst = [0; 3]
  /\ (exists t,
         debouncer.settled "/w/a.jpg"
           (snd (debouncer.run Sample.handler
                   (Sample.burst ++ Sample.last_event :: Sample.quiet)%list))
         = [t]
         /\ directory_monitor.debounce_seconds Sample.handler <= t - 6).
Proof.
  assert (Hwf : PyDict.wf (directory_monitor.pending_files Sample.handler))
    by constructor.
  assert (Hsp : debouncer.spaced (directory_monitor.debounce_seconds Sample.handler)
                  (debouncer.event_times Sample.handler "/w/a.jpg" Sample.burst
                     ++ [6])%list)
    by (vm_compute; repeat split; discriminate).
  assert (Hca : debouncer.causal Sample.handler "/w/a.jpg"
                  (Sample.burst ++ Sample.last_event :: Sample.quiet)%list)
    by (vm_compute; repeat split; discriminate).
  assert (Hripe : exists t, In (debouncer.Tick t) Sample.quiet
                            /\ directory_monitor.debounce_seconds Sample.handler
                               <= t - 6)
    by (exists 11; split; [right; left; reflexivity|vm_compute; discriminate]).
  split; [exact Hwf|]. split; [reflexivity|]. split; [reflexivity|].
  exact (proj1 (C5_debounce_settles_once Sample.handler "/w/a.jpg" Sample.burst
                  Sample.last_event Sample.quiet 6 Hwf eq_refl eq_refl eq_refl
                  Hsp Hca Hripe)).
Defined.

(** The run of the sample: the path is released by the turn at 11, five
    seconds after the last event at 6, and by no other. *)
Example sample_run_settles_at_11 :
  snd (debouncer.run Sample.handler
         (Sample.burst ++ Sample.last_event :: Sample.quiet)%list)
  = [("/w/a.jpg", 11)].
Proof. vm_compute. reflexivity. Qed.

(** * Further properties of the poll scan *)

(** Everything the loop body does to the world apart from the ledger, by
    outcome. *)
Lemma scan_file_effects E c opts cn exts da owner now w q w' o :
  watch_media_directories.scan_file E c opts cn exts da owner now w q = (w', o) ->
  users w' = users w
  /\ media w' = (media w ++ imported_media [(q, o)])%list
  /\ media_seq w' = media_seq w + Z.of_nat (length (imported_media [(q, o)]))
  /\ stdout w' = (stdout w ++ stdout_lines [(q, o)])%list
  /\ stderr w' = (stderr w ++ stderr_lines [(q, o)])%list
  /\ fs w' = (if da
              then match o with
                   | watch_media_directories.ImportedAs _ => FS.rm_file (fs w) q
                   | _ => fs w
                   end
              else fs w)
  /\ (watch_media_directories.dry_run opts = true ->
      o = watch_media_directories.ExtensionFiltered
      \/ o = watch_media_directories.AlreadyImported
      \/ o = watch_media_directories.DryRunReported).
Proof.
  intros Hs.
  destruct (watch_media_directories.extension_excluded exts q) eqn:Hx.
  { rewrite scan_file_excluded in Hs by done. inversion Hs; subst. cbn.
    rewrite !app_nil_r, Z.add_0_r. repeat split; try done.
    - by destruct da.
    - by left. }
  destruct (watch_media_directories.observe_path (records w) q cn now)
    as [[tbl r] created] eqn:Ho.
  destruct (scan_file_cases E c opts cn exts da owner now w q tbl r created Hx Ho)
    as (w1 & o1 & Hs1 & Hu & Hcase).
  rewrite Hs in Hs1. inversion Hs1; subst w1 o1. clear Hs1.
  rewrite (scan_file_unfold E c opts cn exts da owner now w q tbl r created Hx Ho)
    in Hs.
  destruct Hcase as [H|[H|[H|H]]].
  - destruct H as (-> & _ & _ & _ & Hmed & Hseq & Hfs & Hout).
    destruct (AutoImport.is_imported r
              && negb (watch_media_directories.force opts)) eqn:Hg.
    + inversion Hs; subst w'. cbn. rewrite !app_nil_r, Z.add_0_r.
      repeat split; try done; [by destruct da|by right; left].
    + destruct (watch_media_directories.dry_run opts); [by inversion Hs|].
      destruct (watch_media_directories._import_file _ _ _ _ _ _) as [[? ?]|];
        [by destruct da; inversion Hs|by inversion Hs].
  - destruct H as (-> & Hd & Hg & _).
    rewrite Hg, Hd in Hs. inversion Hs; subst w'. cbn.
    rewrite !app_nil_r, Z.add_0_r.
    repeat split; try done; [by destruct da|by right; right].
  - destruct H as (-> & Hd & Hg & _).
    rewrite Hg, Hd in Hs.
    destruct (watch_media_directories._import_file _ _ _ _ _ _) as [[? ?]|];
      [by destruct da; inversion Hs|].
    inversion Hs; subst w'. cbn. rewrite !app_nil_r, Z.add_0_r.
    repeat split; try done; [by destruct da|congruence].
  - destruct H as (m & bytes & -> & Hd & Hg & Hr & Hpk & Hsum & Hmed & Hseq & Hfs & _).
    rewrite Hg, Hd in Hs.
    destruct (watch_media_directories._import_file _ _ _ _ _ _) as [[w1 m1]|] eqn:Hi;
      [|by inversion Hs].
    assert (Hw1 : stdout w1 = stdout w /\ stderr w1 = stderr w).
    { unfold watch_media_directories._import_file in Hi.
      destruct (FS.read _ _); [|done]. destruct (media_save_ok _ _ _); [|done].
      cbn in Hi. by inversion Hi; subst. }
    destruct Hw1 as [Ho1 He1].
    destruct da; inversion Hs; subst w'; cbn; rewrite ?app_nil_r;
      rewrite Ho1, He1; cbn in Hmed, Hseq; repeat split; try done; congruence.
Qed.

Lemma imported_media_cons q o log :
  imported_media ((q, o) :: log) = (imported_media [(q, o)] ++ imported_media log)%list.
Proof. unfold imported_media. cbn. by rewrite app_nil_r. Qed.

Lemma stdout_lines_cons q o log :
  stdout_lines ((q, o) :: log) = (stdout_lines [(q, o)] ++ stdout_lines log)%list.
Proof. unfold stdout_lines. cbn. by rewrite app_nil_r. Qed.

Lemma stderr_lines_cons q o log :
  stderr_lines ((q, o) :: log) = (stderr_lines [(q, o)] ++ stderr_lines log)%list.
Proof. unfold stderr_lines. cbn. by rewrite app_nil_r. Qed.

Lemma imported_paths_cons q o log :
  imported_paths ((q, o) :: log) = (imported_paths [(q, o)] ++ imported_paths log)%list.
Proof. unfold imported_paths. cbn. by rewrite app_nil_r. Qed.

(** The effects of the loop over the files, summed up from the log. *)
Lemma scan_files_effects E c opts cn exts da owner now files :
  forall w w' log,
    watch_media_directories.scan_files E c opts cn exts da owner now w files
    = (w', log) ->
    List.map fst log = files
    /\ users w' = users w
    /\ media w' = (media w ++ imported_media log)%list
    /\ media_seq w' = media_seq w + Z.of_nat (length (imported_media log))
    /\ stdout w' = (stdout w ++ stdout_lines log)%list
    /\ stderr w' = (stderr w ++ stderr_lines log)%list
    /\ fs w' = (if da then List.fold_left FS.rm_file (imported_paths log) (fs w)
                else fs w)
    /\ (watch_media_directories.dry_run opts = true ->
        forall p o, In (p, o) log ->
                    o = watch_media_directories.ExtensionFiltered
                    \/ o = watch_media_directories.AlreadyImported
                    \/ o = watch_media_directories.DryRunReported).
Proof.
  induction files as [|q rest IH]; intros w w' log Hs.
  - cbn in Hs. inversion Hs; subst. cbn. rewrite !app_nil_r, Z.add_0_r.
    repeat split; try done. by destruct da.
  - rewrite scan_files_cons in Hs.
    destruct (watch_media_directories.scan_file E c opts cn exts da owner now w q)
      as [w1 o1] eqn:H1.
    destruct (watch_media_directories.scan_files E c opts cn exts da owner now w1 rest)
      as [w2 log'] eqn:H2.
    inversion Hs; subst. clear Hs.
    destruct (scan_file_effects _ _ _ _ _ _ _ _ _ _ _ _ H1)
      as (Hu1 & Hm1 & Hq1 & Ho1 & He1 & Hf1 & Hd1).
    destruct (IH _ _ _ H2) as (Hl & Hu & Hm & Hq & Ho & He & Hf & Hd).
    rewrite imported_media_cons, stdout_lines_cons, stderr_lines_cons,
      imported_paths_cons.
    split; [cbn; by rewrite Hl|]. split; [congruence|].
    split; [by rewrite Hm, Hm1, app_assoc|].
    split; [rewrite Hq, Hq1, length_app; lia|].
    split; [by rewrite Ho, Ho1, app_assoc|].
    split; [by rewrite He, He1, app_assoc|].
    split.
    + rewrite Hf, Hf1. destruct da; [|done].
      rewrite List.fold_left_app. by destruct o1.
    + intros Hdry p o [Heq|Hin].
      * inversion Heq; subst. by apply Hd1.
      * by apply (Hd Hdry p).
Qed.



(** X2: a dry run creates no media, hands out no key, touches neither
    the file system nor standard error, and ends every file as filtered by
    extension, already imported or reported; standard output gets exactly one
    line for every reported file, in the order of the walk. *)
Theorem X2_dry_run_frame
    (E : environment) (entry : watch_media_directories.config_entry)
    (opts : watch_media_directories.options) (now : Z) (w w' : world)
    (log : list (string * watch_media_directories.scan_outcome)) :
  watch_media_directories.dry_run opts = true ->
  watch_media_directories.process_config E entry opts now w
  = watch_media_directories.Done w' log ->
  media w' = media w
  /\ media_seq w' = media_seq w
  /\ fs w' = fs w
  /\ stderr w' = stderr w
  /\ (forall p o, In (p, o) log ->
                  o = watch_media_directories.ExtensionFiltered
                  \/ o = watch_media_directories.AlreadyImported
                  \/ o = watch_media_directories.DryRunReported)
  /\ stdout w'
     = (stdout w
          ++ List.map (fun e => "[dry-run] Would import " ++ fst e)%string
               (List.filter
                  (fun e => match snd e with
                            | watch_media_directories.DryRunReported => true
                            | _ => false
                            end) log))%list.
Proof.
  intros Hdry Hd.
  destruct (process_config_done _ _ _ _ _ _ _ Hd)
    as (c & path0 & owner & -> & _ & _ & _ & _ & Hs).
  destruct (scan_files_effects _ _ _ _ _ _ _ _ _ _ _ _ Hs)
    as (_ & _ & Hm & Hq & Ho & He & Hf & Hout).
  specialize (Hout Hdry).
  assert (Hviews : imported_media log = [] /\ stderr_lines log = []
                   /\ imported_paths log = []
                   /\ stdout_lines log
                      = List.map (fun e => "[dry-run] Would import " ++ fst e)%string
                          (List.filter
                             (fun e => match snd e with
                                       | watch_media_directories.DryRunReported => true
                                       | _ => false
                                       end) log)).
  { clear -Hout. induction log as [|[q o] log IH]; [done|].
    rewrite imported_media_cons, stderr_lines_cons, imported_paths_cons,
      stdout_lines_cons.
    destruct IH as (I1 & I2 & I3 & I4).
    { intros p o' Hin. apply (Hout p o'). by right. }
    rewrite I1, I2, I3, I4.
    destruct (Hout q o (or_introl eq_refl)) as [->|[->| ->]]; by cbn. }
  destruct Hviews as (V1 & V2 & V3 & V4).
  rewrite V1 in Hm, Hq. rewrite V2 in He. rewrite V3 in Hf. rewrite V4 in Ho.
  rewrite app_nil_r in Hm, He. cbn in Hq, Hf.
  repeat split; try done; [lia|by destruct (watch_media_directories.delete_after_import c)].
Qed.

Lemma X2_dry_run_frame_witness :
  watch_media_directories.dry_run Sample.dry_run_options = true
  /\ media (Sample.world_of
              (watch_media_directories.process_config Sample.env
                 (watch_media_directories.ConfigDict Sample.config_w)
                 Sample.dry_run_options 20 (Sample.empty_world Sample.watched)))
     = media (Sample.empty_world Sample.watched).
Proof.
  split; [reflexivity|].
  refine (proj1 (X2_dry_run_frame Sample.env
                   (watch_media_directories.ConfigDict Sample.config_w)
                   Sample.dry_run_options 20 (Sample.empty_world Sample.watched)
                   _ (Sample.log_of
                        (watch_media_directories.process_config Sample.env
                           (watch_media_directories.ConfigDict Sample.config_w)
                           Sample.dry_run_options 20
                           (Sample.empty_world Sample.watched)))
                   eq_refl _)).
  vm_compute. reflexivity.
Defined.

Lemma rm_file_other f p q : q <> p -> FS.rm_file f p !! q = f !! q.
Proof.
  intros Hne. unfold FS.rm_file. destruct (FS.isfile f p); [|done].
  by rewrite lookup_delete_ne.
Qed.

Lemma rm_file_not_file f p q :
  FS.isfile f q = false -> FS.isfile (FS.rm_file f p) q = false.
Proof.
  intros Hq. unfold FS.rm_file. destruct (FS.isfile f p) eqn:Hp; [|done].
  unfold FS.isfile in *. destruct (decide (p = q)) as [->|Hne].
  - by rewrite lookup_delete_eq.
  - by rewrite lookup_delete_ne.
Qed.

Lemma rm_file_removed f p : FS.isfile (FS.rm_file f p) p = false.
Proof.
  unfold FS.rm_file. destruct (FS.isfile f p) eqn:Hp; [|done].
  unfold FS.isfile. by rewrite lookup_delete_eq.
Qed.

Lemma rm_files_other (l : list string) :
  forall f q, ~ In q l -> List.fold_left FS.rm_file l f !! q = f !! q.
Proof.
  induction l as [|p l IH]; intros f q Hni; [done|]. cbn [List.fold_left].
  rewrite IH by (intros H; apply Hni; by right).
  apply rm_file_other. intros ->. apply Hni. by left.
Qed.

Lemma rm_files_not_file (l : list string) :
  forall f q, FS.isfile f q = false ->
              FS.isfile (List.fold_left FS.rm_file l f) q = false.
Proof.
  induction l as [|p l IH]; intros f q Hq; [done|]. cbn [List.fold_left].
  apply IH. by apply rm_file_not_file.
Qed.

Lemma rm_files_removed (l : list string) :
  forall f q, In q l -> FS.isfile (List.fold_left FS.rm_file l f) q = false.
Proof.
  induction l as [|p l IH]; intros f q Hin; [destruct Hin|]. cbn [List.fold_left].
  destruct Hin as [->|Hin].
  - apply rm_files_not_file, rm_file_removed.
  - by apply IH.
Qed.

(** X3: what a pass of the poll scan does to the file system. Without
    [delete_after_import] it leaves the file system as it is. With it, every
    path that the log reports as imported is no regular file any more, and no
    other path is touched: a file that was filtered, skipped, reported or
    failed stays in place. *)
Theorem X3_poll_file_system_frame
    (E : environment) (c : watch_media_directories.watch_config)
    (opts : watch_media_directories.options) (now : Z) (w w' : world)
    (log : list (string * watch_media_directories.scan_outcome)) :
  watch_media_directories.process_config E
    (watch_media_directories.ConfigDict c) opts now w
  = watch_media_directories.Done w' log ->
  (watch_media_directories.delete_after_import c = false -> fs w' = fs w)
  /\ (forall q, ~ In q (imported_paths log) -> fs w' !! q = fs w !! q)
  /\ (watch_media_directories.delete_after_import c = true ->
      forall q, In q (imported_paths log) -> FS.isfile (fs w') q = false).
Proof.
  intros Hd.
  destruct (process_config_done _ _ _ _ _ _ _ Hd)
    as (c' & path0 & owner & Heq & _ & _ & _ & _ & Hs).
  inversion Heq; subst c'.
  destruct (scan_files_effects _ _ _ _ _ _ _ _ _ _ _ _ Hs)
    as (_ & _ & _ & _ & _ & _ & Hf & _).
  rewrite Hf. split; [by intros ->|]. split.
  - intros q Hni. destruct (watch_media_directories.delete_after_import c); [|done].
    by apply rm_files_other.
  - intros -> q Hin. by apply rm_files_removed.
Qed.

Lemma X3_poll_file_system_frame_witness :
  Sample.first_pass
  = watch_media_directories.Done (Sample.world_of Sample.first_pass)
      (Sample.log_of Sample.first_pass)
  /\ fs (Sample.world_of Sample.first_pass) = fs (Sample.empty_world Sample.watched).
Proof.
  assert (H1 : Sample.first_pass
               = watch_media_directories.Done (Sample.world_of Sample.first_pass)
                   (Sample.log_of Sample.first_pass))
    by (vm_compute; reflexivity).
  split; [exact H1|].
  exact (proj1 (X3_poll_file_system_frame Sample.env Sample.config_w
                  Sample.plain_options 10 (Sample.empty_world Sample.watched)
                  (Sample.world_of Sample.first_pass)
                  (Sample.log_of Sample.first_pass) H1) eq_refl).
Defined.

(** ** The ledger along a pass *)

Lemma scan_file_keyed E c opts cn exts da owner now w q w' o :
  keyed (records w) ->
  watch_media_directories.scan_file E c opts cn exts da owner now w q = (w', o) ->
  keyed (records w').
Proof.
  intros Hk Hs k r Hl.
  destruct (decide (k = q)) as [->|Hne].
  - pose proof (scan_file_row E c opts cn exts da owner now w q w' o Hk Hs) as Hrow.
    destruct o.
    + destruct Hrow as [-> _]. by apply Hk.
    + destruct Hrow as (_ & _ & _ & _ & _ & _ & r' & Hl' & Hsp & _). congruence.
    + destruct Hrow as (_ & _ & _ & _ & _ & _ & r' & Hl' & Hsp & _). congruence.
    + destruct Hrow as (_ & _ & _ & _ & _ & _ & r' & Hl' & Hsp & _). congruence.
    + destruct Hrow as (_ & _ & _ & _ & _ & r' & Hl' & Hsp & _). congruence.
  - rewrite (scan_file_other E c opts cn exts da owner now w q w' o k Hk Hs Hne) in Hl.
    by apply Hk.
Qed.

(** The row of a file that passed the extension test carries the stamp
    and the configuration name of the visit. *)
Lemma scan_file_stamp E c opts cn exts da owner now w q w' o :
  keyed (records w) ->
  watch_media_directories.scan_file E c opts cn exts da owner now w q = (w', o) ->
  o <> watch_media_directories.ExtensionFiltered ->
  exists r, records w' !! q = Some r
            /\ AutoImport.last_seen r = now
            /\ AutoImport.config_name r = cn.
Proof.
  intros Hk Hs Hno.
  destruct (watch_media_directories.extension_excluded exts q) eqn:Hx.
  { rewrite scan_file_excluded in Hs by done. by inversion Hs; subst. }
  assert (Hobs : exists tbl r created,
             watch_media_directories.observe_path (records w) q cn now
             = (<[q := r]> tbl, r, created)
             /\ AutoImport.source_path r = q
             /\ AutoImport.last_seen r = now /\ AutoImport.config_name r = cn).
  { destruct (records w !! q) as [r0|] eqn:Hl.
    - rewrite (observe_path_seen _ _ cn now _ Hl), (Hk _ _ Hl).
      eexists _, _, _. split; [reflexivity|]. by repeat split.
    - rewrite (observe_path_fresh _ _ cn now Hl).
      eexists _, _, _. split; [reflexivity|]. by repeat split. }
  destruct Hobs as (tbl & r & created & Ho & Hsp & Hls & Hcn).
  destruct (scan_file_cases E c opts cn exts da owner now w q _ r created Hx Ho)
    as (w1 & o1 & Hs1 & _ & Hcase).
  rewrite Hs in Hs1. inversion Hs1; subst w1 o1.
  destruct Hcase as [H|[H|[H|H]]].
  - destruct H as (_ & _ & _ & -> & _). exists r. by rewrite lookup_insert_eq.
  - destruct H as (_ & _ & _ & -> & _). exists r. by rewrite lookup_insert_eq.
  - destruct H as (_ & _ & _ & -> & _). exists r. by rewrite lookup_insert_eq.
  - destruct H as (m & bytes & _ & _ & _ & _ & _ & _ & _ & _ & _ & ->).
    rewrite Hsp. eexists. rewrite lookup_insert_eq. by repeat split.
Qed.

(** A row that carries the stamp of the pass keeps it. *)
Lemma scan_file_keeps_stamp E c opts cn exts da owner now w q w' o p r :
  keyed (records w) ->
  watch_media_directories.scan_file E c opts cn exts da owner now w q = (w', o) ->
  records w !! p = Some r ->
  AutoImport.last_seen r = now -> AutoImport.config_name r = cn ->
  exists r', records w' !! p = Some r'
             /\ AutoImport.last_seen r' = now /\ AutoImport.config_name r' = cn.
Proof.
  intros Hk Hs Hl Hls Hcn.
  destruct (decide (p = q)) as [->|Hne].
  - assert (Hdec : o = watch_media_directories.ExtensionFiltered
                   \/ o <> watch_media_directories.ExtensionFiltered)
      by (destruct o; (by left) || (by right)).
    destruct Hdec as [->|Hno].
    + pose proof (scan_file_row E c opts cn exts da owner now w q _ _ Hk Hs)
        as [-> _].
      by exists r.
    + exact (scan_file_stamp _ _ _ _ _ _ _ _ _ _ _ _ Hk Hs Hno).
  - exists r.
    by rewrite (scan_file_other E c opts cn exts da owner now w q _ _ p Hk Hs Hne).
Qed.

Lemma scan_files_keep_stamp E c opts cn exts da owner now files :
  forall w w' log p r,
    keyed (records w) ->
    watch_media_directories.scan_files E c opts cn exts da owner now w files
    = (w', log) ->
    records w !! p = Some r ->
    AutoImport.last_seen r = now -> AutoImport.config_name r = cn ->
    exists r', records w' !! p = Some r'
               /\ AutoImport.last_seen r' = now /\ AutoImport.config_name r' = cn.
Proof.
  induction files as [|q rest IH]; intros w w' log p r Hk Hs Hl Hls Hcn.
  - cbn in Hs. injection Hs as Hw Hlog. subst w' log. by exists r.
  - rewrite scan_files_cons in Hs.
    destruct (watch_media_directories.scan_file E c opts cn exts da owner now w q)
      as [w1 o1] eqn:H1.
    destruct (watch_media_directories.scan_files E c opts cn exts da owner now w1 rest)
      as [w2 log'] eqn:H2.
    injection Hs as Hw Hlog. subst w' log.
    destruct (scan_file_keeps_stamp E c opts cn exts da owner now w q w1 o1 p r
                Hk H1 Hl Hls Hcn) as (r1 & Hl1 & Hls1 & Hcn1).
    apply (IH w1 w2 log' p r1); try done.
    exact (scan_file_keyed E c opts cn exts da owner now w q w1 o1 Hk H1).
Qed.

Lemma scan_file_domain E c opts cn exts da owner now w q w' o :
  keyed (records w) ->
  watch_media_directories.scan_file E c opts cn exts da owner now w q = (w', o) ->
  (forall k, is_Some (records w !! k) -> is_Some (records w' !! k))
  /\ (forall k, is_Some (records w' !! k) -> is_Some (records w !! k) \/ k = q).
Proof.
  intros Hk Hs.
  pose proof (fun p => scan_file_other E c opts cn exts da owner now w q w' o p Hk Hs)
    as Hoth.
  pose proof (scan_file_row E c opts cn exts da owner now w q w' o Hk Hs) as Hrow.
  split.
  - intros k Hsk. destruct (decide (k = q)) as [->|Hne]; [|by rewrite Hoth].
    destruct o.
    + by destruct Hrow as [-> _].
    + destruct Hrow as (_ & _ & _ & _ & _ & _ & r' & Hl' & _). by exists r'.
    + destruct Hrow as (_ & _ & _ & _ & _ & _ & r' & Hl' & _). by exists r'.
    + destruct Hrow as (_ & _ & _ & _ & _ & _ & r' & Hl' & _). by exists r'.
    + destruct Hrow as (_ & _ & _ & _ & _ & r' & Hl' & _). by exists r'.
  - intros k Hsk. destruct (decide (k = q)) as [->|Hne]; [by right|].
    left. by rewrite <- Hoth.
Qed.

Lemma scan_files_ledger E c opts cn exts da owner now files :
  forall w w' log,
    keyed (records w) ->
    watch_media_directories.scan_files E c opts cn exts da owner now w files
    = (w', log) ->
    keyed (records w')
    /\ (forall k, is_Some (records w !! k) -> is_Some (records w' !! k))
    /\ (forall k, is_Some (records w' !! k) ->
                  is_Some (records w !! k) \/ In k files)
    /\ (forall p o, In (p, o) log ->
                    o <> watch_media_directories.ExtensionFiltered ->
                    exists r, records w' !! p = Some r
                              /\ AutoImport.last_seen r = now
                              /\ AutoImport.config_name r = cn).
Proof.
  induction files as [|q rest IH]; intros w w' log Hk Hs.
  - cbn in Hs. injection Hs as Hw Hlog. subst w' log.
    split; [exact Hk|]. split; [done|]. split; [by left|]. intros p o [].
  - rewrite scan_files_cons in Hs.
    destruct (watch_media_directories.scan_file E c opts cn exts da owner now w q)
      as [w1 o1] eqn:H1.
    destruct (watch_media_directories.scan_files E c opts cn exts da owner now w1 rest)
      as [w2 log'] eqn:H2.
    injection Hs as Hw Hlog. subst w' log.
    pose proof (scan_file_keyed E c opts cn exts da owner now w q w1 o1 Hk H1) as Hk1.
    destruct (IH _ _ _ Hk1 H2) as (Hk2 & Hkeep & Hnew & Hst).
    destruct (scan_file_domain E c opts cn exts da owner now w q w1 o1 Hk H1)
      as [Hkeep1 Hnew1].
    split; [exact Hk2|]. split; [|split].
    + intros k Hsk. by apply Hkeep, Hkeep1.
    + intros k Hsk. destruct (Hnew k Hsk) as [H|H]; [|by right; right].
      destruct (Hnew1 k H) as [H'| ->]; [by left|by right; left].
    + intros p o [Heq|Hin] Hno; [|exact (Hst p o Hin Hno)].
      injection Heq as Hq Ho. subst p o.
      destruct (scan_file_stamp E c opts cn exts da owner now w q w1 o1 Hk H1 Hno)
        as (r1 & Hl1 & Hls & Hcn).
      exact (scan_files_keep_stamp E c opts cn exts da owner now rest w1 w2 log'
               q r1 Hk1 H2 Hl1 Hls Hcn).
Qed.

(** X4: the ledger along a pass of the poll scan. No row is ever
    deleted; a row appears only for a file the walk found; and every file that
    passed the extension test has, at the end of the pass, a row that carries
    the clock reading of the pass as its last-seen stamp and the name of this
    configuration, whatever happened to the file afterwards. *)
Theorem X4_ledger_kept_and_stamped
    (E : environment) (c : watch_media_directories.watch_config)
    (opts : watch_media_directories.options) (now : Z) (w w' : world)
    (log : list (string * watch_media_directories.scan_outcome)) (path0 : string) :
  keyed (records w) ->
  watch_media_directories.path c = Some path0 ->
  watch_media_directories.process_config E
    (watch_media_directories.ConfigDict c) opts now w
  = watch_media_directories.Done w' log ->
  keyed (records w')
  /\ (forall k, is_Some (records w !! k) -> is_Some (records w' !! k))
  /\ (forall k, is_Some (records w' !! k) ->
                is_Some (records w !! k)
                \/ In k (watch_media_directories._iter_files (fs w) path0
                           (getattr (watch_media_directories.recursive c) true)))
  /\ (forall p o, In (p, o) log ->
                  o <> watch_media_directories.ExtensionFiltered ->
                  exists r, records w' !! p = Some r
                            /\ AutoImport.last_seen r = now
                            /\ AutoImport.config_name r
                               = getattr (watch_media_directories.truthy_value
                                            (watch_media_directories.name c)) path0).
Proof.
  intros Hk Hp Hd.
  destruct (process_config_done _ _ _ _ _ _ _ Hd)
    as (c' & path1 & owner & Heq & Hp' & _ & _ & _ & Hs).
  inversion Heq; subst c'. rewrite Hp in Hp'. inversion Hp'; subst path1.
  exact (scan_files_ledger _ _ _ _ _ _ _ _ _ _ _ _ Hk Hs).
Qed.

Lemma X4_ledger_kept_and_stamped_witness :
  keyed (records Sample.imported_world)
  /\ watch_media_directories.path Sample.config_w = Some "/w"
  /\ forall k, is_Some (records Sample.imported_world !! k) ->
               is_Some (records (Sample.world_of
                                   (watch_media_directories.process_config
                                      Sample.env
                                      (watch_media_directories.ConfigDict
                                         Sample.config_w)
                                      Sample.plain_options 20
                                      Sample.imported_world)) !! k).
Proof.
  split; [exact (keyed_singleton Sample.imported_row)|]. split; [reflexivity|].
  refine (proj1 (proj2 (X4_ledger_kept_and_stamped Sample.env Sample.config_w
                          Sample.plain_options 20 Sample.imported_world _
                          (Sample.log_of
                             (watch_media_directories.process_config Sample.env
                                (watch_media_directories.ConfigDict Sample.config_w)
                                Sample.plain_options 20 Sample.imported_world))
                          "/w" (keyed_singleton Sample.imported_row) eq_refl _))).
  vm_compute. reflexivity.
Defined.

(** ** Referential integrity *)

Lemma scan_file_sound E c opts cn exts da owner now w q w' o :
  consistent w -> referential w -> keys_handed_out w ->
  watch_media_directories.scan_file E c opts cn exts da owner now w q = (w', o) ->
  referential w' /\ keys_handed_out w'.
Proof.
  intros Hc Href Hout Hs.
  destruct Hc as (Hk & Hseq & Hpos).
  pose proof (scan_file_row E c opts cn exts da owner now w q w' o Hk Hs) as Hrow.
  pose proof (fun p => scan_file_other E c opts cn exts da owner now w q w' o p Hk Hs)
    as Hoth.
  destruct (scan_file_effects E c opts cn exts da owner now w q w' o Hs)
    as (_ & Hmed & Hsq & _).
  assert (Hsub : forall m, In m (media w) -> In m (media w')).
  { intros m Hin. rewrite Hmed. apply in_or_app. by left. }
  split.
  - intros k r i Hl Hm.
    destruct (decide (k = q)) as [->|Hne].
    + destruct o.
      * destruct Hrow as [-> _]. exact (Href q r i Hl Hm).
      * destruct Hrow as (_ & _ & _ & _ & _ & _ & r' & Hl' & _ & Hm').
        rewrite Hl in Hl'. inversion Hl'; subst r'. rewrite Hm in Hm'.
        destruct (records w !! q) as [r0|] eqn:Hl0; [|done].
        destruct (Href q r0 i Hl0 (eq_sym Hm')) as (m & Hin & Hpk).
        exists m. split; [by apply Hsub|exact Hpk].
      * destruct Hrow as (_ & _ & _ & _ & _ & _ & r' & Hl' & _ & Hm').
        rewrite Hl in Hl'. inversion Hl'; subst r'. rewrite Hm in Hm'.
        destruct (records w !! q) as [r0|] eqn:Hl0; [|done].
        destruct (Href q r0 i Hl0 (eq_sym Hm')) as (m & Hin & Hpk).
        exists m. split; [by apply Hsub|exact Hpk].
      * destruct Hrow as (_ & _ & _ & _ & _ & _ & r' & Hl' & _ & Hm').
        rewrite Hl in Hl'. inversion Hl'; subst r'. rewrite Hm in Hm'.
        destruct (records w !! q) as [r0|] eqn:Hl0; [|done].
        destruct (Href q r0 i Hl0 (eq_sym Hm')) as (m & Hin & Hpk).
        exists m. split; [by apply Hsub|exact Hpk].
      * destruct Hrow as (_ & _ & Hmed' & _ & _ & r' & Hl' & _ & Hm').
        rewrite Hl in Hl'. inversion Hl'; subst r'. rewrite Hm in Hm'.
        inversion Hm'; subst i. exists m. split; [|done].
        rewrite Hmed'. apply in_or_app. right. by left.
    + rewrite Hoth in Hl by done.
      destruct (Href k r i Hl Hm) as (m & Hin & Hpk).
      exists m. split; [by apply Hsub|exact Hpk].
  - intros m Hin. rewrite Hmed in Hin. apply in_app_or in Hin as [Hin|Hin].
    + pose proof (Hout m Hin). lia.
    + destruct o; cbn in Hin; try done.
      destruct Hin as [<-|[]].
      destruct Hrow as (_ & Hpk & _ & Hsq' & _). lia.
Qed.

Lemma scan_files_sound E c opts cn exts da owner now files :
  forall w w' log,
    consistent w -> referential w -> keys_handed_out w ->
    watch_media_directories.scan_files E c opts cn exts da owner now w files
    = (w', log) ->
    referential w' /\ keys_handed_out w'.
Proof.
  induction files as [|q rest IH]; intros w w' log Hc Href Hout Hs.
  - cbn in Hs. injection Hs as Hw Hlog. by subst w'.
  - rewrite scan_files_cons in Hs.
    destruct (watch_media_directories.scan_file E c opts cn exts da owner now w q)
      as [w1 o1] eqn:H1.
    destruct (watch_media_directories.scan_files E c opts cn exts da owner now w1 rest)
      as [w2 log'] eqn:H2.
    injection Hs as Hw Hlog. subst w' log.
    destruct (scan_file_sound E c opts cn exts da owner now w q w1 o1
                Hc Href Hout H1) as [Href1 Hout1].
    apply (IH w1 w2 log'); try done.
    exact (scan_file_consistent E c opts cn exts da owner now w q w1 o1 Hc H1).
Qed.

(** X5: referential integrity of the ledger. When the ledger is keyed by
    source path, every media reference of it points to a row of the Media
    table and every key in use was handed out, then the same holds after a
    pass of the poll scan, and it holds after the deletion of any media, whose
    references are nulled. *)
Theorem X5_referential_integrity (w : world) :
  consistent w -> referential w -> keys_handed_out w ->
  (forall E entry opts now w' log,
      watch_media_directories.process_config E entry opts now w
      = watch_media_directories.Done w' log ->
      consistent w' /\ referential w' /\ keys_handed_out w')
  /\ (forall k, consistent (delete_media w k)
                /\ referential (delete_media w k)
                /\ keys_handed_out (delete_media w k)).
Proof.
  intros Hc Href Hout. split.
  - intros E entry opts now w' log Hd.
    destruct (process_config_done _ _ _ _ _ _ _ Hd)
      as (c & path0 & owner & -> & _ & _ & _ & _ & Hs).
    split; [exact (scan_files_consistent _ _ _ _ _ _ _ _ _ _ _ _ Hc Hs)|].
    exact (scan_files_sound _ _ _ _ _ _ _ _ _ _ _ _ Hc Href Hout Hs).
  - intros k. destruct Hc as (Hk & Hseq & Hpos).
    assert (Hrows : forall q r i,
               records (delete_media w k) !! q = Some r ->
               AutoImport.media_id r = Some i ->
               i <> k /\ exists r0, records w !! q = Some r0
                                    /\ AutoImport.media_id r0 = Some i).
    { intros q r i Hl Hm. cbn in Hl. rewrite lookup_fmap in Hl.
      destruct (records w !! q) as [r0|] eqn:Hl0; [|done].
      cbn in Hl. inversion Hl; subst r. clear Hl.
      unfold AutoImport.set_null in Hm.
      destruct (AutoImport.media_id r0) as [j|] eqn:Hj; [|by rewrite Hj in Hm].
      destruct (Z.eqb_spec j k) as [->|Hjk]; [done|].
      rewrite Hj in Hm. inversion Hm; subst j. split; [done|]. by exists r0. }
    split; [|split].
    + split; [exact (keyed_set_null k _ Hk)|]. split; [exact Hseq|].
      intros q r i Hl Hm. destruct (Hrows q r i Hl Hm) as (_ & r0 & Hl0 & Hm0).
      exact (Hpos q r0 i Hl0 Hm0).
    + intros q r i Hl Hm. destruct (Hrows q r i Hl Hm) as (Hik & r0 & Hl0 & Hm0).
      destruct (Href q r0 i Hl0 Hm0) as (m & Hin & Hpk).
      exists m. split; [|exact Hpk]. cbn. apply filter_In. split; [exact Hin|].
      apply negb_true_iff, Z.eqb_neq. lia.
    + intros m Hin. cbn in Hin. apply filter_In in Hin as [Hin _]. by apply Hout.
Qed.

Lemma sample_imported_world_sound :
  consistent Sample.imported_world
  /\ referential Sample.imported_world
  /\ keys_handed_out Sample.imported_world.
Proof.
  assert (Hrow : forall k r, records Sample.imported_world !! k = Some r ->
                             k = "/w/a.jpg" /\ r = Sample.imported_row).
  { intros k r Hl. cbn in Hl. by apply lookup_singleton_Some in Hl as [<- <-]. }
  split; [|split].
  - split; [exact (keyed_singleton Sample.imported_row)|]. split; [cbn; lia|].
    intros k r i Hl Hm. destruct (Hrow k r Hl) as [_ ->]. cbn in Hm.
    inversion Hm; subst. cbn. lia.
  - intros k r i Hl Hm. destruct (Hrow k r Hl) as [_ ->]. cbn in Hm.
    inversion Hm; subst. exists Sample.media_one. split; [by left|done].
  - intros m [<-|[]]. cbn. lia.
Qed.

Lemma X5_referential_integrity_witness :
  consistent Sample.imported_world
  /\ referential Sample.imported_world
  /\ keys_handed_out Sample.imported_world
  /\ referential (delete_media Sample.imported_world 1).
Proof.
  destruct sample_imported_world_sound as (Hc & Hr & Ho).
  split; [exact Hc|]. split; [exact Hr|]. split; [exact Ho|].
  exact (proj1 (proj2 (proj2 (X5_referential_integrity Sample.imported_world
                                Hc Hr Ho) 1))).
Defined.

(** ** Several configurations, several passes *)

Lemma imported_paths_app (a b : list (string * watch_media_directories.scan_outcome)) :
  imported_paths (a ++ b)%list = (imported_paths a ++ imported_paths b)%list.
Proof. unfold imported_paths. apply List.flat_map_app. Qed.

Lemma imported_media_app (a b : list (string * watch_media_directories.scan_outcome)) :
  imported_media (a ++ b)%list = (imported_media a ++ imported_media b)%list.
Proof. unfold imported_media. apply List.flat_map_app. Qed.

Lemma imports_once_nil w : consistent w -> imports_once w w [].
Proof.
  intros Hc. split; [exact Hc|]. split; [|split].
  - intros p Hp. split; [exact Hp|]. intros [].
  - intros p [].
  - constructor.
Qed.

Lemma imports_once_app w w1 w2 l1 l2 :
  imports_once w w1 l1 -> imports_once w1 w2 l2 -> imports_once w w2 (l1 ++ l2)%list.
Proof.
  intros (Hc1 & Hk1 & Hi1 & Hn1) (Hc2 & Hk2 & Hi2 & Hn2).
  unfold imports_once. rewrite imported_paths_app.
  split; [exact Hc2|]. split; [|split].
  - intros p Hp. destruct (Hk1 p Hp) as [Hp1 Hn]. destruct (Hk2 p Hp1) as [Hp2 Hn'].
    split; [exact Hp2|]. intros H. apply in_app_or in H as [H|H]; done.
  - intros p H. apply in_app_or in H as [H|H].
    + exact (proj1 (Hk2 p (Hi1 p H))).
    + by apply Hi2.
  - apply List.NoDup_app; [exact Hn1|exact Hn2|].
    intros p H1 H2. exact (proj2 (Hk2 p (Hi1 p H1)) H2).
Qed.

Lemma imports_once_step E c opts cn exts da owner now w q w' o :
  consistent w ->
  watch_media_directories.force opts = false ->
  watch_media_directories.scan_file E c opts cn exts da owner now w q = (w', o) ->
  imports_once w w' [(q, o)].
Proof.
  intros Hc Hf Hs.
  pose proof (scan_file_row E c opts cn exts da owner now w q w' o (proj1 Hc) Hs)
    as Hrow.
  split; [exact (scan_file_consistent E c opts cn exts da owner now w q w' o Hc Hs)|].
  split; [|split].
  - intros p (r & Hl & Hi).
    destruct (scan_file_keeps_imported E c opts cn exts da owner now w q w' o p r
                (proj1 Hc) Hf Hs Hl Hi) as ((r' & Hl' & _ & Hi') & Hq).
    split; [by exists r'|].
    unfold imported_paths. cbn. destruct o; try (by intros []).
    intros [<-|[]]. by destruct (Hq eq_refl).
  - unfold imported_paths. cbn. intros p Hin. destruct o; try (by destruct Hin).
    destruct Hin as [<-|[]].
    destruct Hrow as (_ & Hpk & _ & _ & _ & r' & Hl' & _ & Hm').
    exists r'. split; [exact Hl'|].
    apply (is_imported_of_key r' _ Hm'). destruct Hc as (_ & Hseq & _). lia.
  - unfold imported_paths. cbn. destruct o; repeat constructor; by intros [].
Qed.

Lemma imports_once_files E c opts cn exts da owner now files :
  forall w w' log,
    consistent w ->
    watch_media_directories.force opts = false ->
    watch_media_directories.scan_files E c opts cn exts da owner now w files
    = (w', log) ->
    imports_once w w' log.
Proof.
  induction files as [|q rest IH]; intros w w' log Hc Hf Hs.
  - cbn in Hs. injection Hs as Hw Hlog. subst w' log. by apply imports_once_nil.
  - rewrite scan_files_cons in Hs.
    destruct (watch_media_directories.scan_file E c opts cn exts da owner now w q)
      as [w1 o1] eqn:H1.
    destruct (watch_media_directories.scan_files E c opts cn exts da owner now w1 rest)
      as [w2 log'] eqn:H2.
    injection Hs as Hw Hlog. subst w' log.
    pose proof (imports_once_step E c opts cn exts da owner now w q w1 o1 Hc Hf H1)
      as Hstep.
    change ((q, o1) :: log') with ([(q, o1)] ++ log')%list.
    apply (imports_once_app w w1 w2); [exact Hstep|].
    apply IH; [exact (proj1 Hstep)|exact Hf|exact H2].
Qed.

Lemma imports_once_config E entry opts now w w' log :
  consistent w ->
  watch_media_directories.force opts = false ->
  watch_media_directories.process_config E entry opts now w
  = watch_media_directories.Done w' log ->
  imports_once w w' log.
Proof.
  intros Hc Hf Hd.
  destruct (process_config_done _ _ _ _ _ _ _ Hd)
    as (c & path0 & owner & -> & _ & _ & _ & _ & Hs).
  exact (imports_once_files _ _ _ _ _ _ _ _ _ _ _ _ Hc Hf Hs).
Qed.

Lemma imports_once_configs E opts now (configs : list watch_media_directories.config_entry) :
  forall w w' log,
    consistent w ->
    watch_media_directories.force opts = false ->
    watch_media_directories.process_configs E configs opts now w
    = watch_media_directories.Done w' log ->
    imports_once w w' log.
Proof.
  induction configs as [|entry rest IH]; intros w w' log Hc Hf Hd.
  - cbn in Hd. injection Hd as Hw Hlog. subst w' log. by apply imports_once_nil.
  - cbn [watch_media_directories.process_configs] in Hd.
    destruct (watch_media_directories.process_config E entry opts now w)
      as [w1 log1|msg w1] eqn:H1; [|done].
    destruct (watch_media_directories.process_configs E rest opts now w1)
      as [w2 log2|msg w2] eqn:H2; [|done].
    injection Hd as Hw Hlog. subst w' log.
    pose proof (imports_once_config E entry opts now w w1 log1 Hc Hf H1) as Hstep.
    apply (imports_once_app w w1 w2); [exact Hstep|].
    apply IH; [exact (proj1 Hstep)|exact Hf|exact H2].
Qed.

Lemma imports_once_loop E opts (configs : list watch_media_directories.config_entry)
    (clock : list Z) :
  forall w w' log,
    consistent w ->
    watch_media_directories.force opts = false ->
    watch_media_directories.scan_loop E configs opts clock w
    = watch_media_directories.Done w' log ->
    imports_once w w' log.
Proof.
  induction clock as [|now later IH]; intros w w' log Hc Hf Hd.
  - cbn in Hd. injection Hd as Hw Hlog. subst w' log.
    exact (imports_once_nil w Hc).
  - cbn [watch_media_directories.scan_loop] in Hd.
    destruct (watch_media_directories.process_configs E configs opts now w)
      as [w1 log1|msg w1] eqn:H1; [|done].
    pose proof (imports_once_configs E opts now configs w w1 log1 Hc Hf H1) as Hstep.
    destruct (watch_media_directories.once opts).
    + injection Hd as Hw Hlog. by subst w' log.
    + destruct (watch_media_directories.scan_loop E configs opts later w1)
        as [w2 log2|msg w2] eqn:H2; [|done].
      injection Hd as Hw Hlog. subst w' log.
      apply (imports_once_app w w1 w2); [exact Hstep|].
      apply IH; [exact (proj1 Hstep)|exact Hf|exact H2].
Qed.

(** X6: at most one import per path and run. A run of the command
    without the force flag, over any list of configurations and any number of
    passes, imports no path twice, imports no path whose row was already
    imported when the run began, and leaves the tables consistent. *)
Theorem X6_at_most_once_per_run
    (E : environment) (configured : option (list watch_media_directories.config_entry))
    (opts : watch_media_directories.options) (clock : list Z) (w w' : world)
    (log : list (string * watch_media_directories.scan_outcome)) :
  consistent w ->
  watch_media_directories.force opts = false ->
  watch_media_directories.handle E configured opts clock w
  = watch_media_directories.Done w' log ->
  List.NoDup (imported_paths log)
  /\ (forall p, imported_in w p -> ~ In p (imported_paths log))
  /\ (forall p, In p (imported_paths log) -> imported_in w' p)
  /\ consistent w'.
Proof.
  intros Hc Hf Hd. unfold watch_media_directories.handle in Hd.
  assert (Hrun : imports_once w w' log).
  { destruct (getattr configured []) as [|entry rest].
    - injection Hd as Hw Hlog. subst w' log. exact (imports_once_nil w Hc).
    - exact (imports_once_loop E opts _ clock w w' log Hc Hf Hd). }
  destruct Hrun as (Hc' & Hk & Hi & Hn).
  split; [exact Hn|]. split; [|split; [exact Hi|exact Hc']].
  intros p Hp. exact (proj2 (Hk p Hp)).
Qed.

Lemma X6_at_most_once_per_run_witness :
  consistent (Sample.empty_world Sample.watched)
  /\ watch_media_directories.force Sample.plain_options = false
  /\ List.NoDup
       (imported_paths
          (Sample.log_of
             (watch_media_directories.handle Sample.env
                (Some [watch_media_directories.ConfigDict Sample.config_w;
                       watch_media_directories.ConfigDict Sample.config_w])
                Sample.plain_options [10] (Sample.empty_world Sample.watched)))).
Proof.
  split; [exact (consistent_empty_world Sample.watched)|]. split; [reflexivity|].
  refine (proj1 (X6_at_most_once_per_run Sample.env
                   (Some [watch_media_directories.ConfigDict Sample.config_w;
                          watch_media_directories.ConfigDict Sample.config_w])
                   Sample.plain_options [10] (Sample.empty_world Sample.watched)
                   (Sample.world_of
                      (watch_media_directories.handle Sample.env
                         (Some [watch_media_directories.ConfigDict Sample.config_w;
                                watch_media_directories.ConfigDict Sample.config_w])
                         Sample.plain_options [10]
                         (Sample.empty_world Sample.watched)))
                   _ (consistent_empty_world Sample.watched) eq_refl _)).
  vm_compute. reflexivity.
Defined.

(** The same directory configured twice: the second configuration finds
    the file imported by the first. *)
Example same_directory_twice :
  Sample.log_of
    (watch_media_directories.handle Sample.env
       (Some [watch_media_directories.ConfigDict Sample.config_w;
              watch_media_directories.ConfigDict Sample.config_w])
       Sample.plain_options [10] (Sample.empty_world Sample.watched))
  = [("/w/a.jpg", watch_media_directories.ImportedAs Sample.media_one);
     ("/w/a.jpg", watch_media_directories.AlreadyImported)].
Proof. vm_compute. reflexivity. Qed.

Lemma process_configs_media E opts now (configs : list watch_media_directories.config_entry) :
  forall w w' log,
    watch_media_directories.process_configs E configs opts now w
    = watch_media_directories.Done w' log ->
    media w' = (media w ++ imported_media log)%list.
Proof.
  induction configs as [|entry rest IH]; intros w w' log Hd.
  - cbn in Hd. injection Hd as Hw Hlog. subst w' log. cbn. by rewrite app_nil_r.
  - cbn [watch_media_directories.process_configs] in Hd.
    destruct (watch_media_directories.process_config E entry opts now w)
      as [w1 log1|msg w1] eqn:H1; [|done].
    destruct (watch_media_directories.process_configs E rest opts now w1)
      as [w2 log2|msg w2] eqn:H2; [|done].
    injection Hd as Hw Hlog. subst w' log.
    destruct (process_config_done _ _ _ _ _ _ _ H1)
      as (c & path0 & owner & -> & _ & _ & _ & _ & Hs).
    destruct (scan_files_effects _ _ _ _ _ _ _ _ _ _ _ _ Hs) as (_ & _ & Hm & _).
    rewrite (IH _ _ _ H2), Hm, imported_media_app. by rewrite app_assoc.
Qed.

Lemma process_configs_app_error E opts now
    (good : list watch_media_directories.config_entry) :
  forall w w1 log1 bad rest msg w1',
    watch_media_directories.process_configs E good opts now w
    = watch_media_directories.Done w1 log1 ->
    watch_media_directories.process_config E bad opts now w1
    = watch_media_directories.CommandError msg w1' ->
    watch_media_directories.process_configs E (good ++ bad :: rest)%list opts now w
    = watch_media_directories.CommandError msg w1.
Proof.
  induction good as [|entry good IH]; intros w w1 log1 bad rest msg w1' Hg Hb.
  - cbn in Hg. injection Hg as Hw Hlog. subst w1 log1.
    cbn [app watch_media_directories.process_configs]. rewrite Hb.
    by rewrite (process_config_error_world _ _ _ _ _ _ _ Hb).
  - cbn [app watch_media_directories.process_configs] in *.
    destruct (watch_media_directories.process_config E entry opts now w)
      as [wa loga|m wa] eqn:Ha; [|done].
    destruct (watch_media_directories.process_configs E good opts now wa)
      as [wb logb|m wb] eqn:Hgb; [|done].
    injection Hg as Hw Hlog. subst w1 log1.
    by rewrite (IH wa wb logb bad rest msg w1' Hgb Hb).
Qed.

(** X7: a configuration error does not undo what came before it. When
    the configurations listed before the failing one were processed, the run
    ends with the error of the failing one, and the world it ends in is the
    one those earlier configurations left: their media are in the Media
    table. The configurations after the failing one are not looked at. *)
Theorem X7_earlier_configurations_persist
    (E : environment) (opts : watch_media_directories.options) (now : Z)
    (clock : list Z)
    (good rest : list watch_media_directories.config_entry)
    (bad : watch_media_directories.config_entry)
    (w w1 w1' : world)
    (log1 : list (string * watch_media_directories.scan_outcome)) (msg : string) :
  watch_media_directories.process_configs E good opts now w
  = watch_media_directories.Done w1 log1 ->
  watch_media_directories.process_config E bad opts now w1
  = watch_media_directories.CommandError msg w1' ->
  watch_media_directories.handle E (Some (good ++ bad :: rest)%list) opts
    (now :: clock) w
  = watch_media_directories.CommandError msg w1
  /\ media w1 = (media w ++ imported_media log1)%list.
Proof.
  intros Hg Hb. split; [|exact (process_configs_media E opts now good w w1 log1 Hg)].
  unfold watch_media_directories.handle. cbn [getattr].
  pose proof (process_configs_app_error E opts now good w w1 log1 bad rest msg w1'
                Hg Hb) as Herr.
  destruct (good ++ bad :: rest)%list as [|e l] eqn:Hl.
  - by destruct good.
  - cbn [watch_media_directories.scan_loop]. by rewrite Herr.
Qed.

Lemma X7_earlier_configurations_persist_witness :
  watch_media_directories.handle Sample.env
    (Some [watch_media_directories.ConfigDict Sample.config_w;
           watch_media_directories.ConfigDict Sample.config_missing;
           watch_media_directories.ConfigDict Sample.config_w])
    Sample.plain_options [10] (Sample.empty_world Sample.watched)
  = watch_media_directories.CommandError
      "Watch directory does not exist: /missing"
      (Sample.world_of Sample.first_pass)
  /\ media (Sample.world_of Sample.first_pass) = [Sample.media_one].
Proof.
  assert (Hg : watch_media_directories.process_configs Sample.env
                 [watch_media_directories.ConfigDict Sample.config_w]
                 Sample.plain_options 10 (Sample.empty_world Sample.watched)
               = watch_media_directories.Done (Sample.world_of Sample.first_pass)
                   (Sample.log_of Sample.first_pass))
    by (vm_compute; reflexivity).
  assert (Hb : watch_media_directories.process_config Sample.env
                 (watch_media_directories.ConfigDict Sample.config_missing)
                 Sample.plain_options 10 (Sample.world_of Sample.first_pass)
               = watch_media_directories.CommandError
                   "Watch directory does not exist: /missing"
                   (Sample.world_of Sample.first_pass))
    by (vm_compute; reflexivity).
  destruct (X7_earlier_configurations_persist Sample.env Sample.plain_options 10 []
              [watch_media_directories.ConfigDict Sample.config_w]
              [watch_media_directories.ConfigDict Sample.config_w]
              (watch_media_directories.ConfigDict Sample.config_missing)
              (Sample.empty_world Sample.watched)
              (Sample.world_of Sample.first_pass)
              (Sample.world_of Sample.first_pass)
              (Sample.log_of Sample.first_pass)
              "Watch directory does not exist: /missing" Hg Hb) as [Hh Hm].
  split; [exact Hh|]. vm_compute. reflexivity.
Defined.

(** * Further properties of the event-driven watcher *)

(** One call: what it hands out was pending, and what is pending
    afterwards was pending before or is the path of an event that the handler
    let through. *)
Lemma step_keys (h : directory_monitor.MediaFileHandler) (c : debouncer.call) :
  directory_monitor.extensions (fst (debouncer.step h c))
  = directory_monitor.extensions h
  /\ (forall q, In q (snd (debouncer.step h c)) ->
                In q (List.map fst (directory_monitor.pending_files h)))
  /\ (forall q,
         In q (List.map fst (directory_monitor.pending_files
                               (fst (debouncer.step h c)))) ->
         In q (List.map fst (directory_monitor.pending_files h))
         \/ exists ev now,
              (c = debouncer.Created ev now \/ c = debouncer.Modified ev now)
              /\ directory_monitor.is_directory ev = false
              /\ directory_monitor.src_path ev = q
              /\ directory_monitor._should_process_file h q = true).
Proof.
  assert (Hev : forall ev now,
             let h1 :=
               if directory_monitor.is_directory ev then h
               else if negb (directory_monitor._should_process_file h
                               (directory_monitor.src_path ev)) then h
               else directory_monitor.with_pending h
                      (PyDict.set (directory_monitor.src_path ev) now
                                  (directory_monitor.pending_files h)) in
             directory_monitor.extensions h1 = directory_monitor.extensions h
             /\ forall q,
                  In q (List.map fst (directory_monitor.pending_files h1)) ->
                  In q (List.map fst (directory_monitor.pending_files h))
                  \/ (directory_monitor.is_directory ev = false
                      /\ directory_monitor.src_path ev = q
                      /\ directory_monitor._should_process_file h q = true)).
  { intros ev now h1. subst h1.
    destruct (directory_monitor.is_directory ev); [split; [done|by left]|].
    destruct (directory_monitor._should_process_file h
                (directory_monitor.src_path ev)) eqn:Hsp; cbn [negb];
      [|split; [done|by left]].
    split; [done|]. intros q Hq. cbn in Hq.
    apply dict_keys_set in Hq as [->|Hq]; [by right|by left]. }
  destruct c as [ev now|ev now|t].
  - cbn [debouncer.step fst snd]. unfold directory_monitor.on_created.
    destruct (Hev ev now) as [He Hk]. split; [exact He|]. split; [by intros q []|].
    intros q Hq. destruct (Hk q Hq) as [H|(Hd & Hs & Hp)]; [by left|].
    right. exists ev, now. split; [by left|done].
  - cbn [debouncer.step fst snd]. unfold directory_monitor.on_modified.
    destruct (Hev ev now) as [He Hk]. split; [exact He|]. split; [by intros q []|].
    intros q Hq. destruct (Hk q Hq) as [H|(Hd & Hs & Hp)]; [by left|].
    right. exists ev, now. split; [by right|done].
  - cbn [debouncer.step]. unfold directory_monitor.collect_pending.
    rewrite collect_fold. cbn [fst snd app].
    split; [done|]. split.
    + intros q Hq. eapply dict_keys_filter. exact Hq.
    + intros q Hq. left. cbn in Hq. eapply dict_keys_filter. exact Hq.
Qed.

(** X8: every path that the debouncer releases passed the filter. Starting
    from a handler whose pending paths all pass [_should_process_file], every
    settle notification of a run names a path that passes it, and the path was
    pending at the start or is the path of a create or modify event of the
    run that was no directory event. Directory events, hidden files, [.tmp]
    and [.part] files and files outside the extension list are never handed
    to the import. *)
Theorem X8_released_paths_passed_filter (tr : list debouncer.call) :
  forall (h : directory_monitor.MediaFileHandler),
    (forall q, In q (List.map fst (directory_monitor.pending_files h)) ->
               directory_monitor._should_process_file h q = true) ->
    forall q t, In (q, t) (snd (debouncer.run h tr)) ->
      directory_monitor._should_process_file h q = true
      /\ (In q (List.map fst (directory_monitor.pending_files h))
          \/ exists ev now,
               (In (debouncer.Created ev now) tr \/ In (debouncer.Modified ev now) tr)
               /\ directory_monitor.is_directory ev = false
               /\ directory_monitor.src_path ev = q).
Proof.
  induction tr as [|c tr IH]; intros h Hall q t Hin; [destruct Hin|].
  rewrite run_cons in Hin. cbn [snd] in Hin.
  destruct (step_keys h c) as (He & Hout & Hkeys).
  apply in_app_or in Hin as [Hin|Hin].
  - apply in_map_iff in Hin as (q' & Heq & Hq'). inversion Heq; subst q'.
    pose proof (Hout q Hq') as Hk. split; [by apply Hall|by left].
  - assert (Hall1 : forall q0,
               In q0 (List.map fst (directory_monitor.pending_files
                                      (fst (debouncer.step h c)))) ->
               directory_monitor._should_process_file (fst (debouncer.step h c)) q0
               = true).
    { intros q0 Hq0. rewrite (should_process_ext _ h q0 He).
      destruct (Hkeys q0 Hq0) as [H|(ev & now & _ & _ & _ & Hp)];
        [by apply Hall|exact Hp]. }
    destruct (IH _ Hall1 q t Hin) as [Hp Hsrc].
    rewrite (should_process_ext _ h q He) in Hp. split; [exact Hp|].
    destruct Hsrc as [Hk|(ev & now & Hev & Hd & Hs)].
    + destruct (Hkeys q Hk) as [H|(ev & now & Hc & Hd & Hs & _)]; [by left|].
      right. exists ev, now. split; [|done].
      destruct Hc as [->| ->]; [left|right]; by left.
    + right. exists ev, now. split; [|done].
      destruct Hev as [H|H]; [left|right]; by right.
Qed.

Lemma X8_released_paths_passed_filter_witness :
  (forall q, In q (List.map fst (directory_monitor.pending_files Sample.handler)) ->
             directory_monitor._should_process_file Sample.handler q = true)
  /\ In ("/w/a.jpg", 11)
        (snd (debouncer.run Sample.handler
                (Sample.burst ++ Sample.last_event :: Sample.quiet)%list))
  /\ directory_monitor._should_process_file Sample.handler "/w/a.jpg" = true.
Proof.
  assert (Hall : forall q,
             In q (List.map fst (directory_monitor.pending_files Sample.handler)) ->
             directory_monitor._should_process_file Sample.handler q = true)
    by (intros q []).
  assert (Hin : In ("/w/a.jpg", 11)
                   (snd (debouncer.run Sample.handler
                           (Sample.burst ++ Sample.last_event :: Sample.quiet)%list)))
    by (vm_compute; left; reflexivity).
  split; [exact Hall|]. split; [exact Hin|].
  exact (proj1 (X8_released_paths_passed_filter _ Sample.handler Hall
                  "/w/a.jpg" 11 Hin)).
Defined.

(** ** Extension filters *)

Lemma rfind_from_spec (c : ascii) (s : string) :
  forall i found,
    PyStr.rfind_from c s i found = found
    \/ (i <= PyStr.rfind_from c s i found
        /\ PyStr.startswith (String c "")
             (PyStr.drop (Z.to_nat (PyStr.rfind_from c s i found - i)) s) = true).
Proof.
  induction s as [|a s IH]; intros i found; [by left|].
  cbn [PyStr.rfind_from].
  destruct (IH (i + 1) (if Ascii.eqb a c then i else found)) as [Heq|[Hle Hst]].
  - rewrite Heq. destruct (Ascii.eqb_spec a c) as [->|Hne]; [|by left].
    right. split; [lia|]. rewrite Z.sub_diag.
    change (Z.to_nat 0) with 0%nat.
    cbn [PyStr.drop PyStr.startswith]. by rewrite Ascii.eqb_refl.
  - right. split; [lia|].
    replace (Z.to_nat (PyStr.rfind_from c s (i + 1)
                         (if Ascii.eqb a c then i else found) - i))
      with (S (Z.to_nat (PyStr.rfind_from c s (i + 1)
                           (if Ascii.eqb a c then i else found) - (i + 1))))
      by lia.
    exact Hst.
Qed.

(** The extension that [os.path.splitext] returns is empty or begins
    with a dot. *)
Lemma splitext_ext_shape (p : string) :
  snd (PosixPath.splitext p) = ""
  \/ PyStr.startswith "." (snd (PosixPath.splitext p)) = true.
Proof.
  unfold PosixPath.splitext.
  destruct (Z.gtb_spec (PyStr.rfind "." p) (PyStr.rfind "/" p)) as [Hgt|_];
    [|by left].
  destruct (PosixPath.has_non_dot _); [|by left]. cbn [snd]. right.
  unfold PyStr.rfind in *.
  destruct (rfind_from_spec "/" p 0 (-1)) as [Hs|[Hs _]];
    destruct (rfind_from_spec "." p 0 (-1)) as [Hd|[_ Hd]]; try lia.
  - by rewrite Z.sub_0_r in Hd.
  - by rewrite Z.sub_0_r in Hd.
Qed.

Lemma lower_keeps_dot (s : string) :
  PyStr.startswith "." s = true -> PyStr.startswith "." (PyStr.lower s) = true.
Proof.
  destruct s as [|a s]; [done|]. intros H.
  change (Ascii.eqb "." a && PyStr.startswith "" s = true) in H.
  apply andb_true_iff in H as [H _]. apply Ascii.eqb_eq in H. by subst a.
Qed.

(** X9: in the event-driven handler an extension of the filter that is
    written without its leading dot matches no file. The handler compares the
    lower-cased extension of [os.path.splitext], which is empty or begins with
    a dot, with the configured list as it is; so with a list that is not empty
    and holds only non-empty entries without a leading dot, no file at all is
    let through. *)
Theorem X9_event_filter_needs_dots
    (h : directory_monitor.MediaFileHandler) (p : string) :
  directory_monitor.extensions h <> [] ->
  (forall e, In e (directory_monitor.extensions h) ->
             e <> "" /\ PyStr.startswith "." e = false) ->
  directory_monitor._should_process_file h p = false.
Proof.
  intros Hne Hall. unfold directory_monitor._should_process_file.
  destruct (_ || _ || _); [done|].
  destruct (directory_monitor.extensions h) as [|e0 es] eqn:He; [done|].
  unfold PyStr.contains.
  destruct (existsb _ _) eqn:Hex; [|done].
  apply existsb_exists in Hex as (e & Hin & Heq).
  apply String.eqb_eq in Heq. subst e.
  destruct (Hall _ Hin) as [Hnz Hnd].
  destruct (splitext_ext_shape p) as [Hs|Hs].
  - rewrite Hs in Hnz. by cbn in Hnz.
  - by rewrite (lower_keeps_dot _ Hs) in Hnd.
Qed.

Lemma X9_event_filter_needs_dots_witness :
  directory_monitor.extensions
    (directory_monitor.init "alice" 5 (Some ["mp4"; "JPG"]) "public" false None)
  <> []
  /\ directory_monitor._should_process_file
       (directory_monitor.init "alice" 5 (Some ["mp4"; "JPG"]) "public" false None)
       "/w/clip.mp4" = false.
Proof.
  assert (Hne : directory_monitor.extensions
                  (directory_monitor.init "alice" 5 (Some ["mp4"; "JPG"])
                                          "public" false None) <> [])
    by discriminate.
  split; [exact Hne|].
  apply (X9_event_filter_needs_dots _ "/w/clip.mp4" Hne).
  intros e [<-|[<-|[]]]; by split.
Defined.

(** With the dot the same file is let through, in whatever case the
    extension is written. *)
Example event_filter_with_dot :
  directory_monitor._should_process_file
    (directory_monitor.init "alice" 5 (Some [".MP4"]) "public" false None)
    "/w/clip.Mp4" = true.
Proof. reflexivity. Qed.

Lemma lower_ascii_idem (c : ascii) :
  PyStr.lower_ascii (PyStr.lower_ascii c) = PyStr.lower_ascii c.
Proof. destruct c as [[] [] [] [] [] [] [] []]; reflexivity. Qed.

Lemma lower_ascii_dot (c : ascii) :
  Ascii.eqb (PyStr.lower_ascii c) "." = Ascii.eqb c ".".
Proof. destruct c as [[] [] [] [] [] [] [] []]; reflexivity. Qed.

Lemma lower_idem (s : string) : PyStr.lower (PyStr.lower s) = PyStr.lower s.
Proof.
  induction s as [|a s IH]; [done|]. cbn [PyStr.lower].
  by rewrite lower_ascii_idem, IH.
Qed.

Lemma lower_lstrip (s : string) :
  PyStr.lower (PyStr.lstrip_dots s) = PyStr.lstrip_dots (PyStr.lower s).
Proof.
  induction s as [|a s IH]; [done|]. cbn [PyStr.lower PyStr.lstrip_dots].
  rewrite lower_ascii_dot. destruct (Ascii.eqb a "."); [exact IH|done].
Qed.

Lemma lstrip_dots_shape (s : string) :
  PyStr.startswith "." (PyStr.lstrip_dots s) = false
  /\ PyStr.lstrip_dots (PyStr.lstrip_dots s) = PyStr.lstrip_dots s.
Proof.
  induction s as [|a s IH]; [done|]. cbn [PyStr.lstrip_dots].
  destruct (Ascii.eqb_spec a ".") as [->|Hne]; [exact IH|].
  split.
  - change (Ascii.eqb "." a && PyStr.startswith "" s = false).
    destruct (Ascii.eqb_spec "." a) as [Heq|_]; [by subst|done].
  - cbn [PyStr.lstrip_dots]. by destruct (Ascii.eqb_spec a ".").
Qed.

(** X10: the extension list of the poll scan in normal form. Every
    entry of [_normalise_extensions] is lower-case and has no leading dot, and
    normalising a normalised list changes nothing; so it does not matter
    whether a configuration writes an extension with or without the dot. *)
Theorem X10_normalise_extensions (exts : list string) :
  watch_media_directories._normalise_extensions
    (watch_media_directories._normalise_extensions exts)
  = watch_media_directories._normalise_extensions exts
  /\ (forall e, In e (watch_media_directories._normalise_extensions exts) ->
                PyStr.startswith "." e = false /\ PyStr.lower e = e)
  /\ watch_media_directories._normalise_extensions
       (List.map (fun e => "." ++ e) exts)
     = watch_media_directories._normalise_extensions exts.
Proof.
  unfold watch_media_directories._normalise_extensions. split; [|split].
  - rewrite List.map_map. apply List.map_ext. intros e.
    rewrite lower_lstrip, lower_idem. apply lstrip_dots_shape.
  - intros e Hin. apply in_map_iff in Hin as (e0 & <- & _).
    split; [apply lstrip_dots_shape|].
    by rewrite lower_lstrip, lower_idem.
  - rewrite List.map_map. apply List.map_ext. intros e. reflexivity.
Qed.

(** ** What the event-driven import touches *)

(** X11: the frame of the event-driven import. It never reads or writes
    the ledger, the users or the output streams. The Media table changes only
    when the outcome is [Imported], and then by exactly the new media, which
    belongs to the handler's user, carries the next key and has the file name
    without its extension as title. A file that is missing, no regular file,
    empty, too large, unreadable or refused by the storage leaves the whole
    world as it was; and unless relocation is configured the file system is
    never changed. *)
Theorem X11_event_import_frame
    (E : environment) (h : directory_monitor.MediaFileHandler) (s : settings)
    (now : Z) (w w' : world) (p : string) (o : directory_monitor.import_outcome) :
  directory_monitor._import_media_file E h s now w p = (w', o) ->
  records w' = records w
  /\ users w' = users w
  /\ stdout w' = stdout w
  /\ stderr w' = stderr w
  /\ media w' = (media w ++ event_imported [(p, o)])%list
  /\ (directory_monitor.move_configured h = false -> fs w' = fs w)
  /\ match o with
     | directory_monitor.Imported m =>
         MediaModel.pk m = media_seq w + 1
         /\ media_seq w' = media_seq w + 1
         /\ MediaModel.user m = directory_monitor.user h
         /\ MediaModel.title m = fst (PosixPath.splitext (PosixPath.basename p))
     | directory_monitor.DuplicateSkipped m =>
         media_seq w' = media_seq w /\ In m (media w)
     | _ => w' = w
     end.
Proof.
  intros Hi. unfold directory_monitor._import_media_file in Hi.
  unfold event_imported. cbn [List.flat_map snd].
  repeat match type of Hi with
         | context [if ?b then _ else _] => destruct b eqn:?
         | context [match ?x with Some _ => _ | None => _ end] => destruct x eqn:?
         end;
    try (injection Hi as <- <-; cbn; rewrite ?app_nil_r; by repeat split).
  all: injection Hi as <- <-; cbn; rewrite ?app_nil_r; repeat split; try done.
  all: unfold MediaModel.filter_md5sum_first in *.
  all: match goal with H : List.find _ _ = Some _ |- _ =>
         apply List.find_some in H as [H _]; exact H end.
Qed.

Lemma X11_event_import_frame_witness :
  directory_monitor._import_media_file Sample.env Sample.handler
    Sample.one_byte_ceiling 7 (Sample.empty_world Sample.watched_twins) "/w/a.jpg"
  = (fst Sample.twin_import, directory_monitor.Imported Sample.twin_media)
  /\ records (fst Sample.twin_import) = ∅
  /\ media (fst Sample.twin_import) = [Sample.twin_media]
  /\ fs (fst Sample.twin_import) = Sample.watched_twins.
Proof.
  assert (Hi : directory_monitor._import_media_file Sample.env Sample.handler
                 Sample.one_byte_ceiling 7
                 (Sample.empty_world Sample.watched_twins) "/w/a.jpg"
               = (fst Sample.twin_import,
                  directory_monitor.Imported Sample.twin_media))
    by (vm_compute; reflexivity).
  split; [exact Hi|].
  destruct (X11_event_import_frame _ _ _ _ _ _ _ _ Hi)
    as (Hr & _ & _ & _ & Hm & Hf & _).
  split; [exact Hr|]. split; [exact Hm|]. exact (Hf eq_refl).
Defined.

(** ** A turn of the worker *)

Lemma nodup_snoc {A} (l : list A) (x : A) :
  List.NoDup l -> ~ In x l -> List.NoDup (l ++ [x])%list.
Proof.
  induction l as [|a l IH]; cbn; intros Hnd Hni.
  - constructor; [intros []|constructor].
  - inversion Hnd as [|? ? Ha Hl]; subst. constructor.
    + rewrite in_app_iff. intros [H|[->|[]]]; [done|]. apply Hni. by left.
    + apply IH; [exact Hl|]. intros H. apply Hni. by right.
Qed.

Lemma checksums_app (a b : list MediaModel.Media) :
  checksums (a ++ b)%list = (checksums a ++ checksums b)%list.
Proof. unfold checksums. by rewrite List.flat_map_app. Qed.

Lemma event_imported_app (a b : list (string * directory_monitor.import_outcome)) :
  event_imported (a ++ b)%list = (event_imported a ++ event_imported b)%list.
Proof. unfold event_imported. by rewrite List.flat_map_app. Qed.

(** A checksum that the corpus lookup does not find is carried by no
    media. *)
Lemma filter_md5sum_first_none tbl x :
  MediaModel.filter_md5sum_first tbl x = None -> ~ In x (checksums tbl).
Proof.
  unfold MediaModel.filter_md5sum_first, checksums.
  induction tbl as [|a tbl IH]; cbn; intros Hn; [by intros []|].
  destruct (MediaModel.md5sum a) as [y|]; cbn.
  - destruct (String.eqb_spec y x) as [|Hne]; [done|].
    intros [H|H]; [done|]. by apply IH.
  - by apply IH.
Qed.

(** One event-driven import keeps the checksums of the Media table
    pairwise distinct, and changes the table by the imported media only. *)
Lemma import_media_file_unique E h s now w p w' o :
  directory_monitor._import_media_file E h s now w p = (w', o) ->
  unique_checksums (media w) ->
  unique_checksums (media w')
  /\ media w' = (media w ++ event_imported [(p, o)])%list
  /\ records w' = records w
  /\ users w' = users w.
Proof.
  intros Hi Hu. unfold directory_monitor._import_media_file in Hi.
  unfold event_imported. cbn [List.flat_map snd].
  repeat match type of Hi with
         | context [if ?b then _ else _] => destruct b eqn:?
         | context [match ?x with Some _ => _ | None => _ end] => destruct x eqn:?
         end;
    injection Hi as <- <-; cbn; rewrite ?app_nil_r; repeat split; try done.
  all: unfold unique_checksums; rewrite checksums_app; cbn.
  all: apply nodup_snoc; [exact Hu|].
  all: by apply filter_md5sum_first_none.
Qed.

(** The imports of a turn, one released path after the other. *)
Lemma import_turn_fold E h s t files :
  forall w log0 w1 log1,
    List.fold_left
      (fun (acc : world * list (string * directory_monitor.import_outcome))
           file_path =>
         let '(w2, o) :=
           directory_monitor._import_media_file E h s t (fst acc) file_path in
         (w2, (snd acc ++ [(file_path, o)])%list))
      files (w, log0) = (w1, log1) ->
    unique_checksums (media w) ->
    exists log',
      log1 = (log0 ++ log')%list
      /\ List.map fst log' = files
      /\ media w1 = (media w ++ event_imported log')%list
      /\ unique_checksums (media w1)
      /\ records w1 = records w
      /\ users w1 = users w.
Proof.
  induction files as [|f files IH]; intros w log0 w1 log1 Hf Hu;
    cbn [List.fold_left fst snd] in Hf.
  - injection Hf as <- <-. exists []. rewrite !app_nil_r. by repeat split.
  - destruct (directory_monitor._import_media_file E h s t w f) as [w2 o] eqn:Hi.
    destruct (import_media_file_unique _ _ _ _ _ _ _ _ Hi Hu)
      as (Hu2 & Hm2 & Hr2 & Hus2).
    destruct (IH _ _ _ _ Hf Hu2) as (log' & -> & Hfiles & Hm & Hu1 & Hr & Hus).
    exists ((f, o) :: log'). rewrite <- app_assoc. cbn [app List.map fst].
    split; [done|]. split; [by rewrite Hfiles|].
    split.
    { rewrite Hm, Hm2, <- app_assoc. f_equal.
      change ((f, o) :: log') with ([(f, o)] ++ log')%list.
      by rewrite event_imported_app. }
    split; [exact Hu1|]. split; congruence.
Qed.

(** X12: one turn of the worker. With distinct pending paths the turn
    hands exactly the entries that are at least [debounce_seconds] old to the
    import, in the order in which they were first recorded, and keeps the
    younger ones pending. The Media table grows by the media that the turn
    reports as imported and by nothing else, the ledger and the users are not
    touched, and when the checksums of the table were pairwise distinct before
    the turn they are so afterwards. *)
Theorem X12_worker_turn
    (E : environment) (h h1 : directory_monitor.MediaFileHandler) (s : settings)
    (t : Z) (w w1 : world)
    (log : list (string * directory_monitor.import_outcome)) :
  PyDict.wf (directory_monitor.pending_files h) ->
  unique_checksums (media w) ->
  directory_monitor._process_pending_files E h s t w = (h1, w1, log) ->
  List.map fst log
  = List.map fst
      (List.filter (fun kv => t - snd kv >=? directory_monitor.debounce_seconds h)
                   (directory_monitor.pending_files h))
  /\ directory_monitor.pending_files h1
     = List.filter
         (fun kv => negb (t - snd kv >=? directory_monitor.debounce_seconds h))
         (directory_monitor.pending_files h)
  /\ media w1 = (media w ++ event_imported log)%list
  /\ unique_checksums (media w1)
  /\ records w1 = records w
  /\ users w1 = users w.
Proof.
  intros Hwf Hu Ht. unfold directory_monitor._process_pending_files in Ht.
  rewrite (collect_pending_spec h t Hwf) in Ht.
  destruct (List.fold_left _ _ _) as [w2 log2] eqn:Hf.
  injection Ht as <- <- <-.
  destruct (import_turn_fold _ _ _ _ _ _ _ _ _ Hf Hu)
    as (log' & -> & Hfiles & Hm & Hu1 & Hr & Hus).
  cbn [app]. by repeat split.
Qed.

Lemma X12_worker_turn_witness :
  let h := directory_monitor.with_pending Sample.handler
             [("/w/a.jpg", 0); ("/w/b.jpg", 4)] in
  let r := directory_monitor._process_pending_files Sample.env h
             Sample.one_byte_ceiling 7 (Sample.empty_world Sample.watched_twins) in
  PyDict.wf (directory_monitor.pending_files h)
  /\ unique_checksums (media (Sample.empty_world Sample.watched_twins))
  /\ List.map fst (snd r) = ["/w/a.jpg"]
  /\ directory_monitor.pending_files (fst (fst r)) = [("/w/b.jpg", 4)]
  /\ media (snd (fst r)) = [Sample.twin_media].
Proof.
  intros h r.
  assert (Hwf : PyDict.wf (directory_monitor.pending_files h)).
  { unfold PyDict.wf. cbn. constructor.
    - intros [H|[]]. discriminate H.
    - constructor; [intros []|constructor]. }
  assert (Hu : unique_checksums (media (Sample.empty_world Sample.watched_twins)))
    by constructor.
  assert (Hr : directory_monitor._process_pending_files Sample.env h
                 Sample.one_byte_ceiling 7 (Sample.empty_world Sample.watched_twins)
               = (fst (fst r), snd (fst r), snd r))
    by (vm_compute; reflexivity).
  split; [exact Hwf|]. split; [exact Hu|].
  destruct (X12_worker_turn _ _ _ _ _ _ _ _ Hwf Hu Hr) as (H1 & H2 & H3 & _).
  split; [exact H1|]. split; [exact H2|]. exact H3.
Defined.

(** ** The listing of a watched directory *)






(** A shallow scan of [/w] passes over the file in a subdirectory that a
    recursive scan finds. *)
Example shallow_listing :
  let f : gmap string FS.node :=
    {[ "/w" := FS.Directory true; "/w/a.jpg" := FS.RegularFile "X" true;
       "/w/sub" := FS.Directory true;
       "/w/sub/b.jpg" := FS.RegularFile "Y" true;
       "/other/c.jpg" := FS.RegularFile "Z" true ]} in
  watch_media_directories._iter_files f "/w" false = ["/w/a.jpg"]
  /\ In "/w/sub/b.jpg" (watch_media_directories._iter_files f "/w" true)
  /\ ~ In "/other/c.jpg" (watch_media_directories._iter_files f "/w" true).
Proof.
  intros f. split; [vm_compute; reflexivity|]. split.
  - vm_compute. repeat (first [left; reflexivity | right]).
  - vm_compute. intros H.
    repeat (destruct H as [H|H]; [discriminate H|]). exact H.
Qed.

(** ** Starting the event-driven monitor *)

(** X14: what [start] leaves behind on a fresh monitor. Of the world
    only the file system can change, and no node that existed is removed or
    altered; without relocation it does not change at all. The monitor runs
    exactly when [start] returns [True], and after a [False] it holds no
    observer. After a [True] the configured user exists, and the one handler
    that was registered belongs to that user, has nothing pending, holds the
    configured extensions in lower case and relocates exactly when
    [MEDIA_WATCH_MOVE_AFTER_IMPORT] is set, in which case the processed
    directory exists as a directory. *)
Theorem X14_start_outcome
    (E : environment) (s : settings) (w w' : world) (mon' : DirectoryMonitor.t)
    (ok : bool) :
  DirectoryMonitor.start E s DirectoryMonitor.init w = (mon', w', ok) ->
  let watch_user := getattr (MEDIA_WATCH_USER s) "" in
  let move := getattr (MEDIA_WATCH_MOVE_AFTER_IMPORT s) false in
  let pdir := getattr (MEDIA_WATCH_PROCESSED_DIR s) "" in
  w' = with_fs w (fs w')
  /\ (forall q n, fs w !! q = Some n -> fs w' !! q = Some n)
  /\ (move = false -> fs w' = fs w)
  /\ DirectoryMonitor.running mon' = ok
  /\ (ok = false -> DirectoryMonitor.observers mon' = [])
  /\ (ok = true ->
      DirectoryMonitor.observers mon' <> []
      /\ (exists u, In u (users w) /\ UserModel.username u = watch_user)
      /\ (exists h,
            DirectoryMonitor.handlers mon' = [h]
            /\ directory_monitor.user h = watch_user
            /\ directory_monitor.pending_files h = []
            /\ directory_monitor.running h = true
            /\ directory_monitor.extensions h
               = List.map PyStr.lower (getattr (MEDIA_WATCH_EXTENSIONS s) [])
            /\ directory_monitor.move_configured h = move)
      /\ (move = true -> pdir <> "" /\ FS.isdir (fs w') pdir = true)).
Proof.
  intros Hs watch_user move pdir. subst watch_user move pdir.
  unfold DirectoryMonitor.start in Hs.
  assert (Hw : w = with_fs w (fs w)) by (by destruct w).
  destruct (getattr (MEDIA_WATCH_DIRS s) []) as [|d ds] eqn:Hd.
  { injection Hs as <- <- <-. by repeat split. }
  destruct (PyStr.truthy (getattr (MEDIA_WATCH_USER s) "")) eqn:Ht;
    cbn [negb] in Hs; [|injection Hs as <- <- <-; by repeat split].
  destruct (List.find _ (users w)) as [u|] eqn:Hu;
    [|injection Hs as <- <- <-; by repeat split].
  apply List.find_some in Hu as [Hin Hname]. apply String.eqb_eq in Hname.
  destruct (List.filter (DirectoryMonitor.valid_dir (fs w)) (d :: ds))
    as [|v vs] eqn:Hv; [injection Hs as <- <- <-; by repeat split|].
  destruct (getattr (MEDIA_WATCH_MOVE_AFTER_IMPORT s) false) eqn:Hm.
  - destruct (PyStr.truthy (getattr (MEDIA_WATCH_PROCESSED_DIR s) "")) eqn:Hp;
      cbn [negb] in Hs; [|injection Hs as <- <- <-; by repeat split].
    destruct (FS.mkdir_parents (fs w) _) as [f1|] eqn:Hmk;
      [|injection Hs as <- <- <-; by repeat split].
    assert (Hne : getattr (MEDIA_WATCH_PROCESSED_DIR s) "" <> "").
    { intros He. rewrite He in Hp. discriminate Hp. }
    cbn [DirectoryMonitor.observers DirectoryMonitor.handlers
         DirectoryMonitor.running DirectoryMonitor.init app] in Hs.
    destruct (List.map _ (List.filter (observer_starts E) (v :: vs)))
      as [|o os] eqn:Ho; injection Hs as <- <- <-; cbn.
    + repeat split; try done.
      all: try (intros q n Hq; by eapply mkdir_parents_keeps).
    + repeat split; try done.
      all: try (intros q n Hq; by eapply mkdir_parents_keeps).
      all: try (by exists u).
      all: try (by eapply mkdir_parents_isdir).
      all: try (by intros _; eapply mkdir_parents_isdir).
      eexists. split; [reflexivity|]. repeat split; try done.
  - cbn [DirectoryMonitor.observers DirectoryMonitor.handlers
         DirectoryMonitor.running DirectoryMonitor.init app] in Hs.
    destruct (List.map _ (List.filter (observer_starts E) (v :: vs)))
      as [|o os] eqn:Ho; injection Hs as <- <- <-; cbn.
    + by repeat split.
    + repeat split; try done.
      all: try (by exists u).
      eexists. split; [reflexivity|]. by repeat split.
Qed.

Lemma X14_start_outcome_witness :
  let r := DirectoryMonitor.start Sample.env Sample.mixed_settings
             DirectoryMonitor.init (Sample.empty_world Sample.watched) in
  snd r = true
  /\ DirectoryMonitor.running (fst (fst r)) = true
  /\ fs (snd (fst r)) = Sample.watched
  /\ DirectoryMonitor.observers (fst (fst r)) <> [].
Proof.
  intros r.
  assert (Hr : DirectoryMonitor.start Sample.env Sample.mixed_settings
                 DirectoryMonitor.init (Sample.empty_world Sample.watched)
               = (fst (fst r), snd (fst r), true))
    by (vm_compute; reflexivity).
  split; [vm_compute; reflexivity|].
  destruct (X14_start_outcome _ _ _ _ _ _ Hr) as (_ & _ & Hfs & Hrun & _ & Hok).
  split; [exact Hrun|]. split; [exact (Hfs eq_refl)|].
  exact (proj1 (Hok eq_refl)).
Defined.

(** ** Relocation and later events *)

(** What a move does to the nodes that were there: the source goes or
    stays as it was, and any other node stays unless it sits at the
    destination. *)
Lemma fs_move_frame f src dst f2 n :
  FS.move f src dst = Some f2 ->
  f !! src = Some n ->
  (f2 !! src = None \/ f2 !! src = Some n)
  /\ (forall q nq, q <> src -> f !! q = Some nq ->
                   f2 !! q = Some nq \/ q = dst)
  /\ (exists q, f2 !! q = Some n).
Proof.
  unfold FS.move. intros H Hs. rewrite Hs in H.
  destruct (FS.isdir f dst).
  - destruct (FS.exists_ f (PosixPath.joinpath dst (PosixPath.basename src)))
      eqn:He; [done|].
    injection H as <-. split; [|split].
    + destruct (decide (PosixPath.joinpath dst (PosixPath.basename src) = src))
        as [->|Hd].
      * right. apply lookup_insert_eq.
      * left. rewrite lookup_insert_ne by done. apply lookup_delete_eq.
    + intros q nq Hne Hq. left.
      assert (PosixPath.joinpath dst (PosixPath.basename src) <> q).
      { intros Heq. unfold FS.exists_ in He. by rewrite Heq, Hq in He. }
      rewrite lookup_insert_ne by done. by rewrite lookup_delete_ne.
    + eexists. apply lookup_insert_eq.
  - injection H as <-. split; [|split].
    + destruct (decide (dst = src)) as [->|Hd].
      * right. apply lookup_insert_eq.
      * left. rewrite lookup_insert_ne by done. apply lookup_delete_eq.
    + intros q nq Hne Hq. destruct (decide (dst = q)) as [->|Hd]; [by right|].
      left. rewrite lookup_insert_ne by done. by rewrite lookup_delete_ne.
    + eexists. apply lookup_insert_eq.
Qed.

(** X15: what relocation can and cannot do to the file system. No node
    other than the source is ever removed, and the only node that can be
    replaced is one at the path that is logged as the target. When nothing is
    logged, because no processed directory is set or because creating the
    directory or moving failed, every node is still in place, the source
    included. In every case the file itself is kept: its node is found
    somewhere afterwards, and at its old path there is either nothing or the
    file as it was. *)
Theorem X15_relocation_frame
    (E : environment) (h : directory_monitor.MediaFileHandler) (now : Z)
    (f f' : gmap string FS.node) (file_path : string) (duplicate : bool)
    (logged : option string) (n : FS.node) :
  f !! file_path = Some n ->
  directory_monitor._move_processed_file E h now f file_path duplicate
  = (f', logged) ->
  (forall q nq, q <> file_path -> f !! q = Some nq ->
                f' !! q = Some nq \/ logged = Some q)
  /\ (logged = None -> forall q nq, f !! q = Some nq -> f' !! q = Some nq)
  /\ (f' !! file_path = None \/ f' !! file_path = Some n)
  /\ (exists q, f' !! q = Some n).
Proof.
  intros Hn Hm. unfold directory_monitor._move_processed_file in Hm.
  assert (Hsame : f' = f -> 
            (forall q nq, q <> file_path -> f !! q = Some nq ->
                          f' !! q = Some nq \/ logged = Some q)
            /\ (logged = None -> forall q nq, f !! q = Some nq -> f' !! q = Some nq)
            /\ (f' !! file_path = None \/ f' !! file_path = Some n)
            /\ (exists q, f' !! q = Some n)).
  { intros ->. split; [by left|]. split; [done|]. split; [by right|]. by eexists. }
  destruct (directory_monitor.processed_dir h) as [pdir|];
    [|injection Hm as <- <-; by apply Hsame].
  destruct (PyStr.truthy pdir); cbn [negb] in Hm;
    [|injection Hm as <- <-; by apply Hsame].
  cbv zeta in Hm.
  destruct (FS.mkdir_parents f _) as [f1|] eqn:Hmk;
    [|injection Hm as <- <-; by apply Hsame].
  pose proof (mkdir_parents_keeps _ _ _ _ _ Hmk Hn) as Hn1.
  destruct (PosixPath.splitext (PosixPath.basename file_path)) as [name ext].
  destruct (FS.move f1 file_path _) as [f2|] eqn:Hmv; injection Hm as <- <-.
  - destruct (fs_move_frame _ _ _ _ _ Hmv Hn1) as (Hsrc & Hoth & Hex).
    split; [|split; [done|split; [exact Hsrc|exact Hex]]].
    intros q nq Hne Hq.
    pose proof (mkdir_parents_keeps _ _ _ _ _ Hmk Hq) as Hq1.
    destruct (Hoth q nq Hne Hq1) as [H| ->]; [by left|by right].
  - split; [|split; [|split]].
    + intros q nq _ Hq. left. by eapply mkdir_parents_keeps.
    + intros _ q nq Hq. by eapply mkdir_parents_keeps.
    + by right.
    + by eexists.
Qed.

Lemma X15_relocation_frame_witness :
  let r := directory_monitor._move_processed_file Sample.env Sample.moving_handler
             7 Sample.watched_taken "/w/a.jpg" false in
  Sample.watched_taken !! "/w/a.jpg" = Some (FS.RegularFile "X" true)
  /\ snd r = Some "/p/imported/a_20260102_030405.jpg"
  /\ fst r !! "/p/imported/a.jpg" = Some (FS.RegularFile "old" true)
  /\ fst r !! "/w/a.jpg" = None.
Proof.
  intros r.
  assert (Hn : Sample.watched_taken !! "/w/a.jpg" = Some (FS.RegularFile "X" true))
    by reflexivity.
  assert (Hr : directory_monitor._move_processed_file Sample.env
                 Sample.moving_handler 7 Sample.watched_taken "/w/a.jpg" false
               = (fst r, Some "/p/imported/a_20260102_030405.jpg"))
    by (vm_compute; reflexivity).
  split; [exact Hn|]. split; [vm_compute; reflexivity|].
  destruct (X15_relocation_frame _ _ _ _ _ _ _ _ _ Hn Hr) as (Hoth & _ & Hsrc & _).
  split.
  - destruct (Hoth "/p/imported/a.jpg" (FS.RegularFile "old" true)) as [H|H];
      [discriminate|reflexivity|exact H|discriminate H].
  - destruct Hsrc as [H|H]; [exact H|].
    exfalso. vm_compute in H. discriminate H.
Defined.

(** After relocation the old path holds nothing or the file as it was. *)
Lemma move_processed_source E h now f src dup n :
  f !! src = Some n ->
  fst (directory_monitor._move_processed_file E h now f src dup) !! src = None
  \/ fst (directory_monitor._move_processed_file E h now f src dup) !! src = Some n.
Proof.
  intros Hn. unfold directory_monitor._move_processed_file.
  destruct (directory_monitor.processed_dir h) as [pdir|]; [|by right].
  destruct (PyStr.truthy pdir); cbn [negb]; [|by right].
  destruct (FS.mkdir_parents f _) as [f1|] eqn:Hmk; [|by right].
  pose proof (mkdir_parents_keeps _ _ _ _ _ Hmk Hn) as Hn1.
  destruct (PosixPath.splitext (PosixPath.basename src)) as [name ext].
  destruct (FS.move f1 src _) as [f2|] eqn:Hmv; cbn [fst]; [|by right].
  exact (proj1 (fs_move_frame _ _ _ _ _ Hmv Hn1)).
Qed.

(** X16: a file that the event-driven import has imported is not imported
    a second time by a later event for the same path. Whether or not the file
    was relocated, the later import ends as [FileMissing] or as
    [DuplicateSkipped] with the media of the first import, and the Media table
    and its key counter stay as the first import left them. *)
Theorem X16_same_path_not_reimported
    (E : environment) (h : directory_monitor.MediaFileHandler) (s : settings)
    (now1 now2 : Z) (w w1 : world) (p : string) (m : MediaModel.Media) :
  directory_monitor._import_media_file E h s now1 w p
  = (w1, directory_monitor.Imported m) ->
  exists w2 o,
    directory_monitor._import_media_file E h s now2 w1 p = (w2, o)
    /\ (o = directory_monitor.FileMissing
        \/ o = directory_monitor.DuplicateSkipped m)
    /\ media w2 = media w1
    /\ media_seq w2 = media_seq w1.
Proof.
  intros Hi.
  destruct (import_media_file_imported E h s now1 w p w1 m Hi)
    as (c & Hn & Hnz & Hle & Ht & Hf & Hsum & Hmed & Hfs).
  assert (Hp : fs w1 !! p = None \/ fs w1 !! p = Some (FS.RegularFile c true)).
  { rewrite Hfs. destruct (directory_monitor.move_configured h); [|by right].
    by apply move_processed_source. }
  destruct Hp as [Hp|Hp].
  - exists w1, directory_monitor.FileMissing.
    unfold directory_monitor._import_media_file, FS.exists_. rewrite Hp.
    cbn [negb]. split; [reflexivity|]. split; [by left|]. by split.
  - pose proof (import_media_file_valid E h s now2 w1 p c Hp Hnz Hle Ht) as Hv.
    rewrite Hmed, (filter_md5sum_first_app _ _ _ Hf Hsum) in Hv.
    destruct Hv as (w2 & Hv & Hmed2 & Hseq2).
    exists w2, (directory_monitor.DuplicateSkipped m).
    split; [exact Hv|]. split; [by right|]. split; [|exact Hseq2].
    by rewrite Hmed2, Hmed.
Qed.

Lemma X16_same_path_not_reimported_witness :
  Sample.twin_import
  = (fst Sample.twin_import, directory_monitor.Imported Sample.twin_media)
  /\ exists w2 o,
       directory_monitor._import_media_file Sample.env Sample.handler
         Sample.one_byte_ceiling 9 (fst Sample.twin_import) "/w/a.jpg" = (w2, o)
       /\ (o = directory_monitor.FileMissing
           \/ o = directory_monitor.DuplicateSkipped Sample.twin_media)
       /\ media w2 = media (fst Sample.twin_import)
       /\ media_seq w2 = media_seq (fst Sample.twin_import).
Proof.
  assert (Hi : Sample.twin_import
               = (fst Sample.twin_import,
                  directory_monitor.Imported Sample.twin_media))
    by (vm_compute; reflexivity).
  split; [exact Hi|].
  exact (X16_same_path_not_reimported Sample.env Sample.handler
           Sample.one_byte_ceiling 7 9 (Sample.empty_world Sample.watched_twins)
           (fst Sample.twin_import) "/w/a.jpg" Sample.twin_media Hi).
Defined.
